(** * pic32prog, adapter-neofoxx.c: the serial JTAG/ICSP adapter back end

    A shallow embedding of the packet transport, the JTAG encoder, the
    serial-execution bootstrap and the Programming-Executive (PE) client of
    [adapter-neofoxx.c], with the properties of its specification that can be
    stated over it.

    Conventions of the embedding.
    - C integers are [Z]; where the C type wraps (uint8_t, uint16_t,
      uint32_t, unsigned) the wrap-around is written out with [u8], [u16],
      [u32]; a uint64_t is the value of its eight bytes ([le_word]).  The
      [int] counters of the session ([bytes_to_read], [bytes_in_buffer],
      [current_pos_input]) stay far below 2^31 and are plain [Z].
    - [memcpy] of an integer into a byte buffer is little-endian
      ([le_bytes]), as on the hosts the tool is built for.
    - The transmit buffer [output[2048]] together with [bytes_to_write] is
      the list [output] of the bytes queued so far, so that
      [bytes_to_write] is its length; the capacity of the array is not
      checked by the source and is not modelled.
    - [exit(-1)] is the outcome [Exit]; a [serial_read] loop that the
      device never satisfies is the outcome [Hang].
    - Messages guarded by [debug_level], and [mdelay], have no effect on
      the session and are left out ([mdelay] is kept as a no-op to keep the
      shape of the code). *)

From Stdlib Require Import ZArith List Bool Lia.
Import ListNotations.
Open Scope Z_scope.

(** ** Machine integers and byte views *)

Definition u8 (x : Z) : Z := x mod 256.
Definition u16 (x : Z) : Z := x mod 65536.
Definition u32 (x : Z) : Z := x mod 4294967296.

(** [memcpy(dst, &v, n)] of an [n]-byte integer [v]. *)
Fixpoint le_bytes (n : nat) (v : Z) : list Z :=
  match n with
  | O => []
  | S n' => v mod 256 :: le_bytes n' (v / 256)
  end.

(** [memcpy(&word, src, n)] of [n] bytes of a [uint8_t] buffer. *)
Fixpoint le_word (bs : list Z) : Z :=
  match bs with
  | [] => 0
  | b :: bs' => b mod 256 + 256 * le_word bs'
  end.

(** [l[i] = v] on a buffer. *)
Fixpoint store (i : nat) (v : Z) (l : list Z) : list Z :=
  match l, i with
  | [], _ => []
  | _ :: l', O => v :: l'
  | x :: l', S i' => x :: store i' v l'
  end.

(** ** calculate_crc *)

Definition crc_table : list Z :=
  [ 0x0000; 0x1021; 0x2042; 0x3063; 0x4084; 0x50a5; 0x60c6; 0x70e7;
    0x8108; 0x9129; 0xa14a; 0xb16b; 0xc18c; 0xd1ad; 0xe1ce; 0xf1ef ].

(** One turn of the [while (nbytes--)] loop; [crc] is an [unsigned]. *)
Definition crc_step (crc byte : Z) : Z :=
  let i := Z.lxor (Z.shiftr crc 12) (Z.shiftr byte 4) in
  let crc := u32 (Z.lxor (nth (Z.to_nat (Z.land i 0x0F)) crc_table 0)
                         (Z.shiftl crc 4)) in
  let i := Z.lxor (Z.shiftr crc 12) (Z.shiftr byte 0) in
  u32 (Z.lxor (nth (Z.to_nat (Z.land i 0x0F)) crc_table 0) (Z.shiftl crc 4)).

(** [calculate_crc(crc, data, nbytes)]: [data] is the byte view of the
    caller's buffer, of which the first [nbytes] bytes are read. *)
Definition calculate_crc (crc : Z) (data : list Z) (nbytes : Z) : Z :=
  Z.land (fold_left crc_step (firstn (Z.to_nat nbytes) data) crc) 0xffff.

(** ** Constants of pic32.h and adapter.h *)

(** Modelled from the spec: adapter.h is not part of the source at hand;
    the interface mode of a session is one of default, JTAG and ICSP. *)
Inductive interface_t : Type :=
| INTERFACE_DEFAULT
| INTERFACE_JTAG
| INTERFACE_ICSP.

(** Modelled from the spec: pic32.h is not part of the source at hand; the
    family of a session is one of MX1, MX3, MK, MZ and MM. *)
Inductive family_t : Type :=
| FAMILY_MX1
| FAMILY_MX3
| FAMILY_MK
| FAMILY_MZ
| FAMILY_MM.

Definition interface_eqb (x y : interface_t) : bool :=
  match x, y with
  | INTERFACE_DEFAULT, INTERFACE_DEFAULT
  | INTERFACE_JTAG, INTERFACE_JTAG
  | INTERFACE_ICSP, INTERFACE_ICSP => true
  | _, _ => false
  end.

Definition family_eqb (x y : family_t) : bool :=
  match x, y with
  | FAMILY_MX1, FAMILY_MX1
  | FAMILY_MX3, FAMILY_MX3
  | FAMILY_MK, FAMILY_MK
  | FAMILY_MZ, FAMILY_MZ
  | FAMILY_MM, FAMILY_MM => true
  | _, _ => false
  end.

(** The numeric macros of pic32.h that the adapter uses.  The header is not
    part of the source at hand, so the development is parametric in them. *)
Class pic32_h : Type := {
  MTAP_COMMAND : Z;
  TAP_SW_MTAP : Z;
  TAP_SW_ETAP : Z;
  MTAP_IDCODE : Z;
  ETAP_ADDRESS : Z;
  ETAP_DATA : Z;
  ETAP_CONTROL : Z;
  ETAP_EJTAGBOOT : Z;
  ETAP_FASTDATA : Z;
  ETAP_NORMALBOOT : Z;
  MTAP_COMMAND_NBITS : Z;
  ETAP_COMMAND_NBITS : Z;
  MTAP_COMMAND_DR_NBITS : Z;
  MCHP_STATUS : Z;
  MCHP_ASSERT_RST : Z;
  MCHP_DEASSERT_RST : Z;
  MCHP_FLASH_ENABLE : Z;
  MCHP_STATUS_CPS : Z;
  CONTROL_PRACC : Z;
  CONTROL_PROBEN : Z;
  CONTROL_PROBTRAP : Z;
  CONTROL_EJTAGBRK : Z;
  PE_READ : Z;
  PE_WORD_PROGRAM : Z;
  PE_QUAD_WORD_PGRM : Z;
  PE_GET_CRC : Z
}.

(** The values the PIC32 Flash Programming Specification assigns to these
    macros.  They instantiate the parameters wherever a run is evaluated; the
    statements made for every [pic32_h] do not depend on them. *)
Definition pic32_values : pic32_h := {|
  MTAP_COMMAND := 0x07;
  TAP_SW_MTAP := 0x04;
  TAP_SW_ETAP := 0x05;
  MTAP_IDCODE := 0x01;
  ETAP_ADDRESS := 0x08;
  ETAP_DATA := 0x09;
  ETAP_CONTROL := 0x0a;
  ETAP_EJTAGBOOT := 0x0c;
  ETAP_FASTDATA := 0x0e;
  ETAP_NORMALBOOT := 0x0d;
  MTAP_COMMAND_NBITS := 5;
  ETAP_COMMAND_NBITS := 5;
  MTAP_COMMAND_DR_NBITS := 8;
  MCHP_STATUS := 0x00;
  MCHP_ASSERT_RST := 0xd1;
  MCHP_DEASSERT_RST := 0xd0;
  MCHP_FLASH_ENABLE := 0xfe;
  MCHP_STATUS_CPS := 0x80;
  CONTROL_PRACC := 0x40000;
  CONTROL_PROBEN := 0x8000;
  CONTROL_PROBTRAP := 0x4000;
  CONTROL_EJTAGBRK := 0x1000;
  PE_READ := 0x1;
  PE_WORD_PROGRAM := 0x3;
  PE_QUAD_WORD_PGRM := 0xd;
  PE_GET_CRC := 0x8
|}.

(** ** The macros of adapter-neofoxx.c *)

Definition TMS_HEADER_COMMAND_NBITS : Z := 4.
Definition TMS_HEADER_COMMAND_VAL : Z := 3.
Definition TMS_HEADER_XFERDATA_NBITS : Z := 3.
Definition TMS_HEADER_XFERDATA_VAL : Z := 1.
Definition TMS_HEADER_XFERDATAFAST_NBITS : Z := 3.
Definition TMS_HEADER_XFERDATAFAST_VAL : Z := 1.
Definition TMS_HEADER_RESET_TAP_NBITS : Z := 6.
Definition TMS_HEADER_RESET_TAP_VAL : Z := 31.

Definition TMS_FOOTER_COMMAND_NBITS : Z := 2.
Definition TMS_FOOTER_COMMAND_VAL : Z := 1.
Definition TMS_FOOTER_XFERDATA_NBITS : Z := 2.
Definition TMS_FOOTER_XFERDATA_VAL : Z := 1.
Definition TMS_FOOTER_XFERDATAFAST_NBITS : Z := 2.
Definition TMS_FOOTER_XFERDATAFAST_VAL : Z := 1.

Definition SET_MODE_TAP_RESET : Z := 0.
Definition SET_MODE_EXIT : Z := 1.
Definition SET_MODE_ICSP_SYNC : Z := 2.

Definition PACKET_BYTE : Z := 0x70.

Definition COMMAND_SET_PIN_IO_MODE : Z := 3.
Definition COMMAND_SEND : Z := 6.

Definition PIN_MCLR : Z := 4.
Definition PIN_DIR_OUTPUT : Z := 0.
Definition PIN_DIR_INPUT : Z := 1.
Definition PIN_VAL_LOW : Z := 0.
Definition PIN_VAL_HIGH : Z := 1.
Definition PIN_SET_OUTPUT_LOW : Z := 0.
Definition PIN_SET_OUTPUT_HIGH : Z := 1.
Definition PIN_SET_INPUT : Z := 2.

Definition WAY_OLD : Z := 0.
Definition WAY_NEW : Z := 1.

(** ** The session, the serial port and the error stream *)

(** [neofoxx_adapter_t], without the fields no modelled function touches
    (name, speed, capability strings). *)
Record neofoxx_adapter_t : Type := mkAdapter {
  family_name_short : family_t;
  output : list Z;
  bytes_to_read : Z;
  input : list Z;
  bytes_in_buffer : Z;
  current_pos_input : Z;
  interface : interface_t;
  use_executive : Z;
  serial_execution_mode : Z;
  way : Z
}.

Definition bytes_to_write (a : neofoxx_adapter_t) : Z :=
  Z.of_nat (length (output a)).

(** The serial port of serial.h, which is outside the source at hand.
    [rx] scripts the device: its i-th element is what is waiting when the
    i-th [serial_read] is made (an empty element is a read that times out,
    an exhausted script a device that stays silent).  [wr] scripts the
    values returned by the successive [serial_write] calls (negative for an
    error); once it is exhausted the port takes all it is offered.  [tx]
    collects the packets handed to the port. *)
Record serial_t : Type := mkSerial {
  rx : list (list Z);
  wr : list Z;
  tx : list (list Z)
}.

(** The lines written to stderr outside [debug_level] guards. *)
Inductive diag : Type :=
| ErrLessThan4Bytes
| ErrDuringWriting
| ErrInvalidMode
| ErrInvalidCommand (command : Z)
| WarnPrACCNotSet
| ErrCtlWas (ctl : Z)
| ErrProcessorNotReady
| ErrCpsSet (status : Z)
| ErrFailedSerialExecution (status : Z)
| MsgRecoverAutomatically
| ErrOnlyPowerCycle
| ErrCouldntEnter
| MsgWorkaround
| ErrBadReadResponse (response : Z)
| ErrWordNotOnMM
| ErrQuadOnlyMKMZ
| ErrSlowWriteNotImplemented
| ErrSlowVerifyNotImplemented
| ErrProgramWordFailed (word addr response : Z)
| ErrProgramQuadFailed (addr response : Z)
| ErrVerifyFailed (nwords addr response : Z)
| ErrChecksumFailed (addr flash_crc data_crc : Z)
| ErrWayNewNotImplemented.

Record world : Type := mkWorld {
  ses : neofoxx_adapter_t;
  port : serial_t;
  stderr : list diag
}.

(** What a call ends in: a normal return, [exit(-1)], a read loop the device
    never satisfies, or (for the two loops of the source that have no bound
    of their own) a model that ran out of the steps it was given. *)
Inductive outcome (A : Type) : Type :=
| Ret (a : A) (w : world)
| Exit (w : world)
| Hang (w : world)
| OutOfFuel (w : world).

Arguments Ret {A} a w.
Arguments Exit {A} w.
Arguments Hang {A} w.
Arguments OutOfFuel {A} w.

Definition world_of {A : Type} (o : outcome A) : world :=
  match o with
  | Ret _ w | Exit w | Hang w | OutOfFuel w => w
  end.

Definition M (A : Type) : Type := world -> outcome A.

Definition ret {A : Type} (a : A) : M A := fun w => Ret a w.

Definition bind {A B : Type} (m : M A) (k : A -> M B) : M B :=
  fun w =>
    match m w with
    | Ret a w' => k a w'
    | Exit w' => Exit w'
    | Hang w' => Hang w'
    | OutOfFuel w' => OutOfFuel w'
    end.

Declare Scope prog_scope.
Delimit Scope prog_scope with prog.
Notation "x <- m ;; k" := (bind m (fun x => k))
  (at level 61, m at next level, right associativity) : prog_scope.
Notation "m ;; k" := (bind m (fun _ => k))
  (at level 61, right associativity) : prog_scope.
Open Scope prog_scope.

Definition exit_ {A : Type} : M A := fun w => Exit w.
Definition hang {A : Type} : M A := fun w => Hang w.
Definition out_of_fuel {A : Type} : M A := fun w => OutOfFuel w.

Definition gets {A : Type} (f : neofoxx_adapter_t -> A) : M A :=
  fun w => Ret (f (ses w)) w.

Definition modify (f : neofoxx_adapter_t -> neofoxx_adapter_t) : M unit :=
  fun w => Ret tt (mkWorld (f (ses w)) (port w) (stderr w)).

Definition fprintf_stderr (d : diag) : M unit :=
  fun w => Ret tt (mkWorld (ses w) (port w) (stderr w ++ [d])).

Definition mdelay (ms : Z) : M unit := ret tt.

Definition set_output (o : list Z) (a : neofoxx_adapter_t) : neofoxx_adapter_t :=
  mkAdapter (family_name_short a) o (bytes_to_read a) (input a)
            (bytes_in_buffer a) (current_pos_input a) (interface a)
            (use_executive a) (serial_execution_mode a) (way a).

Definition set_bytes_to_read (n : Z) (a : neofoxx_adapter_t) : neofoxx_adapter_t :=
  mkAdapter (family_name_short a) (output a) n (input a)
            (bytes_in_buffer a) (current_pos_input a) (interface a)
            (use_executive a) (serial_execution_mode a) (way a).

Definition set_input (i : list Z) (a : neofoxx_adapter_t) : neofoxx_adapter_t :=
  mkAdapter (family_name_short a) (output a) (bytes_to_read a) i
            (bytes_in_buffer a) (current_pos_input a) (interface a)
            (use_executive a) (serial_execution_mode a) (way a).

Definition set_bytes_in_buffer (n : Z) (a : neofoxx_adapter_t) : neofoxx_adapter_t :=
  mkAdapter (family_name_short a) (output a) (bytes_to_read a) (input a)
            n (current_pos_input a) (interface a)
            (use_executive a) (serial_execution_mode a) (way a).

Definition set_current_pos_input (n : Z) (a : neofoxx_adapter_t) : neofoxx_adapter_t :=
  mkAdapter (family_name_short a) (output a) (bytes_to_read a) (input a)
            (bytes_in_buffer a) n (interface a)
            (use_executive a) (serial_execution_mode a) (way a).

Definition set_serial_execution_mode (n : Z) (a : neofoxx_adapter_t) : neofoxx_adapter_t :=
  mkAdapter (family_name_short a) (output a) (bytes_to_read a) (input a)
            (bytes_in_buffer a) (current_pos_input a) (interface a)
            (use_executive a) n (way a).

(** ** Packet transport *)

(** [add_to_packet(a, data, nbytes)]: [data] is the list of the [nbytes]
    bytes copied. *)
Definition add_to_packet (data : list Z) : M unit :=
  n <- gets bytes_to_write ;;
  (if n =? 0
   then modify (fun a => set_output (output a ++ [PACKET_BYTE; 0; 0]) a)
   else ret tt) ;;
  modify (fun a => set_output (output a ++ data) a).

(** The [for (counter = 2; ...)] loop of [bulk_write]; [crc] is a
    [uint32_t]. *)
Definition packet_sum (out : list Z) : Z :=
  fold_left (fun crc b => u32 (crc + b)) (skipn 2 out) 0.

(** The [while (0 < a->bytes_to_write)] loop of [bulk_write] over the
    scripted results of [serial_write]: what is left of the script, and the
    lines logged. *)
Fixpoint write_loop (script : list Z) (to_write : Z) : list Z * list diag :=
  if 0 <? to_write then
    match script with
    | [] => ([], [])
    | temp :: script' =>
        if 0 >? temp
        then let (s, e) := write_loop script' to_write in
             (s, ErrDuringWriting :: e)
        else write_loop script' (to_write - temp)
    end
  else (script, []).

(** The packet [bulk_write] hands to the port: the checksum byte appended,
    then the two length bytes patched. *)
Definition finish_packet (out : list Z) : list Z :=
  let out := out ++ [u8 (Z.land (packet_sum out) 0xFF)] in
  let shortTemp := u16 (Z.of_nat (length out) - 3) in
  let out := store 2 (u8 (Z.shiftr shortTemp 8)) out in
  store 1 (Z.land shortTemp 0xFF) out.

Definition bulk_write : M unit :=
  fun w =>
    let a := ses w in
    if 4 >? bytes_to_write a
    then fprintf_stderr ErrLessThan4Bytes w
    else
      let packet := finish_packet (output a) in
      let (script, errs) := write_loop (wr (port w)) (Z.of_nat (length packet)) in
      Ret tt (mkWorld (set_output [] a)
                      (mkSerial (rx (port w)) script (tx (port w) ++ [packet]))
                      (stderr w ++ errs)).

(** The [while (a->bytes_in_buffer < a->bytes_to_read)] loop of
    [neofoxx_flush_output] over the scripted [serial_read]: [got] is
    [input[0 .. bytes_in_buffer)].  A read is offered what is waiting and
    takes at most the room that is left; what it leaves stays at the head
    of the script, and the loop is then satisfied. *)
Fixpoint read_loop (script : list (list Z)) (got : list Z) (to_read : Z)
  : option (list Z * list (list Z)) :=
  if Z.of_nat (length got) <? to_read then
    match script with
    | [] => None
    | chunk :: script' =>
        let room := Z.to_nat (to_read - Z.of_nat (length got)) in
        if (length chunk <=? room)%nat
        then read_loop script' (got ++ chunk) to_read
        else Some (got ++ firstn room chunk, skipn room chunk :: script')
    end
  else Some (got, script).

Definition get_reply : M unit :=
  fun w =>
    let a := ses w in
    match read_loop (rx (port w)) [] (bytes_to_read a) with
    | None => Hang w
    | Some (got, script) =>
        Ret tt (mkWorld
                  (set_bytes_in_buffer (Z.of_nat (length got))
                     (set_input (got ++ skipn (length got) (input a)) a))
                  (mkSerial script (wr (port w)) (tx (port w)))
                  (stderr w))
    end.

Definition neofoxx_flush_output : M unit :=
  n <- gets bytes_to_write ;;
  if n <=? 0 then ret tt
  else
    bulk_write ;;
    modify (set_output []) ;;
    r <- gets bytes_to_read ;;
    if r <=? 0 then ret tt
    else
      get_reply ;;
      modify (set_bytes_to_read 0) ;;
      modify (set_current_pos_input 0).

(** ** JTAG encoder *)

Definition neofoxx_setPins (preset pin pin_dir pin_val immediate : Z) : M unit :=
  let data := [COMMAND_SET_PIN_IO_MODE; u8 pin] ++
              (if PIN_DIR_INPUT =? pin_dir then [PIN_SET_INPUT]
               else if PIN_VAL_LOW =? pin_val then [PIN_SET_OUTPUT_LOW]
                    else [PIN_SET_OUTPUT_HIGH]) in
  add_to_packet data ;;
  if immediate =? 0 then ret tt else neofoxx_flush_output.

(** The bytes [neofoxx_send] builds in [data]. *)
Definition send_data (tms_prolog_nbits tms_prolog tdi_nbits tdi
                      tms_epilog_nbits tms_epilog read_flag : Z) : list Z :=
  [COMMAND_SEND]
  ++ le_bytes 4 tms_prolog_nbits ++ le_bytes 4 tms_prolog
  ++ le_bytes 4 tdi_nbits ++ le_bytes 8 tdi
  ++ le_bytes 4 tms_epilog_nbits ++ le_bytes 4 tms_epilog
  ++ le_bytes 4 read_flag.

Definition neofoxx_send (tms_prolog_nbits tms_prolog tdi_nbits tdi
                         tms_epilog_nbits tms_epilog read_flag : Z) : M unit :=
  let data := send_data tms_prolog_nbits tms_prolog tdi_nbits tdi
                        tms_epilog_nbits tms_epilog read_flag in
  add_to_packet data ;;
  if u32 read_flag =? 0 then ret tt
  else modify (fun a => set_bytes_to_read (bytes_to_read a + 8) a).

Definition neofoxx_recv : M Z :=
  neofoxx_flush_output ;;
  pos <- gets current_pos_input ;;
  inp <- gets input ;;
  let word := le_word (firstn 8 (skipn (Z.to_nat pos) inp)) in
  modify (set_current_pos_input (pos + 8)) ;;
  ret word.

(** The [for] loop of [neofoxx_bitReversal], [counter] running down from
    [n - 1] in the recursion and so up from 0 in the fold. *)
Fixpoint bitReversal_from (n : nat) (input output : Z) : Z :=
  match n with
  | O => output
  | S n' =>
      let output := bitReversal_from n' input output in
      let counter := Z.of_nat n' in
      if Z.land input (Z.shiftl 1 counter) =? 0 then output
      else Z.lor output (Z.shiftl 1 (31 - counter))
  end.

Definition neofoxx_bitReversal (input : Z) : Z := bitReversal_from 32 input 0.

Definition jtag_or_default (i : interface_t) : bool :=
  interface_eqb INTERFACE_JTAG i || interface_eqb INTERFACE_DEFAULT i.

Definition neofoxx_setMode (mode immediate : Z) : M unit :=
  i <- gets interface ;;
  (if SET_MODE_TAP_RESET =? mode then
     neofoxx_send TMS_HEADER_RESET_TAP_NBITS TMS_HEADER_RESET_TAP_VAL 0 0 0 0 0
   else if SET_MODE_EXIT =? mode then
     neofoxx_send 5 0x1F 0 0 0 0 0
   else if (SET_MODE_ICSP_SYNC =? mode) && jtag_or_default i then
     let entryCode := neofoxx_bitReversal 0x4D434850 in
     neofoxx_send 8 (Z.land entryCode 0xFF) 0 0 0 0 0 ;;
     neofoxx_send 8 (Z.land (Z.shiftr entryCode 8) 0xFF) 0 0 0 0 0 ;;
     neofoxx_send 8 (Z.land (Z.shiftr entryCode 16) 0xFF) 0 0 0 0 0 ;;
     neofoxx_send 8 (Z.land (Z.shiftr entryCode 24) 0xFF) 0 0 0 0 0
   else
     fprintf_stderr ErrInvalidMode ;; exit_) ;;
  if immediate =? 0 then ret tt else neofoxx_flush_output.

Section Adapter.
Context {K : pic32_h}.

Definition is_mtap_command (command : Z) : bool :=
  (MTAP_COMMAND =? command) || (TAP_SW_MTAP =? command)
  || (TAP_SW_ETAP =? command) || (MTAP_IDCODE =? command).

Definition is_etap_command (command : Z) : bool :=
  (ETAP_ADDRESS =? command) || (ETAP_DATA =? command)
  || (ETAP_CONTROL =? command) || (ETAP_EJTAGBOOT =? command)
  || (ETAP_FASTDATA =? command) || (ETAP_NORMALBOOT =? command).

Definition neofoxx_sendCommand (command immediate : Z) : M unit :=
  (if negb (is_mtap_command command) && negb (is_etap_command command)
   then fprintf_stderr (ErrInvalidCommand command) ;; exit_
   else ret tt) ;;
  (if negb (is_mtap_command command) then
     neofoxx_send TMS_HEADER_COMMAND_NBITS TMS_HEADER_COMMAND_VAL
                  MTAP_COMMAND_NBITS command
                  TMS_FOOTER_COMMAND_NBITS TMS_FOOTER_COMMAND_VAL 0
   else if negb (is_etap_command command) then
     neofoxx_send TMS_HEADER_COMMAND_NBITS TMS_HEADER_COMMAND_VAL
                  ETAP_COMMAND_NBITS command
                  TMS_FOOTER_COMMAND_NBITS TMS_FOOTER_COMMAND_VAL 0
   else ret tt) ;;
  if immediate =? 0 then ret tt else neofoxx_flush_output.

(** [iData] is a [uint32_t], widened to the [uint64_t] [tdi] of
    [neofoxx_send]. *)
Definition neofoxx_xferData (nBits iData readFlag immediate : Z) : M Z :=
  neofoxx_send TMS_HEADER_XFERDATA_NBITS TMS_HEADER_XFERDATA_VAL
               nBits (u32 iData)
               TMS_FOOTER_XFERDATA_NBITS TMS_FOOTER_XFERDATA_VAL
               readFlag ;;
  if u32 readFlag =? 0 then
    (if immediate =? 0 then ret tt else neofoxx_flush_output) ;;
    ret 0
  else neofoxx_recv.

Definition neofoxx_xferFastData_PC_slow (word readFlag : Z) : M Z :=
  neofoxx_send TMS_HEADER_XFERDATAFAST_NBITS TMS_HEADER_XFERDATAFAST_VAL
               33 (Z.shiftl (u32 word) 1)
               TMS_FOOTER_XFERDATAFAST_NBITS TMS_FOOTER_XFERDATAFAST_VAL
               1 ;;
  temp <- neofoxx_recv ;;
  (if Z.land temp 0x01 =? 0 then fprintf_stderr WarnPrACCNotSet else ret tt) ;;
  if readFlag =? 0 then ret 0 else ret temp.

(** The [do ... while (!(ctl & CONTROL_PROBEN))] loop of
    [neofoxx_xferInstruction_PC_slow]; [left] bounds the turns, and 40 is
    enough since the 41st failure exits. *)
Fixpoint wait_proben (left : nat) (maxCounter : Z) : M unit :=
  ctl <- neofoxx_xferData 32
           (Z.lor (Z.lor (Z.lor CONTROL_PRACC CONTROL_PROBEN) CONTROL_PROBTRAP)
                  CONTROL_EJTAGBRK) 1 1 ;;
  let ctl := u32 ctl in
  if Z.land ctl CONTROL_PROBEN =? 0 then
    fprintf_stderr (ErrCtlWas ctl) ;;
    let maxCounter := maxCounter + 1 in
    if maxCounter >? 40 then
      fprintf_stderr ErrProcessorNotReady ;; exit_
    else
      mdelay 1000 ;;
      match left with
      | O => out_of_fuel
      | S left' => wait_proben left' maxCounter
      end
  else ret tt.

Definition neofoxx_xferInstruction_PC_slow (instruction : Z) : M unit :=
  neofoxx_sendCommand ETAP_CONTROL 1 ;;
  wait_proben 40 0 ;;
  neofoxx_sendCommand ETAP_DATA 1 ;;
  neofoxx_xferData 32 instruction 0 1 ;;
  neofoxx_sendCommand ETAP_CONTROL 1 ;;
  neofoxx_xferData 32 (Z.lor CONTROL_PROBEN CONTROL_PROBTRAP) 0 1 ;;
  ret tt.

(** ** Serial-execution bootstrap *)

Definition CONTROL_POLL : Z :=
  Z.lor (Z.lor CONTROL_PRACC CONTROL_PROBEN) CONTROL_PROBTRAP.

(** The inner [do ... while (!(status & CONTROL_PROBEN) && counterPre-- > 1)]
    loop; [status] is a [uint64_t]. *)
Fixpoint poll_control (counterPre : nat) : M Z :=
  status <- neofoxx_xferData 32 CONTROL_POLL 1 1 ;;
  if Z.land status CONTROL_PROBEN =? 0 then
    match counterPre with
    | S c => match c with
             | S _ => poll_control c
             | O => ret status
             end
    | O => ret status
    end
  else ret status.

Definition is_mx1_or_mx3 (f : family_t) : bool :=
  family_eqb FAMILY_MX1 f || family_eqb FAMILY_MX3 f.

(** The recovery branch taken when the control register does not show
    ProbEn. *)
Definition entry_failed (status : Z) : M unit :=
  fprintf_stderr (ErrFailedSerialExecution (u32 status)) ;;
  i <- gets interface ;;
  if jtag_or_default i then
    f <- gets family_name_short ;;
    (if is_mx1_or_mx3 f then
       fprintf_stderr MsgRecoverAutomatically ;;
       neofoxx_setPins (-1) PIN_MCLR PIN_DIR_OUTPUT PIN_VAL_LOW 1 ;;
       neofoxx_flush_output ;;
       mdelay 5 ;;
       neofoxx_setMode SET_MODE_ICSP_SYNC 1 ;;
       mdelay 5 ;;
       neofoxx_setPins (-1) PIN_MCLR PIN_DIR_OUTPUT PIN_VAL_HIGH 1 ;;
       neofoxx_flush_output ;;
       mdelay 5
     else
       fprintf_stderr ErrOnlyPowerCycle ;; exit_) ;;
    mdelay 100
  else ret tt.

(** The body of the outer [do ... while] loop of [serial_execution]; it
    yields the last [status] read from the control register. *)
Definition entry_attempt : M Z :=
  i <- gets interface ;;
  (if interface_eqb INTERFACE_ICSP i
   then neofoxx_xferData MTAP_COMMAND_DR_NBITS MCHP_ASSERT_RST 0 1 ;; ret tt
   else ret tt) ;;
  i <- gets interface ;;
  (if jtag_or_default i
   then neofoxx_setPins (-1) PIN_MCLR PIN_DIR_OUTPUT PIN_VAL_LOW 1 ;;
        neofoxx_flush_output
   else ret tt) ;;
  neofoxx_sendCommand TAP_SW_ETAP 1 ;;
  neofoxx_setMode SET_MODE_TAP_RESET 1 ;;
  neofoxx_sendCommand ETAP_EJTAGBOOT 1 ;;
  i <- gets interface ;;
  (if jtag_or_default i
   then neofoxx_setPins (-1) PIN_MCLR PIN_DIR_OUTPUT PIN_VAL_HIGH 1 ;;
        neofoxx_flush_output
   else
     neofoxx_sendCommand TAP_SW_MTAP 1 ;;
     neofoxx_setMode SET_MODE_TAP_RESET 1 ;;
     neofoxx_sendCommand MTAP_COMMAND 1 ;;
     neofoxx_xferData MTAP_COMMAND_DR_NBITS MCHP_DEASSERT_RST 0 1 ;;
     f <- gets family_name_short ;;
     (if is_mx1_or_mx3 f
      then neofoxx_xferData MTAP_COMMAND_DR_NBITS MCHP_FLASH_ENABLE 0 1 ;; ret tt
      else ret tt) ;;
     neofoxx_sendCommand TAP_SW_ETAP 1 ;;
     neofoxx_setMode SET_MODE_TAP_RESET 1) ;;
  mdelay 10 ;;
  neofoxx_setMode SET_MODE_TAP_RESET 1 ;;
  neofoxx_sendCommand TAP_SW_ETAP 1 ;;
  neofoxx_setMode SET_MODE_TAP_RESET 1 ;;
  neofoxx_sendCommand ETAP_CONTROL 1 ;;
  status <- poll_control 11 ;;
  (if Z.land status CONTROL_PROBEN =? 0 then entry_failed status else ret tt) ;;
  ret status.

(** The outer [do ... while (!(status & CONTROL_PROBEN) && counter-- > 1)]
    loop; it yields the last [status] and the value [counter] is left
    with. *)
Fixpoint entry_loop (counter : nat) : M (Z * Z) :=
  status <- entry_attempt ;;
  if Z.land status CONTROL_PROBEN =? 0 then
    match counter with
    | S c => match c with
             | S _ => entry_loop c
             | O => ret (status, u32 (Z.of_nat counter - 1))
             end
    | O => ret (status, u32 (Z.of_nat counter - 1))
    end
  else ret (status, Z.of_nat counter).

(** What [serial_execution] does from the status read on. *)
Definition enter_serial_execution (status : Z) : M unit :=
  (if Z.land status MCHP_STATUS_CPS =? 0
   then fprintf_stderr (ErrCpsSet (u32 status)) ;; exit_
   else ret tt) ;;
  r <- entry_loop 20 ;;
  (if snd r =? 0 then fprintf_stderr ErrCouldntEnter else ret tt) ;;
  mdelay 10.

(** The status read that opens [serial_execution]. *)
Definition read_mchp_status : M Z :=
  neofoxx_sendCommand TAP_SW_MTAP 0 ;;
  neofoxx_setMode SET_MODE_TAP_RESET 1 ;;
  neofoxx_sendCommand MTAP_COMMAND 0 ;;
  neofoxx_xferData MTAP_COMMAND_DR_NBITS MCHP_STATUS 1 1.

Definition serial_execution : M unit :=
  sem <- gets serial_execution_mode ;;
  if negb (sem =? 0) then ret tt
  else
    modify (set_serial_execution_mode 1) ;;
    status <- read_mchp_status ;;
    enter_serial_execution status.

(** ** PE command client *)

Definition CONTROL_POLL_BRK : Z := Z.lor CONTROL_POLL CONTROL_EJTAGBRK.

(** The [do ... while (!(ctl & CONTROL_PRACC))] loop of [get_pe_response]:
    the source gives it no bound, and [fuel] is the number of further turns
    the model may take. *)
Fixpoint wait_pracc (fuel : nat) : M unit :=
  ctl <- neofoxx_xferData 32 CONTROL_POLL_BRK 1 1 ;;
  if Z.land (u32 ctl) CONTROL_PRACC =? 0 then
    match fuel with
    | O => out_of_fuel
    | S fuel' => wait_pracc fuel'
    end
  else ret tt.

Definition get_pe_response (fuel : nat) : M Z :=
  neofoxx_sendCommand ETAP_CONTROL 1 ;;
  wait_pracc fuel ;;
  neofoxx_sendCommand ETAP_DATA 1 ;;
  response <- neofoxx_xferData 32 0 1 1 ;;
  neofoxx_sendCommand ETAP_CONTROL 1 ;;
  neofoxx_xferData 32 (Z.lor CONTROL_PROBEN CONTROL_PROBTRAP) 0 1 ;;
  ret (u32 response).

(** One turn of the [do ... while (times-- > 0)] loop of
    [neofoxx_read_word]. *)
Definition read_word_once (addr : Z) : M Z :=
  let addr_lo := Z.land addr 0xFFFF in
  let addr_hi := Z.land (Z.shiftr addr 16) 0xFFFF in
  f <- gets family_name_short ;;
  if family_eqb FAMILY_MX1 f || family_eqb FAMILY_MX3 f
     || family_eqb FAMILY_MK f || family_eqb FAMILY_MZ f
  then
    neofoxx_xferInstruction_PC_slow 0x3c13ff20 ;;
    neofoxx_xferInstruction_PC_slow (Z.lor 0x3c080000 addr_hi) ;;
    neofoxx_xferInstruction_PC_slow (Z.lor 0x35080000 addr_lo) ;;
    neofoxx_xferInstruction_PC_slow 0x8d090000 ;;
    neofoxx_xferInstruction_PC_slow 0xae690000 ;;
    neofoxx_xferInstruction_PC_slow 0 ;;
    neofoxx_sendCommand ETAP_FASTDATA 1 ;;
    temp <- neofoxx_xferFastData_PC_slow 0 1 ;;
    ret (u32 (Z.shiftr temp 1))
  else
    neofoxx_xferInstruction_PC_slow 0xFF2041B3 ;;
    neofoxx_xferInstruction_PC_slow (u32 (Z.lor 0x000041A8 (Z.shiftl addr_hi 16))) ;;
    neofoxx_xferInstruction_PC_slow (u32 (Z.lor 0x00005108 (Z.shiftl addr_lo 16))) ;;
    neofoxx_xferInstruction_PC_slow 0x0000FD28 ;;
    neofoxx_xferInstruction_PC_slow 0x0000F933 ;;
    neofoxx_xferInstruction_PC_slow 0x0c000c00 ;;
    neofoxx_xferInstruction_PC_slow 0x0c000c00 ;;
    neofoxx_sendCommand ETAP_FASTDATA 1 ;;
    temp <- neofoxx_xferFastData_PC_slow 0 1 ;;
    ret (u32 (Z.shiftr temp 1)).

Fixpoint read_word_loop (times : nat) (addr : Z) : M Z :=
  word <- read_word_once addr ;;
  match times with
  | O => ret word
  | S times' => read_word_loop times' addr
  end.

(** The test [WAY_OLD == a->way || workaround] that guards the body of the
    user functions. *)
Definition old_way (workaround : Z) : M bool :=
  w <- gets way ;;
  ret ((WAY_OLD =? w) || negb (workaround =? 0)).

Definition neofoxx_read_word (addr : Z) : M Z :=
  let workaround := 1 in
  sem <- gets serial_execution_mode ;;
  let times := if sem =? 0 then 1%nat else 0%nat in
  serial_execution ;;
  old <- old_way workaround ;;
  if old then
    (if negb (workaround =? 0) then fprintf_stderr MsgWorkaround else ret tt) ;;
    read_word_loop times addr
  else
    fprintf_stderr ErrWayNewNotImplemented ;; ret 0.

(** The [for (; nwords > 0; nwords--)] loop of [neofoxx_read_data]; the
    words stored through [data] are returned in order. *)
Fixpoint read_words_slow (nwords : nat) (addr : Z) : M (list Z) :=
  match nwords with
  | O => ret []
  | S nwords' =>
      word <- neofoxx_read_word addr ;;
      rest <- read_words_slow nwords' (u32 (addr + 4)) ;;
      ret (word :: rest)
  end.

(** The [for (i=0; i<32; i++)] loop that stores one burst. *)
Fixpoint get_pe_words (fuel : nat) (n : nat) : M (list Z) :=
  match n with
  | O => ret []
  | S n' =>
      word <- get_pe_response fuel ;;
      rest <- get_pe_words fuel n' ;;
      ret (word :: rest)
  end.

(** The body of the [for (words_read = 0; ...)] loop: one READ request and
    the 32 words stored for it. *)
Definition read_burst (fuel : nat) (addr : Z) : M (list Z) :=
  neofoxx_sendCommand ETAP_FASTDATA 1 ;;
  neofoxx_xferFastData_PC_slow (Z.lor (Z.shiftl PE_READ 16) 32) 0 ;;
  neofoxx_xferFastData_PC_slow addr 0 ;;
  response <- get_pe_response fuel ;;
  (if negb (response =? u32 (Z.shiftl PE_READ 16))
   then fprintf_stderr (ErrBadReadResponse response) ;; exit_
   else ret tt) ;;
  get_pe_words fuel 32.

(** The [for (words_read = 0; words_read < nwords; words_read += 32)]
    loop; [words_read] is an [unsigned] and wraps, so the loop has no bound
    of its own: [turns] is the number of turns the model may take. *)
Fixpoint read_words_pe (turns fuel : nat) (words_read nwords addr : Z)
  : M (list Z) :=
  if words_read <? nwords then
    match turns with
    | O => out_of_fuel
    | S turns' =>
        burst <- read_burst fuel addr ;;
        rest <- read_words_pe turns' fuel (u32 (words_read + 32)) nwords
                              (u32 (addr + 32 * 4)) ;;
        ret (burst ++ rest)
    end
  else ret [].

(** [neofoxx_read_data(adapter, addr, nwords, data)]; the result is the
    list of the words stored through [data], in order. *)
Definition neofoxx_read_data (fuel : nat) (addr nwords : Z) : M (list Z) :=
  let workaround := 1 in
  old <- old_way workaround ;;
  if old then
    (if negb (workaround =? 0) then fprintf_stderr MsgWorkaround else ret tt) ;;
    ue <- gets use_executive ;;
    if ue =? 0 then read_words_slow (Z.to_nat nwords) addr
    else read_words_pe fuel fuel 0 nwords addr
  else
    fprintf_stderr ErrWayNewNotImplemented ;; ret [].

(** The WORD_PROGRAM exchange of [neofoxx_program_word]: the request, and
    the check of the answer. *)
Definition word_program_request (fuel : nat) (addr word : Z) : M unit :=
  neofoxx_sendCommand ETAP_FASTDATA 1 ;;
  neofoxx_xferFastData_PC_slow (Z.lor (Z.shiftl PE_WORD_PROGRAM 16) 2) 0 ;;
  neofoxx_xferFastData_PC_slow addr 0 ;;
  neofoxx_xferFastData_PC_slow word 0 ;;
  response <- get_pe_response fuel ;;
  if negb (response =? u32 (Z.shiftl PE_WORD_PROGRAM 16))
  then fprintf_stderr (ErrProgramWordFailed word addr response) ;; exit_
  else ret tt.

Definition neofoxx_program_word (fuel : nat) (addr word : Z) : M unit :=
  let workaround := 1 in
  f <- gets family_name_short ;;
  (if family_eqb FAMILY_MM f then fprintf_stderr ErrWordNotOnMM else ret tt) ;;
  ue <- gets use_executive ;;
  (if ue =? 0 then fprintf_stderr ErrSlowWriteNotImplemented ;; exit_
   else ret tt) ;;
  old <- old_way workaround ;;
  if old then
    (if negb (workaround =? 0) then fprintf_stderr MsgWorkaround else ret tt) ;;
    word_program_request fuel addr word
  else
    fprintf_stderr ErrWayNewNotImplemented.

(** The QUAD_WORD_PGRM exchange of [neofoxx_program_quad_word]. *)
Definition quad_word_program_request (fuel : nat)
    (addr word0 word1 word2 word3 : Z) : M unit :=
  neofoxx_sendCommand ETAP_FASTDATA 1 ;;
  neofoxx_xferFastData_PC_slow (Z.shiftl PE_QUAD_WORD_PGRM 16) 0 ;;
  neofoxx_xferFastData_PC_slow addr 0 ;;
  neofoxx_xferFastData_PC_slow word0 0 ;;
  neofoxx_xferFastData_PC_slow word1 0 ;;
  neofoxx_xferFastData_PC_slow word2 0 ;;
  neofoxx_xferFastData_PC_slow word3 0 ;;
  response <- get_pe_response fuel ;;
  if negb (response =? u32 (Z.shiftl PE_QUAD_WORD_PGRM 16))
  then fprintf_stderr (ErrProgramQuadFailed addr response) ;; exit_
  else ret tt.

Definition neofoxx_program_quad_word (fuel : nat)
    (addr word0 word1 word2 word3 : Z) : M unit :=
  let workaround := 1 in
  f <- gets family_name_short ;;
  (if negb (family_eqb FAMILY_MK f) && negb (family_eqb FAMILY_MZ f)
   then fprintf_stderr ErrQuadOnlyMKMZ else ret tt) ;;
  ue <- gets use_executive ;;
  (if ue =? 0 then fprintf_stderr ErrSlowWriteNotImplemented ;; exit_
   else ret tt) ;;
  old <- old_way workaround ;;
  if old then
    (if negb (workaround =? 0) then fprintf_stderr MsgWorkaround else ret tt) ;;
    quad_word_program_request fuel addr word0 word1 word2 word3
  else
    fprintf_stderr ErrWayNewNotImplemented.

(** The byte view [(unsigned char* ) data] of a buffer of words. *)
Definition bytes_of_words (data : list Z) : list Z :=
  flat_map (le_bytes 4) data.

(** The GET_CRC request of [neofoxx_verify_data] and the first answer of
    the PE. *)
Definition get_crc_request (fuel : nat) (addr nwords : Z) : M Z :=
  neofoxx_sendCommand ETAP_FASTDATA 1 ;;
  neofoxx_xferFastData_PC_slow (Z.shiftl PE_GET_CRC 16) 0 ;;
  neofoxx_xferFastData_PC_slow addr 0 ;;
  neofoxx_xferFastData_PC_slow (u32 (nwords * 4)) 0 ;;
  get_pe_response fuel.

(** The second answer of the PE, and the comparison of the two checksums. *)
Definition compare_crc (fuel : nat) (addr nwords : Z) (data : list Z) : M unit :=
  r <- get_pe_response fuel ;;
  let flash_crc := Z.land r 0xffff in
  let data_crc := calculate_crc 0xffff (bytes_of_words data) (u32 (nwords * 4)) in
  if negb (flash_crc =? data_crc)
  then fprintf_stderr (ErrChecksumFailed addr flash_crc data_crc)
  else ret tt.

Definition neofoxx_verify_data (fuel : nat) (addr nwords : Z) (data : list Z)
  : M unit :=
  let workaround := 1 in
  ue <- gets use_executive ;;
  (if ue =? 0 then fprintf_stderr ErrSlowVerifyNotImplemented ;; exit_
   else ret tt) ;;
  old <- old_way workaround ;;
  if old then
    (if negb (workaround =? 0) then fprintf_stderr MsgWorkaround else ret tt) ;;
    response <- get_crc_request fuel addr nwords ;;
    (if negb (response =? u32 (Z.shiftl PE_GET_CRC 16))
     then fprintf_stderr (ErrVerifyFailed nwords addr response) ;; exit_
     else ret tt) ;;
    compare_crc fuel addr nwords data
  else
    fprintf_stderr ErrWayNewNotImplemented.

End Adapter.

(** * Vocabulary of the statements *)

(** The bytes the device has still to deliver, whatever way they are cut
    into reads. *)
Definition stream (w : world) : list Z := concat (rx (port w)).

Definition sum_bytes (l : list Z) : Z := fold_right Z.add 0 l.

(** The packet that goes out when [data] is queued alone and flushed. *)
Definition packet_of (data : list Z) : list Z :=
  finish_packet ([PACKET_BYTE; 0; 0] ++ data).

(** The packet of one FASTDATA transfer of [word]. *)
Definition fastdata_packet (word : Z) : list Z :=
  packet_of (send_data TMS_HEADER_XFERDATAFAST_NBITS TMS_HEADER_XFERDATAFAST_VAL
                       33 (Z.shiftl (u32 word) 1)
                       TMS_FOOTER_XFERDATAFAST_NBITS TMS_FOOTER_XFERDATAFAST_VAL 1).

(** The transmit buffer is empty or holds a packet that [add_to_packet]
    opened: the sync byte, the two zero placeholders of the length, and the
    payload queued so far. *)
Definition well_queued (w : world) : Prop :=
  output (ses w) = []
  \/ exists payload, output (ses w) = PACKET_BYTE :: 0 :: 0 :: payload.

(** The two lines of [bulk_write], which speak of the port and not of the
    target. *)
Definition noise (d : diag) : bool :=
  match d with
  | ErrLessThan4Bytes | ErrDuringWriting => true
  | _ => false
  end.

(** The lines on stderr that come from above the transport. *)
Definition diags (w : world) : list diag :=
  filter (fun d => negb (noise d)) (stderr w).

Definition logged (d : diag) (w : world) : world :=
  mkWorld (ses w) (port w) (stderr w ++ [d]).

(** What a call that only queues and writes leaves alone: everything but
    the transmit buffer and the write side of the port. *)
Record kept (w w' : world) : Prop := mkKept {
  kept_family : family_name_short (ses w') = family_name_short (ses w);
  kept_interface : interface (ses w') = interface (ses w);
  kept_use_executive : use_executive (ses w') = use_executive (ses w);
  kept_serial_execution_mode :
    serial_execution_mode (ses w') = serial_execution_mode (ses w);
  kept_way : way (ses w') = way (ses w);
  kept_bytes_to_read : bytes_to_read (ses w') = bytes_to_read (ses w);
  kept_input : input (ses w') = input (ses w);
  kept_bytes_in_buffer : bytes_in_buffer (ses w') = bytes_in_buffer (ses w);
  kept_current_pos_input : current_pos_input (ses w') = current_pos_input (ses w);
  kept_rx : rx (port w') = rx (port w);
  kept_diags : diags w' = diags w
}.

(** [w'] follows [w] by calls that took [n] bytes of reply from the device
    and left no reply pending. *)
Record sent (n : nat) (w w' : world) : Prop := mkSent {
  sent_family : family_name_short (ses w') = family_name_short (ses w);
  sent_interface : interface (ses w') = interface (ses w);
  sent_use_executive : use_executive (ses w') = use_executive (ses w);
  sent_serial_execution_mode :
    serial_execution_mode (ses w') = serial_execution_mode (ses w);
  sent_way : way (ses w') = way (ses w);
  sent_bytes_to_read : bytes_to_read (ses w') = 0;
  sent_stream : stream w' = skipn n (stream w);
  sent_diags : diags w' = diags w
}.

(** From a session with no reply pending, [m] returns [a] and has only
    queued and written. *)
Definition writes {A : Type} (m : M A) (a : A) (w : world) : Prop :=
  bytes_to_read (ses w) <= 0 ->
  exists w', m w = Ret a w' /\ kept w w'.

(** A session as [serial_execution] finds it after it has set the flag. *)
Definition flagged (w : world) : world :=
  mkWorld (set_serial_execution_mode 1 (ses w)) (port w) (stderr w).

Definition is_failed_entry (d : diag) : bool :=
  match d with
  | ErrFailedSerialExecution _ => true
  | _ => false
  end.

(** The number of entry attempts that have been reported as failed. *)
Definition failed_entries (w : world) : nat :=
  length (filter is_failed_entry (stderr w)).

(** The next [n] words of a reply stream are there and none of them has
    ProbEn. *)
Fixpoint never_proben {K : pic32_h} (n : nat) (s : list Z) : bool :=
  match n with
  | O => true
  | S n' =>
      (8 <=? length s)%nat
      && (Z.land (le_word (firstn 8 s)) CONTROL_PROBEN =? 0)
      && never_proben n' (skipn 8 s)
  end.

(** A session on which a failed entry ends the process: the JTAG pins are
    driven and the family has no recovery through the shared pins. *)
Definition no_recovery (w : world) : bool :=
  jtag_or_default (interface (ses w))
  && negb (is_mx1_or_mx3 (family_name_short (ses w))).

(** [w'] follows [w] by [k] reported entry attempts that took [n] bytes of
    reply and left no reply pending. *)
Record attempted (n k : nat) (w w' : world) : Prop := mkAttempted {
  att_family : family_name_short (ses w') = family_name_short (ses w);
  att_interface : interface (ses w') = interface (ses w);
  att_serial_execution_mode :
    serial_execution_mode (ses w') = serial_execution_mode (ses w);
  att_bytes_to_read : bytes_to_read (ses w') = 0;
  att_stream : stream w' = skipn n (stream w);
  att_failed : failed_entries w' = (failed_entries w + k)%nat
}.

(** [k] READ bursts at consecutive 128-byte blocks, as the specification
    words the PE path of [neofoxx_read_data]. *)
Fixpoint read_bursts {K : pic32_h} (fuel k : nat) (addr : Z) : M (list Z) :=
  match k with
  | O => ret []
  | S k' =>
      burst <- read_burst fuel addr ;;
      rest <- read_bursts fuel k' (u32 (addr + 32 * 4)) ;;
      ret (burst ++ rest)
  end.

(** One [neofoxx_read_word] for each address of a list, as the
    specification words the path without PE. *)
Fixpoint read_each {K : pic32_h} (addrs : list Z) : M (list Z) :=
  match addrs with
  | [] => ret []
  | addr :: addrs' =>
      word <- neofoxx_read_word addr ;;
      rest <- read_each addrs' ;;
      ret (word :: rest)
  end.

(** The addresses [addr + 4 * i] for [i < n], in 32-bit arithmetic. *)
Definition word_addrs (addr : Z) (n : nat) : list Z :=
  map (fun i => u32 (addr + 4 * Z.of_nat i)) (seq 0 n).

(** ceil(nwords / 32). *)
Definition bursts_needed (nwords : Z) : nat := Z.to_nat ((nwords + 31) / 32).

(** [m] never runs out of the steps the model gives it. *)
Definition never_out_of_fuel {A : Type} (m : M A) : Prop :=
  forall w w', m w <> OutOfFuel w'.

(** * Sessions and targets on which runs are evaluated *)

(** A session as [adapter_open_neofoxx] leaves it: buffers zeroed by
    [calloc], nothing queued, no reply pending. *)
Definition idle_session (f : family_t) (i : interface_t) (ue : Z)
  : neofoxx_adapter_t :=
  mkAdapter f [] 0 (repeat 0 2048%nat) 0 0 i ue 0 WAY_OLD.

(** A port that takes every write whole, with a device that answers the
    reads with [replies]. *)
Definition target (a : neofoxx_adapter_t) (replies : list (list Z)) : world :=
  mkWorld a (mkSerial replies [] []) [].

(** Replies of one 64-bit word each. *)
Definition reply_words (ws : list Z) : list (list Z) := map (le_bytes 8) ws.

(** A JTAG session of an MZ part with one MCLR command queued. *)
Definition w_queued : world :=
  world_of (neofoxx_setPins (-1) PIN_MCLR PIN_DIR_OUTPUT PIN_VAL_LOW 0
              (target (idle_session FAMILY_MZ INTERFACE_JTAG 0) [])).

(** The same session after a 32-bit read that the device answered, with
    one MCLR command queued: no reply is pending and the read cursor stands
    behind the word just consumed. *)
Definition w_read_then_queued : world :=
  world_of ((neofoxx_xferData 32 0 1 1 ;;
             neofoxx_setPins (-1) PIN_MCLR PIN_DIR_OUTPUT PIN_VAL_LOW 0)
              (target (idle_session FAMILY_MZ INTERFACE_JTAG 0)
                      (reply_words [0x4a1e053]))).

(** The same session with a read queued and a device that answers it. *)
Definition w_read_queued : world :=
  world_of (neofoxx_send TMS_HEADER_XFERDATA_NBITS TMS_HEADER_XFERDATA_VAL
                         32 0 TMS_FOOTER_XFERDATA_NBITS TMS_FOOTER_XFERDATA_VAL 1
              (target (idle_session FAMILY_MZ INTERFACE_JTAG 0)
                      (reply_words [0x4a1e053]))).

(** An ICSP session of an MZ part whose target answers the status read
    with CFGRDY alone: the CPS bit is clear. *)
Definition w_cps_clear : world :=
  target (idle_session FAMILY_MZ INTERFACE_ICSP 0) (reply_words [0x08]).

(** The same session with a target that answers the status read with CPS
    and CFGRDY, and the first read of the control register with ProbEn. *)
Definition w_cps_set : world :=
  target (idle_session FAMILY_MZ INTERFACE_ICSP 0) (reply_words [0x88; 0xc000]).

(** An ICSP session of an MZ part whose target reports CPS and CFGRDY and
    then never shows ProbEn in the control register. *)
Definition w_never_proben : world :=
  target (idle_session FAMILY_MZ INTERFACE_ICSP 0)
         (reply_words (0x88 :: repeat 0 220%nat)).

(** A session of an MM part with the PE resident, and a PE that accepts
    a WORD_PROGRAM request. *)
Definition w_mm_pe : world :=
  target (idle_session FAMILY_MM INTERFACE_JTAG 1)
         (reply_words [1; 1; 1; 0x40000; 0x30000]).

(** A session of an MX1 part with the PE resident, and a PE that accepts
    a QUAD_WORD_PGRM request. *)
Definition w_mx1_pe : world :=
  target (idle_session FAMILY_MX1 INTERFACE_JTAG 1)
         (reply_words [1; 1; 1; 1; 1; 1; 0x40000; 0xd0000]).

(** A session of an MZ part with the PE resident, and a PE that answers a
    GET_CRC request with [response] and then with the checksum [crc]. *)
Definition w_verify (response crc : Z) : world :=
  target (idle_session FAMILY_MZ INTERFACE_JTAG 1)
         (reply_words [1; 1; 1; 0x40000; response; 0x40000; crc]).

(** A PE that serves a READ burst: the two request words are taken, the
    request is echoed, and 32 words follow, each behind a control word with
    PrACC. *)
Definition burst_replies (word : Z) : list Z :=
  [1; 1; 0x40000; 0x10000] ++ concat (repeat [0x40000; word] 32%nat).

(** A session of an MZ part with the PE resident and a PE that serves two
    READ bursts. *)
Definition w_two_bursts : world :=
  target (idle_session FAMILY_MZ INTERFACE_JTAG 1)
         (reply_words (burst_replies 0x11111111 ++ burst_replies 0x22222222)).

(** An ICSP session of an MZ part without PE, and a target that enters
    serial execution at once, runs every injected instruction and hands back
    0xaa through FASTDATA, three times. *)
Definition w_no_pe : world :=
  target (idle_session FAMILY_MZ INTERFACE_ICSP 0)
         (reply_words ([0x88; 0xc000]
                       ++ concat (repeat (repeat 0xc000 6%nat ++ [0x155]) 3%nat))).

(** * Further functions of adapter-neofoxx.c *)

Definition COMMAND_SET_PROG_MODE : Z := 2.
Definition COMMAND_XFER_INSTRUCTION : Z := 7.

(** The macros of pic32.h used by the functions below and by none of the
    functions above; like those of [pic32_h] they are parameters. *)
Class pic32_h_more : Type := {
  MCHP_ERASE : Z;
  MCHP_STATUS_CFGRDY : Z;
  MCHP_STATUS_FCBUSY : Z;
  PE_ROW_PROGRAM : Z
}.

(** The values the PIC32 Flash Programming Specification assigns to them,
    for the runs that are evaluated. *)
Definition pic32_more_values : pic32_h_more := {|
  MCHP_ERASE := 0xfc;
  MCHP_STATUS_CFGRDY := 0x08;
  MCHP_STATUS_FCBUSY := 0x04;
  PE_ROW_PROGRAM := 0x0
|}.

Definition neofoxx_setProgMode (mode immediate : Z) : M unit :=
  add_to_packet [COMMAND_SET_PROG_MODE; u8 mode] ;;
  if immediate =? 0 then ret tt else neofoxx_flush_output.

Definition neofoxx_xferFastData_MCU_fast (word readFlag : Z) : M unit :=
  neofoxx_send TMS_HEADER_XFERDATAFAST_NBITS TMS_HEADER_XFERDATAFAST_VAL
               33 (Z.shiftl (u32 word) 1)
               TMS_FOOTER_XFERDATAFAST_NBITS TMS_FOOTER_XFERDATAFAST_VAL
               readFlag.

Definition neofoxx_xferInstruction_MCU_fast (instruction : Z) : M unit :=
  add_to_packet ([COMMAND_XFER_INSTRUCTION] ++ le_bytes 4 instruction) ;;
  modify (fun a => set_bytes_to_read (bytes_to_read a + 4) a).


(** [idcode] is an [unsigned]. *)
Definition neofoxx_get_idcode : M Z :=
  neofoxx_setMode SET_MODE_TAP_RESET 1 ;;
  idcode <- neofoxx_xferData 32 0 1 1 ;;
  ret (u32 idcode).






(** The "Download data" loop of the old way of [neofoxx_program_row], with
    [n] turns left; [data] is what is left of the caller's buffer. *)
Fixpoint row_words_slow (n : nat) (i : Z) (data : list Z) : M unit :=
  match n with
  | O => ret tt
  | S n' =>
      (if Z.land i 7 =? 0 then neofoxx_flush_output else ret tt) ;;
      neofoxx_xferFastData_PC_slow (hd 0 data) 0 ;;
      row_words_slow n' (i + 1) (tl data)
  end.

(** The same loop of the new way. *)
Fixpoint row_words_fast (n : nat) (i : Z) (data : list Z) : M unit :=
  match n with
  | O => ret tt
  | S n' =>
      (if Z.land i 3 =? 0 then neofoxx_flush_output else ret tt) ;;
      neofoxx_xferFastData_MCU_fast (hd 0 data) 0 ;;
      row_words_fast n' (i + 1) (tl data)
  end.

(** [neofoxx_program_row] up to the answer of the PE, which it yields; the
    comparison of the answer with [PE_ROW_PROGRAM << 16] and the exit on a
    wrong answer, which close both branches of the source, are not part of
    this definition.  [workaround] is 0 in this function, so that [way]
    decides. *)
Definition program_row_exchange {K : pic32_h} {K' : pic32_h_more} (fuel : nat)
    (addr : Z) (data : list Z) (words_per_row : Z) : M Z :=
  let workaround := 0 in
  ue <- gets use_executive ;;
  (if ue =? 0 then fprintf_stderr ErrSlowWriteNotImplemented ;; exit_
   else ret tt) ;;
  old <- old_way workaround ;;
  if old then
    (if negb (workaround =? 0) then fprintf_stderr MsgWorkaround else ret tt) ;;
    neofoxx_sendCommand ETAP_FASTDATA 1 ;;
    neofoxx_xferFastData_PC_slow
      (Z.lor (Z.shiftl PE_ROW_PROGRAM 16) (u32 words_per_row)) 0 ;;
    neofoxx_xferFastData_PC_slow addr 0 ;;
    row_words_slow (Z.to_nat (u32 words_per_row)) 0 data ;;
    neofoxx_flush_output ;;
    get_pe_response fuel
  else
    fprintf_stderr ErrWayNewNotImplemented ;;
    neofoxx_sendCommand ETAP_FASTDATA 1 ;;
    neofoxx_xferFastData_MCU_fast
      (Z.lor (Z.shiftl PE_ROW_PROGRAM 16) (u32 words_per_row)) 0 ;;
    neofoxx_xferFastData_MCU_fast addr 0 ;;
    neofoxx_flush_output ;;
    row_words_fast (Z.to_nat (u32 words_per_row)) 0 data ;;
    neofoxx_flush_output ;;
    get_pe_response fuel.

(** * Vocabulary of the further statements *)

(** Nothing is queued and no reply is pending. *)
Definition idle (w : world) : Prop :=
  output (ses w) = [] /\ bytes_to_read (ses w) = 0.

(** [w'] follows [w] by calls that wrote the packets [ps], took [n] bytes
    of reply, printed the lines [ds], and left the session idle. *)
Record wire (n : nat) (ps : list (list Z)) (ds : list diag) (w w' : world)
  : Prop := mkWire {
  wire_family : family_name_short (ses w') = family_name_short (ses w);
  wire_interface : interface (ses w') = interface (ses w);
  wire_use_executive : use_executive (ses w') = use_executive (ses w);
  wire_serial_execution_mode :
    serial_execution_mode (ses w') = serial_execution_mode (ses w);
  wire_way : way (ses w') = way (ses w);
  wire_idle : idle w';
  wire_stream : stream w' = skipn n (stream w);
  wire_tx : tx (port w') = tx (port w) ++ ps;
  wire_diags : diags w' = diags w ++ ds
}.

(** The bytes of a reply of 64-bit words. *)
Definition words_bytes (ws : list Z) : list Z := flat_map (le_bytes 8) ws.

(** The packet of one command selection, of one pin command, of one data
    transfer, of a TAP reset. *)
Definition command_packet (nbits command : Z) : list Z :=
  packet_of (send_data TMS_HEADER_COMMAND_NBITS TMS_HEADER_COMMAND_VAL
                       nbits command
                       TMS_FOOTER_COMMAND_NBITS TMS_FOOTER_COMMAND_VAL 0).


Definition data_packet (nBits iData readFlag : Z) : list Z :=
  packet_of (send_data TMS_HEADER_XFERDATA_NBITS TMS_HEADER_XFERDATA_VAL
                       nBits (u32 iData)
                       TMS_FOOTER_XFERDATA_NBITS TMS_FOOTER_XFERDATA_VAL
                       readFlag).

Definition tap_reset_packet : list Z :=
  packet_of (send_data TMS_HEADER_RESET_TAP_NBITS TMS_HEADER_RESET_TAP_VAL
                       0 0 0 0 0).

(** The session after [data] has been queued, and after [n] more bytes of
    reply have been asked for. *)
Definition queued (data : list Z) (w : world) : world :=
  mkWorld (set_output ((match output (ses w) with
                        | [] => [PACKET_BYTE; 0; 0]
                        | _ => output (ses w)
                        end) ++ data) (ses w))
          (port w) (stderr w).

Definition expecting (n : Z) (w : world) : world :=
  mkWorld (set_bytes_to_read (bytes_to_read (ses w) + n) (ses w))
          (port w) (stderr w).

(** From an idle session [m] returns [a], having written [ps], taken [n]
    bytes of reply and printed [ds], and leaves the session idle. *)
Definition wires {A : Type} (m : M A) (a : A) (n : nat) (ps : list (list Z))
    (ds : list diag) (w : world) : Prop :=
  idle w -> exists w', m w = Ret a w' /\ wire n ps ds w w'.

(** From an idle session whose device answers with the 64-bit words [ws]
    first, [m] returns [a], having written [ps], taken exactly the words
    [ws] and printed [ds], and leaves the session idle. *)
Definition talks {A : Type} (m : M A) (a : A) (ws : list Z)
    (ps : list (list Z)) (ds : list diag) (w : world) : Prop :=
  idle w -> forall rest, stream w = words_bytes ws ++ rest ->
  exists w', m w = Ret a w' /\ wire (8 * length ws) ps ds w w'.

(** The same for a call that ends in [exit(-1)]. *)
Definition quits {A : Type} (m : M A) (ws : list Z)
    (ps : list (list Z)) (ds : list diag) (w : world) : Prop :=
  idle w -> forall rest, stream w = words_bytes ws ++ rest ->
  exists w', m w = Exit w'
             /\ tx (port w') = tx (port w) ++ ps
             /\ diags w' = diags w ++ ds
             /\ stream w' = rest.

(** No command is both in the MTAP table and in the ETAP table of
    [neofoxx_sendCommand]. *)
Definition tables_disjoint {K : pic32_h} : Prop :=
  forall c, is_mtap_command c && is_etap_command c = false.

(** The packet of the ICSP key: four SENDs of eight TMS bits each. *)
Definition key_packet (b0 b1 b2 b3 : Z) : list Z :=
  packet_of (send_data 8 b0 0 0 0 0 0 ++ send_data 8 b1 0 0 0 0 0
             ++ send_data 8 b2 0 0 0 0 0 ++ send_data 8 b3 0 0 0 0 0).

(** The packets of [neofoxx_xferInstruction_PC_slow] when the control
    register is read [polls] times: the control register is selected and
    polled, then the instruction is given through the data register and the
    processor is told to go on. *)
Definition poll_packet {K : pic32_h} : list Z :=
  data_packet 32 CONTROL_POLL_BRK 1.

Definition instruction_packets {K : pic32_h} (instruction : Z) (polls : nat)
  : list (list Z) :=
  [command_packet MTAP_COMMAND_NBITS ETAP_CONTROL]
  ++ repeat poll_packet polls
  ++ [command_packet MTAP_COMMAND_NBITS ETAP_DATA;
      data_packet 32 instruction 0;
      command_packet MTAP_COMMAND_NBITS ETAP_CONTROL;
      data_packet 32 (Z.lor CONTROL_PROBEN CONTROL_PROBTRAP) 0].

(** A reply to a read of the control register that does not show ProbEn,
    and the line printed for it. *)
Definition proben_clear {K : pic32_h} (c : Z) : Prop :=
  Z.land (u32 c) CONTROL_PROBEN = 0.

Definition ctl_lines (cs : list Z) : list diag :=
  map (fun c => ErrCtlWas (u32 c)) cs.

(** The packets of [get_pe_response] when the control register is read
    [polls] times, and a reply to such a read that does not show PrACC. *)
Definition response_packets {K : pic32_h} (polls : nat) : list (list Z) :=
  [command_packet MTAP_COMMAND_NBITS ETAP_CONTROL]
  ++ repeat poll_packet polls
  ++ [command_packet MTAP_COMMAND_NBITS ETAP_DATA;
      data_packet 32 0 1;
      command_packet MTAP_COMMAND_NBITS ETAP_CONTROL;
      data_packet 32 (Z.lor CONTROL_PROBEN CONTROL_PROBTRAP) 0].

Definition pracc_clear {K : pic32_h} (c : Z) : Prop :=
  Z.land (u32 c) CONTROL_PRACC = 0.





(** The instructions [neofoxx_read_word] has the processor run to move
    the word at [addr] to the FASTDATA register: MIPS32 code on the MX1,
    MX3, MK and MZ families, microMIPS code on the others. *)
Definition read_instructions (f : family_t) (addr : Z) : list Z :=
  let addr_lo := Z.land addr 0xFFFF in
  let addr_hi := Z.land (Z.shiftr addr 16) 0xFFFF in
  if family_eqb FAMILY_MX1 f || family_eqb FAMILY_MX3 f
     || family_eqb FAMILY_MK f || family_eqb FAMILY_MZ f
  then [0x3c13ff20; Z.lor 0x3c080000 addr_hi; Z.lor 0x35080000 addr_lo;
        0x8d090000; 0xae690000; 0]
  else [0xFF2041B3; u32 (Z.lor 0x000041A8 (Z.shiftl addr_hi 16));
        u32 (Z.lor 0x00005108 (Z.shiftl addr_lo 16));
        0x0000FD28; 0x0000F933; 0x0c000c00; 0x0c000c00].

(** A reply to a read of the control register that shows ProbEn. *)
Definition proben_set {K : pic32_h} (c : Z) : Prop :=
  Z.land (u32 c) CONTROL_PROBEN <> 0.

(** An idle session that has entered serial execution. *)
Definition serial_session (f : family_t) (i : interface_t) (ue : Z)
  : neofoxx_adapter_t :=
  mkAdapter f [] 0 (repeat 0 2048%nat) 0 0 i ue 1 WAY_OLD.

(** A reply to a FASTDATA transfer with the PrACC bit, bit 0, set. *)
Definition pracc_ack (a : Z) : Prop := Z.land a 1 <> 0.

(** The words of a ROW_PROGRAM request: the opcode over the count, the
    address, and the first [words_per_row] words of the buffer. *)
Definition row_request {K' : pic32_h_more} (addr : Z) (data : list Z)
    (words_per_row : Z) : list Z :=
  Z.lor (Z.shiftl PE_ROW_PROGRAM 16) (u32 words_per_row)
  :: addr :: firstn (Z.to_nat (u32 words_per_row)) data.

(** The SEND of one FASTDATA word without read flag, the packet of a
    batch of such SENDs, and a list cut into groups of four. *)
Definition fastdata_payload (word : Z) : list Z :=
  send_data TMS_HEADER_XFERDATAFAST_NBITS TMS_HEADER_XFERDATAFAST_VAL
            33 (Z.shiftl (u32 word) 1)
            TMS_FOOTER_XFERDATAFAST_NBITS TMS_FOOTER_XFERDATAFAST_VAL 0.

Definition batch_packet (words : list Z) : list Z :=
  packet_of (flat_map fastdata_payload words).

Fixpoint four_by_four (l : list Z) : list (list Z) :=
  match l with
  | [] => []
  | a :: b :: c :: d :: l' => [a; b; c; d] :: four_by_four l'
  | _ => [l]
  end.

(** The session that holds the words [pend] queued by
    [neofoxx_xferFastData_MCU_fast] on top of the idle session [w]. *)
Definition pending (pend : list Z) (w : world) : world :=
  match pend with
  | [] => w
  | _ => queued (flat_map fastdata_payload pend) w
  end.

(** An idle session on the new way. *)
Definition new_way_session (f : family_t) (i : interface_t) (ue : Z)
  : neofoxx_adapter_t :=
  mkAdapter f [] 0 (repeat 0 2048%nat) 0 0 i ue 0 WAY_NEW.

(** The SEND of one FASTDATA word with the read flag. *)
Definition fastdata_read_payload (word : Z) : list Z :=
  send_data TMS_HEADER_XFERDATAFAST_NBITS TMS_HEADER_XFERDATAFAST_VAL
            33 (Z.shiftl (u32 word) 1)
            TMS_FOOTER_XFERDATAFAST_NBITS TMS_FOOTER_XFERDATAFAST_VAL 1.

(** What the PE sends for the words of a burst, each word behind a reply
    of the control register: the replies as they come, and the words. *)
Definition burst_stream (answers : list (Z * Z)) : list Z :=
  flat_map (fun p => [fst p; snd p]) answers.

Definition burst_words (answers : list (Z * Z)) : list Z :=
  map (fun p => u32 (snd p)) answers.

(** A session of an MZ part with the PE resident and a PE that serves one
    READ burst of 32 equal words. *)
Definition w_one_burst : world :=
  target (idle_session FAMILY_MZ INTERFACE_JTAG 1)
         (reply_words ([1; 1; 0x40000; 0x10000]
                       ++ burst_stream (repeat (0x40000, 0x11223344) 32%nat))).

(** * Properties *)

(** ** The monad *)

Lemma bind_Ret {A B : Type} (m : M A) (k : A -> M B) (w w' : world) (a : A) :
  m w = Ret a w' -> bind m k w = k a w'.
Proof. intros H. unfold bind. now rewrite H. Qed.

Lemma bind_ret_l {A B : Type} (a : A) (k : A -> M B) (w : world) :
  bind (ret a) k w = k a w.
Proof. reflexivity. Qed.

Lemma bind_gets {A B : Type} (f : neofoxx_adapter_t -> A) (k : A -> M B) (w : world) :
  bind (gets f) k w = k (f (ses w)) w.
Proof. reflexivity. Qed.

Lemma bind_fprintf {B : Type} (d : diag) (k : unit -> M B) (w : world) :
  bind (fprintf_stderr d) k w = k tt (logged d w).
Proof. reflexivity. Qed.

Lemma bind_assoc {A B C : Type} (m : M A) (k : A -> M B) (h : B -> M C) (w : world) :
  bind (bind m k) h w = bind m (fun a => bind (k a) h) w.
Proof. unfold bind. now destruct (m w). Qed.

(** ** Byte views *)

Lemma le_bytes_length (n : nat) (v : Z) : length (le_bytes n v) = n.
Proof. revert v. induction n; intros; simpl; auto. Qed.

Lemma le_word_range (bs : list Z) :
  0 <= le_word bs < 256 ^ Z.of_nat (length bs).
Proof.
  induction bs as [|b bs IH].
  - simpl. lia.
  - cbn [le_word length]. rewrite Nat2Z.inj_succ, Z.pow_succ_r by lia.
    pose proof (Z.mod_pos_bound b 256 ltac:(lia)). lia.
Qed.

(** ** The read loop does not depend on how the reply is cut into reads *)

Lemma read_loop_enough (script : list (list Z)) :
  forall (got : list Z) (to_read : Z),
    Z.of_nat (length got) <= to_read ->
    to_read <= Z.of_nat (length got + length (concat script)) ->
    exists script',
      read_loop script got to_read
      = Some (got ++ firstn (Z.to_nat to_read - length got) (concat script), script')
      /\ concat script' = skipn (Z.to_nat to_read - length got) (concat script).
Proof.
  induction script as [|chunk script IH]; intros got to_read Hlo Hhi.
  - simpl in *. destruct (Z.ltb_spec (Z.of_nat (length got)) to_read); [lia|].
    exists []. rewrite firstn_nil, app_nil_r, skipn_nil. auto.
  - cbn [read_loop].
    destruct (Z.ltb_spec (Z.of_nat (length got)) to_read) as [Hlt|Hge].
    + replace (Z.to_nat (to_read - Z.of_nat (length got)))
        with (Z.to_nat to_read - length got)%nat by lia.
      cbn [concat]. destruct (Nat.leb_spec (length chunk) (Z.to_nat to_read - length got)) as [Hc|Hc].
      * destruct (IH (got ++ chunk) to_read) as [s' [E1 E2]].
        { rewrite length_app. lia. }
        { rewrite length_app. cbn [concat] in Hhi. rewrite length_app in Hhi. lia. }
        exists s'. rewrite E1, E2, length_app.
        rewrite firstn_app, skipn_app.
        rewrite (firstn_all2 chunk) by lia.
        rewrite (skipn_all2 chunk) by lia.
        replace (Z.to_nat to_read - (length got + length chunk))%nat
          with (Z.to_nat to_read - length got - length chunk)%nat by lia.
        now rewrite <- app_assoc.
      * exists (skipn (Z.to_nat to_read - length got) chunk :: script).
        rewrite firstn_app, skipn_app.
        replace (Z.to_nat to_read - length got - length chunk)%nat with 0%nat by lia.
        now rewrite firstn_O, skipn_O, app_nil_r.
    + replace (Z.to_nat to_read - length got)%nat with 0%nat by lia.
      exists (chunk :: script). now rewrite firstn_O, app_nil_r, skipn_O.
Qed.

Lemma read_loop_short (script : list (list Z)) :
  forall (got : list Z) (to_read : Z),
    Z.of_nat (length got + length (concat script)) < to_read ->
    read_loop script got to_read = None.
Proof.
  induction script as [|chunk script IH]; intros got to_read H.
  - simpl in *. destruct (Z.ltb_spec (Z.of_nat (length got)) to_read); [auto|lia].
  - cbn [read_loop]. cbn [concat] in H. rewrite length_app in H.
    destruct (Z.ltb_spec (Z.of_nat (length got)) to_read); [|lia].
    destruct (Nat.leb_spec (length chunk) (Z.to_nat (to_read - Z.of_nat (length got)))); [|lia].
    apply IH. rewrite length_app. lia.
Qed.

(** ** Framing *)

Lemma kept_refl (w : world) : kept w w.
Proof. now constructor. Qed.

Lemma kept_trans (w1 w2 w3 : world) : kept w1 w2 -> kept w2 w3 -> kept w1 w3.
Proof.
  intros [] []. constructor; etransitivity; eassumption.
Qed.

Lemma kept_sent (w w' : world) :
  bytes_to_read (ses w) = 0 -> kept w w' -> sent 0 w w'.
Proof.
  intros H0 []. constructor; auto; try congruence.
  unfold stream. now rewrite kept_rx0.
Qed.

Lemma sent_trans (n m : nat) (w1 w2 w3 : world) :
  sent n w1 w2 -> sent m w2 w3 -> sent (n + m) w1 w3.
Proof.
  intros [] []. constructor; try (etransitivity; eassumption); auto.
  rewrite sent_stream1, sent_stream0, skipn_skipn. f_equal. lia.
Qed.

Lemma diags_app (s : serial_t) (a : neofoxx_adapter_t) (l e : list diag) :
  diags (mkWorld a s (l ++ e)) = diags (mkWorld a s l) ++ filter (fun d => negb (noise d)) e.
Proof. unfold diags. cbn [stderr]. apply filter_app. Qed.

Lemma write_loop_noise (script : list Z) :
  forall to_write, filter (fun d => negb (noise d)) (snd (write_loop script to_write)) = [].
Proof.
  induction script as [|temp script IH]; intros to_write; cbn [write_loop].
  - now destruct (0 <? to_write).
  - destruct (0 <? to_write); [|reflexivity].
    destruct (0 >? temp); [|apply IH].
    specialize (IH to_write). destruct (write_loop script to_write). cbn in *. exact IH.
Qed.

(** ** The packet transport *)

Lemma add_to_packet_eq (data : list Z) (w : world) :
  add_to_packet data w
  = Ret tt (mkWorld (set_output ((match output (ses w) with
                                  | [] => [PACKET_BYTE; 0; 0]
                                  | _ => output (ses w)
                                  end) ++ data) (ses w))
                    (port w) (stderr w)).
Proof.
  unfold add_to_packet, bind, gets, modify, ret, bytes_to_write.
  destruct w as [a p e]. cbn [ses port stderr].
  destruct (output a) as [|b o] eqn:E.
  - cbn. now rewrite E.
  - cbn [length]. destruct (Z.eqb_spec (Z.of_nat (S (length o))) 0); [lia|].
    cbn. now rewrite E.
Qed.

Lemma add_to_packet_kept (data : list Z) (w : world) :
  exists w', add_to_packet data w = Ret tt w' /\ kept w w' /\ output (ses w') <> [].
Proof.
  rewrite add_to_packet_eq. eexists. split; [reflexivity|]. split.
  - now constructor.
  - cbn. destruct (output (ses w)); cbn; discriminate.
Qed.

Lemma bulk_write_eq (w : world) :
  exists s e,
    bulk_write w = Ret tt (mkWorld (if 4 >? bytes_to_write (ses w) then ses w
                                    else set_output [] (ses w))
                                   (mkSerial (rx (port w)) s
                                      (if 4 >? bytes_to_write (ses w) then tx (port w)
                                       else tx (port w) ++ [finish_packet (output (ses w))]))
                                   (stderr w ++ e))
    /\ filter (fun d => negb (noise d)) e = [].
Proof.
  unfold bulk_write. destruct (4 >? bytes_to_write (ses w)).
  - exists (wr (port w)), [ErrLessThan4Bytes]. split; [|reflexivity].
    unfold fprintf_stderr. now destruct w as [a [r s t] e].
  - pose proof (write_loop_noise (wr (port w))
                  (Z.of_nat (length (finish_packet (output (ses w)))))) as N.
    destruct (write_loop _ _) as [s e]. exists s, e. split; [reflexivity|exact N].
Qed.

Lemma flush_output_empty (w : world) :
  output (ses w) = [] -> neofoxx_flush_output w = Ret tt w.
Proof.
  intros H. unfold neofoxx_flush_output, bind, gets, bytes_to_write. now rewrite H.
Qed.

(** A flush with no reply pending writes and returns. *)
Lemma flush_output_write_only (w : world) :
  bytes_to_read (ses w) <= 0 ->
  exists w', neofoxx_flush_output w = Ret tt w' /\ kept w w' /\ output (ses w') = [].
Proof.
  intros Hr. destruct (output (ses w)) as [|b o] eqn:Ho.
  - exists w. rewrite flush_output_empty by assumption. auto using kept_refl.
  - destruct (bulk_write_eq w) as (s & e & Eb & Ne).
    unfold neofoxx_flush_output, bind at 1, gets at 1, bytes_to_write.
    rewrite Ho. cbn [length]. destruct (Z.leb_spec (Z.of_nat (S (length o))) 0); [lia|].
    unfold bind at 1. rewrite Eb. unfold bind, modify, gets, ret. cbn [ses port stderr].
    set (a := if 4 >? bytes_to_write (ses w) then ses w else set_output [] (ses w)).
    assert (Ha : bytes_to_read (set_output [] a) = bytes_to_read (ses w))
      by (subst a; now destruct (4 >? _)).
    rewrite Ha. destruct (Z.leb_spec (bytes_to_read (ses w)) 0); [|lia].
    eexists. split; [reflexivity|]. split; [|reflexivity].
    constructor; cbn [ses port stderr rx]; subst a; try (now destruct (4 >? _)).
    destruct w as [a p l]. rewrite diags_app, Ne, app_nil_r. reflexivity.
Qed.

(** A flush with a reply pending blocks until the device has delivered
    it, however the reply is cut into reads. *)
Lemma flush_output_reply (w : world) :
  output (ses w) <> [] ->
  0 < bytes_to_read (ses w) ->
  bytes_to_read (ses w) <= Z.of_nat (length (stream w)) ->
  exists w',
    neofoxx_flush_output w = Ret tt w'
    /\ sent (Z.to_nat (bytes_to_read (ses w))) w w'
    /\ output (ses w') = []
    /\ current_pos_input (ses w') = 0
    /\ firstn (Z.to_nat (bytes_to_read (ses w))) (input (ses w'))
       = firstn (Z.to_nat (bytes_to_read (ses w))) (stream w).
Proof.
  intros Ho Hr Hs. destruct (output (ses w)) as [|b o] eqn:Eo; [congruence|].
  destruct (bulk_write_eq w) as (s & e & Eb & Ne).
  unfold neofoxx_flush_output, bind at 1, gets at 1, bytes_to_write.
  rewrite Eo. cbn [length]. destruct (Z.leb_spec (Z.of_nat (S (length o))) 0); [lia|].
  unfold bind at 1. rewrite Eb. unfold bind at 1, modify at 1. cbn [ses port stderr].
  unfold bind at 1, gets at 1. cbn [ses port stderr].
  set (a := if 4 >? bytes_to_write (ses w) then ses w else set_output [] (ses w)).
  assert (Ha : bytes_to_read (set_output [] a) = bytes_to_read (ses w))
    by (subst a; now destruct (4 >? _)).
  rewrite Ha. destruct (Z.leb_spec (bytes_to_read (ses w)) 0); [lia|].
  unfold bind at 1, get_reply. cbn [ses port stderr rx wr tx]. rewrite Ha.
  destruct (read_loop_enough (rx (port w)) [] (bytes_to_read (ses w)))
    as (script' & E1 & E2); [cbn; lia | cbn [length]; unfold stream in Hs; lia |].
  rewrite E1. cbn [app length] in *. rewrite Nat.sub_0_r in *.
  unfold bind, modify, ret. cbn [ses port stderr].
  eexists. split; [reflexivity|].
  assert (Hl : length (firstn (Z.to_nat (bytes_to_read (ses w))) (concat (rx (port w))))
               = Z.to_nat (bytes_to_read (ses w))).
  { rewrite length_firstn. unfold stream in Hs. lia. }
  split; [|split; [|split]].
  - constructor; cbn [ses port stderr rx]; subst a;
      try exact E2; try (now destruct (4 >? _)).
    unfold diags. cbn [stderr]. now rewrite filter_app, Ne, app_nil_r.
  - reflexivity.
  - reflexivity.
  - cbn. rewrite Hl, firstn_app, Hl, Nat.sub_diag, firstn_O, app_nil_r.
    now rewrite firstn_firstn, Nat.min_id.
Qed.

(** A flush with a reply pending that the device does not deliver never
    returns. *)
Lemma flush_output_silent (w : world) :
  output (ses w) <> [] ->
  Z.of_nat (length (stream w)) < bytes_to_read (ses w) ->
  exists w', neofoxx_flush_output w = Hang w' /\ output (ses w') = [].
Proof.
  intros Ho Hs. destruct (output (ses w)) as [|b o] eqn:Eo; [congruence|].
  destruct (bulk_write_eq w) as (s & e & Eb & Ne).
  unfold neofoxx_flush_output, bind at 1, gets at 1, bytes_to_write.
  rewrite Eo. cbn [length]. destruct (Z.leb_spec (Z.of_nat (S (length o))) 0); [lia|].
  unfold bind at 1. rewrite Eb. unfold bind at 1, modify at 1. cbn [ses port stderr].
  unfold bind at 1, gets at 1. cbn [ses port stderr].
  set (a := if 4 >? bytes_to_write (ses w) then ses w else set_output [] (ses w)).
  assert (Ha : bytes_to_read (set_output [] a) = bytes_to_read (ses w))
    by (subst a; now destruct (4 >? _)).
  rewrite Ha. destruct (Z.leb_spec (bytes_to_read (ses w)) 0); [lia|].
  unfold bind at 1, get_reply. cbn [ses port stderr rx wr tx]. rewrite Ha.
  rewrite read_loop_short by (cbn [length]; unfold stream in Hs; lia).
  eexists. split; reflexivity.
Qed.

Lemma flush_output_tx (w : world) :
  output (ses w) <> [] ->
  tx (port (world_of (neofoxx_flush_output w)))
  = if 4 >? bytes_to_write (ses w) then tx (port w)
    else tx (port w) ++ [finish_packet (output (ses w))].
Proof.
  intros Ho. destruct (output (ses w)) as [|b o] eqn:Eo; [congruence|].
  destruct (bulk_write_eq w) as (s & e & Eb & Ne).
  unfold neofoxx_flush_output, bind at 1, gets at 1, bytes_to_write.
  rewrite Eo. cbn [length]. destruct (Z.leb_spec (Z.of_nat (S (length o))) 0); [lia|].
  unfold bind at 1. unfold bytes_to_write in Eb. rewrite Eo in Eb. rewrite Eb.
  unfold bind at 1, modify at 1. cbn [ses port stderr].
  unfold bind at 1, gets at 1. cbn [ses port stderr].
  destruct (bytes_to_read _ <=? 0); [reflexivity|].
  unfold bind at 1, get_reply. cbn [ses port stderr rx wr tx].
  destruct (read_loop _ _ _) as [[got script]|]; reflexivity.
Qed.

(** * What a flush writes *)

Lemma store_length (i : nat) (v : Z) (l : list Z) : length (store i v l) = length l.
Proof.
  revert i. induction l as [|x l IH]; intros [|i]; cbn; auto.
Qed.

Lemma finish_packet_shape (b0 b1 b2 : Z) (payload : list Z) :
  finish_packet (b0 :: b1 :: b2 :: payload)
  = b0 :: Z.land (u16 (Z.of_nat (length payload) + 1)) 0xFF
       :: u8 (Z.shiftr (u16 (Z.of_nat (length payload) + 1)) 8)
       :: payload ++ [u8 (Z.land (packet_sum (b0 :: b1 :: b2 :: payload)) 0xFF)].
Proof.
  unfold finish_packet. cbn [app length store].
  rewrite length_app. cbn [length].
  replace (Z.of_nat (S (S (S (length payload + 1)))) - 3)
    with (Z.of_nat (length payload) + 1) by lia.
  reflexivity.
Qed.

Lemma land_255 (x : Z) : Z.land x 0xFF = x mod 256.
Proof. change 0xFF with (Z.ones 8). now rewrite Z.land_ones by lia. Qed.

Lemma mod_u32_256 (x : Z) : u32 x mod 256 = x mod 256.
Proof.
  unfold u32. apply Z.mod_mod_divide. exists 16777216. reflexivity.
Qed.

Lemma sum_loop_mod (l : list Z) :
  forall acc, fold_left (fun crc b => u32 (crc + b)) l acc mod 256
              = (acc + sum_bytes l) mod 256.
Proof.
  induction l as [|b l IH]; intros acc; cbn [fold_left sum_bytes fold_right].
  - now rewrite Z.add_0_r.
  - rewrite IH. fold (sum_bytes l).
    rewrite Z.add_mod, mod_u32_256, <- Z.add_mod by lia.
    f_equal. lia.
Qed.

(** The checksum byte is the sum of everything from offset 2 on, which
    takes in the second length byte as it stands when the sum is made. *)
Lemma packet_checksum (b0 b1 b2 : Z) (payload : list Z) :
  u8 (Z.land (packet_sum (b0 :: b1 :: b2 :: payload)) 0xFF)
  = (b2 + sum_bytes payload) mod 256.
Proof.
  unfold u8, packet_sum. rewrite land_255, Z.mod_mod by lia.
  cbn [skipn fold_left]. rewrite sum_loop_mod.
  rewrite Z.add_mod, mod_u32_256, <- Z.add_mod by lia.
  reflexivity.
Qed.

Lemma add_to_packet_opens (data : list Z) (w : world) :
  output (ses w) = [] ->
  exists w', add_to_packet data w = Ret tt w'
             /\ output (ses w') = PACKET_BYTE :: 0 :: 0 :: data.
Proof.
  intros H. rewrite add_to_packet_eq, H. eexists. split; reflexivity.
Qed.

Lemma add_to_packet_extends (data payload : list Z) (w : world) :
  output (ses w) = PACKET_BYTE :: 0 :: 0 :: payload ->
  exists w', add_to_packet data w = Ret tt w'
             /\ output (ses w') = PACKET_BYTE :: 0 :: 0 :: payload ++ data.
Proof.
  intros H. rewrite add_to_packet_eq, H. eexists. split; reflexivity.
Qed.

(** Queueing and flushing keep the transmit buffer well queued, so that
    every packet a session writes was opened by [add_to_packet]. *)
Lemma well_queued_add_to_packet (data : list Z) (w : world) :
  well_queued w -> well_queued (world_of (add_to_packet data w)).
Proof.
  intros [H | [payload H]].
  - destruct (add_to_packet_opens data w H) as (w' & E & O). rewrite E.
    right. eauto.
  - destruct (add_to_packet_extends data payload w H) as (w' & E & O). rewrite E.
    right. eauto.
Qed.

Lemma well_queued_flush_output (w : world) :
  well_queued (world_of (neofoxx_flush_output w)).
Proof.
  left. destruct (output (ses w)) as [|b o] eqn:Ho.
  - now rewrite flush_output_empty.
  - destruct (Z.leb_spec (bytes_to_read (ses w)) 0) as [Hr|Hr].
    + destruct (flush_output_write_only w Hr) as (w' & E & _ & O). now rewrite E.
    + assert (Hne : output (ses w) <> []) by congruence.
      destruct (Z.leb_spec (bytes_to_read (ses w)) (Z.of_nat (length (stream w))))
        as [Hs|Hs].
      * destruct (flush_output_reply w Hne Hr Hs) as (w' & E & _ & O & _).
        now rewrite E.
      * destruct (flush_output_silent w Hne Hs) as (w' & E & O). now rewrite E.
Qed.

(** A buffer of fewer than four bytes is dropped, not written. *)
Lemma flush_output_short (w : world) :
  output (ses w) <> [] -> (length (output (ses w)) < 4)%nat ->
  tx (port (world_of (neofoxx_flush_output w))) = tx (port w).
Proof.
  intros Ho Hl. rewrite flush_output_tx by assumption. unfold bytes_to_write.
  destruct (Z.gtb_spec 4 (Z.of_nat (length (output (ses w))))); [reflexivity|lia].
Qed.

(** C5 (as amended): a flush of an empty transmit buffer changes nothing.
    A flush of a non-empty one leaves the transmit buffer empty.  When a
    reply was pending and the device delivers it, the flush returns with the
    expected-reply length at zero and the read cursor at zero; when none was
    pending it returns right after the write and leaves the expected-reply
    length and the read cursor as they were; when the device does not deliver
    the reply it never returns. *)
Theorem flush_output_effect (w : world) :
  (output (ses w) = [] -> neofoxx_flush_output w = Ret tt w)
  /\ (output (ses w) <> [] ->
      output (ses (world_of (neofoxx_flush_output w))) = [])
  /\ (output (ses w) <> [] -> bytes_to_read (ses w) <= 0 ->
      exists w', neofoxx_flush_output w = Ret tt w'
                 /\ bytes_to_read (ses w') = bytes_to_read (ses w)
                 /\ current_pos_input (ses w') = current_pos_input (ses w))
  /\ (output (ses w) <> [] ->
      0 < bytes_to_read (ses w) <= Z.of_nat (length (stream w)) ->
      exists w', neofoxx_flush_output w = Ret tt w'
                 /\ bytes_to_read (ses w') = 0
                 /\ current_pos_input (ses w') = 0)
  /\ (output (ses w) <> [] ->
      Z.of_nat (length (stream w)) < bytes_to_read (ses w) ->
      exists w', neofoxx_flush_output w = Hang w').
Proof.
  split; [apply flush_output_empty|].
  split.
  - intros Ho.
    destruct (Z.leb_spec (bytes_to_read (ses w)) 0) as [Hr|Hr].
    + destruct (flush_output_write_only w Hr) as (w' & E & _ & O). now rewrite E.
    + destruct (Z.leb_spec (bytes_to_read (ses w)) (Z.of_nat (length (stream w)))) as [Hs|Hs].
      * destruct (flush_output_reply w Ho Hr Hs) as (w' & E & _ & O & _). now rewrite E.
      * destruct (flush_output_silent w Ho Hs) as (w' & E & O). now rewrite E.
  - split; [|split].
    + intros _ Hr. destruct (flush_output_write_only w Hr) as (w' & E & Kp & _).
      exists w'. destruct Kp. auto.
    + intros Ho [Hr Hs]. destruct (flush_output_reply w Ho Hr Hs) as (w' & E & S & _ & C & _).
      exists w'. destruct S. auto.
    + intros Ho Hs. destruct (flush_output_silent w Ho Hs) as (w' & E & _). eauto.
Qed.

Lemma flush_output_effect_witness :
  neofoxx_flush_output (target (idle_session FAMILY_MZ INTERFACE_JTAG 0) [])
  = Ret tt (target (idle_session FAMILY_MZ INTERFACE_JTAG 0) [])
  /\ output (ses (world_of (neofoxx_flush_output w_queued))) = []
  /\ (exists w', neofoxx_flush_output w_read_then_queued = Ret tt w'
                 /\ bytes_to_read (ses w') = bytes_to_read (ses w_read_then_queued)
                 /\ current_pos_input (ses w')
                    = current_pos_input (ses w_read_then_queued))
  /\ (exists w', neofoxx_flush_output w_read_queued = Ret tt w'
                 /\ bytes_to_read (ses w') = 0
                 /\ current_pos_input (ses w') = 0).
Proof.
  split; [|split; [|split]].
  - apply (proj1 (flush_output_effect _)). reflexivity.
  - apply (proj1 (proj2 (flush_output_effect w_queued))). vm_compute. discriminate.
  - apply (proj1 (proj2 (proj2 (flush_output_effect w_read_then_queued)))).
    + vm_compute. discriminate.
    + vm_compute. discriminate.
  - apply (proj1 (proj2 (proj2 (proj2 (flush_output_effect w_read_queued))))).
    + vm_compute. discriminate.
    + vm_compute. split; [reflexivity | discriminate].
Defined.

(** C5 (as stated) fails: a flush that finds no reply pending returns
    before the read cursor is reset. *)
Lemma flush_output_keeps_cursor :
  output (ses w_read_then_queued) <> []
  /\ bytes_to_read (ses w_read_then_queued) = 0
  /\ exists w', neofoxx_flush_output w_read_then_queued = Ret tt w'
                /\ current_pos_input (ses w') = 8.
Proof.
  split; [vm_compute; discriminate|].
  split; [reflexivity|].
  eexists. split; vm_compute; reflexivity.
Qed.

(** C6: the packet a flush writes carries, at offsets 1 and 2, the low and
    the high byte of the number of bytes that follow the length field, which
    are the queued payload and the checksum byte, that is of the length of the
    packet less 3. *)
Theorem flush_length_field (w : world) :
  (4 <= length (output (ses w)))%nat ->
  Z.of_nat (length (output (ses w))) < 65538 ->
  exists packet,
    tx (port (world_of (neofoxx_flush_output w))) = tx (port w) ++ [packet]
    /\ skipn 3 packet = skipn 3 (output (ses w)) ++ [last packet 0]
    /\ Z.of_nat (length (skipn 3 packet)) = Z.of_nat (length packet) - 3
    /\ nth 1 packet 0 = (Z.of_nat (length packet) - 3) mod 256
    /\ nth 2 packet 0 = (Z.of_nat (length packet) - 3) / 256.
Proof.
  intros H4 Hcap.
  destruct (output (ses w)) as [|b0 [|b1 [|b2 payload]]] eqn:Eo;
    try (cbn in H4; lia).
  exists (finish_packet (b0 :: b1 :: b2 :: payload)).
  split.
  - rewrite flush_output_tx by congruence. unfold bytes_to_write. rewrite Eo.
    destruct (Z.gtb_spec 4 (Z.of_nat (length (b0 :: b1 :: b2 :: payload))));
      [cbn [length] in *; lia | reflexivity].
  - rewrite finish_packet_shape.
    set (ck := u8 (Z.land _ 0xFF)).
    assert (Hn : u16 (Z.of_nat (length payload) + 1) = Z.of_nat (length payload) + 1).
    { unfold u16. apply Z.mod_small. cbn [length] in Hcap. lia. }
    rewrite Hn, land_255. cbn [skipn nth length].
    rewrite length_app. cbn [length].
    replace (Z.of_nat (S (S (S (length payload + 1)))) - 3)
      with (Z.of_nat (length payload) + 1) by lia.
    repeat split.
    + f_equal. f_equal. symmetry.
      exact (last_last (b0 :: _ :: _ :: payload) ck 0).
    + lia.
    + unfold u8. rewrite Z.shiftr_div_pow2 by lia. apply Z.mod_small.
      cbn [length] in Hcap. change (2 ^ 8) with 256.
      split; [apply Z.div_pos; lia | apply Z.div_lt_upper_bound; lia].
Qed.

Lemma flush_length_field_witness :
  exists packet,
    tx (port (world_of (neofoxx_flush_output w_queued)))
    = tx (port w_queued) ++ [packet]
    /\ skipn 3 packet = skipn 3 (output (ses w_queued)) ++ [last packet 0]
    /\ Z.of_nat (length (skipn 3 packet)) = Z.of_nat (length packet) - 3
    /\ nth 1 packet 0 = (Z.of_nat (length packet) - 3) mod 256
    /\ nth 2 packet 0 = (Z.of_nat (length packet) - 3) / 256.
Proof.
  apply (flush_length_field w_queued).
  - vm_compute. repeat constructor.
  - vm_compute. reflexivity.
Defined.

(** C7: in the packet a flush writes for a buffer that [add_to_packet]
    opened, the last byte is the sum modulo 256 of the payload bytes: the sum
    runs over the bytes from offset 2 on while the length bytes still hold
    their zero placeholders. *)
Theorem flush_checksum (w : world) (payload : list Z) :
  output (ses w) = PACKET_BYTE :: 0 :: 0 :: payload ->
  payload <> [] ->
  exists lo hi,
    tx (port (world_of (neofoxx_flush_output w)))
    = tx (port w)
      ++ [PACKET_BYTE :: lo :: hi :: payload ++ [sum_bytes payload mod 256]].
Proof.
  intros Eo Hp. destruct payload as [|b payload]; [congruence|].
  rewrite flush_output_tx by congruence. unfold bytes_to_write. rewrite Eo.
  destruct (Z.gtb_spec 4 (Z.of_nat (length (PACKET_BYTE :: 0 :: 0 :: b :: payload))));
    [cbn [length] in *; lia|].
  rewrite finish_packet_shape, packet_checksum, Z.add_0_l.
  eexists. eexists. reflexivity.
Qed.

Lemma flush_checksum_witness :
  exists lo hi,
    tx (port (world_of (neofoxx_flush_output w_queued)))
    = tx (port w_queued)
      ++ [PACKET_BYTE :: lo :: hi
            :: [COMMAND_SET_PIN_IO_MODE; PIN_MCLR; PIN_SET_OUTPUT_LOW]
            ++ [sum_bytes [COMMAND_SET_PIN_IO_MODE; PIN_MCLR; PIN_SET_OUTPUT_LOW]
                mod 256]].
Proof.
  apply (flush_checksum w_queued).
  - vm_compute. reflexivity.
  - discriminate.
Defined.

(** * The JTAG encoder *)

Lemma writes_ret {A : Type} (a : A) (w : world) : writes (ret a) a w.
Proof. intros _. exists w. split; [reflexivity | apply kept_refl]. Qed.

Lemma writes_bind {A B : Type} (m : M A) (k : A -> M B) (a : A) (b : B) (w : world) :
  writes m a w ->
  (forall w', kept w w' -> writes (k a) b w') ->
  writes (bind m k) b w.
Proof.
  intros Hm Hk Hr. destruct (Hm Hr) as (w1 & E1 & K1).
  destruct (Hk w1 K1) as (w2 & E2 & K2).
  { destruct K1. lia. }
  exists w2. split; [now rewrite (bind_Ret _ _ _ _ _ E1) | eapply kept_trans; eassumption].
Qed.

Lemma writes_gets {A : Type} (f : neofoxx_adapter_t -> A) (w : world) :
  writes (gets f) (f (ses w)) w.
Proof. intros _. exists w. split; [reflexivity | apply kept_refl]. Qed.

Lemma writes_mdelay (ms : Z) (w : world) : writes (mdelay ms) tt w.
Proof. apply writes_ret. Qed.

Lemma writes_add_to_packet (data : list Z) (w : world) :
  writes (add_to_packet data) tt w.
Proof.
  intros _. destruct (add_to_packet_kept data w) as (w' & E & Kp & _). eauto.
Qed.

Lemma writes_flush_output (w : world) : writes neofoxx_flush_output tt w.
Proof.
  intros Hr. destruct (flush_output_write_only w Hr) as (w' & E & Kp & _). eauto.
Qed.

Lemma writes_if_flush (immediate : Z) (w : world) :
  writes (if immediate =? 0 then ret tt else neofoxx_flush_output) tt w.
Proof.
  destruct (immediate =? 0); [apply writes_ret | apply writes_flush_output].
Qed.

Lemma writes_setPins (preset pin pin_dir pin_val immediate : Z) (w : world) :
  writes (neofoxx_setPins preset pin pin_dir pin_val immediate) tt w.
Proof.
  unfold neofoxx_setPins. eapply writes_bind; [apply writes_add_to_packet|].
  intros w1 _. apply writes_if_flush.
Qed.

Lemma writes_send (pn p tn t en e read_flag : Z) (w : world) :
  u32 read_flag = 0 -> writes (neofoxx_send pn p tn t en e read_flag) tt w.
Proof.
  intros H. unfold neofoxx_send. rewrite H. cbn [Z.eqb].
  eapply writes_bind; [apply writes_add_to_packet|].
  intros w1 _. apply writes_ret.
Qed.

Lemma writes_setMode_TAP_RESET (immediate : Z) (w : world) :
  writes (neofoxx_setMode SET_MODE_TAP_RESET immediate) tt w.
Proof.
  unfold neofoxx_setMode. eapply writes_bind; [apply writes_gets|].
  intros w1 _. cbn [SET_MODE_TAP_RESET Z.eqb].
  eapply writes_bind; [now apply writes_send|].
  intros w2 _. apply writes_if_flush.
Qed.

Lemma writes_setMode_ICSP_SYNC (immediate : Z) (w : world) :
  jtag_or_default (interface (ses w)) = true ->
  writes (neofoxx_setMode SET_MODE_ICSP_SYNC immediate) tt w.
Proof.
  intros Hi. unfold neofoxx_setMode. eapply writes_bind; [apply writes_gets|].
  intros w1 _. cbn [SET_MODE_TAP_RESET SET_MODE_EXIT SET_MODE_ICSP_SYNC Z.eqb andb].
  rewrite Hi.
  eapply writes_bind.
  - repeat (eapply writes_bind; [now apply writes_send | intros ? _]).
    now apply writes_send.
  - intros w2 _. apply writes_if_flush.
Qed.

Lemma send_read (pn p tn t en e read_flag : Z) (w : world) :
  u32 read_flag <> 0 ->
  exists w',
    neofoxx_send pn p tn t en e read_flag w = Ret tt w'
    /\ output (ses w') <> []
    /\ kept (mkWorld (set_bytes_to_read (bytes_to_read (ses w) + 8) (ses w))
                     (port w) (stderr w)) w'.
Proof.
  intros H. unfold neofoxx_send, bind. rewrite add_to_packet_eq.
  destruct (Z.eqb_spec (u32 read_flag) 0); [congruence|].
  unfold modify. cbn [ses port stderr]. eexists. split; [reflexivity|]. split.
  - cbn. destruct (output (ses w)); discriminate.
  - now constructor.
Qed.

Lemma add_to_packet_queued (data : list Z) (w : world) :
  add_to_packet data w = Ret tt (queued data w).
Proof. apply add_to_packet_eq. Qed.

Lemma send_queued (pn p tn t en e read_flag : Z) (w : world) :
  neofoxx_send pn p tn t en e read_flag w
  = Ret tt (if u32 read_flag =? 0
            then queued (send_data pn p tn t en e read_flag) w
            else expecting 8 (queued (send_data pn p tn t en e read_flag) w)).
Proof.
  unfold neofoxx_send, bind. rewrite add_to_packet_queued.
  now destruct (u32 read_flag =? 0).
Qed.

(** What a transfer with the read flag set has written when it returns: one
    packet, made of what was queued before the call and of the SEND of this
    transfer behind it. *)
Lemma xferData_written (nBits iData readFlag immediate r : Z) (w w' : world) :
  u32 readFlag <> 0 ->
  neofoxx_xferData nBits iData readFlag immediate w = Ret r w' ->
  tx (port w')
  = tx (port w)
    ++ [finish_packet
          ((match output (ses w) with
            | [] => [PACKET_BYTE; 0; 0]
            | _ => output (ses w)
            end)
           ++ send_data TMS_HEADER_XFERDATA_NBITS TMS_HEADER_XFERDATA_VAL
                        nBits (u32 iData)
                        TMS_FOOTER_XFERDATA_NBITS TMS_FOOTER_XFERDATA_VAL
                        readFlag)].
Proof.
  intros Hf H. unfold neofoxx_xferData in H.
  rewrite (bind_Ret _ _ _ _ _ (send_queued _ _ _ _ _ _ _ w)) in H.
  destruct (Z.eqb_spec (u32 readFlag) 0); [congruence|].
  set (d := send_data TMS_HEADER_XFERDATA_NBITS TMS_HEADER_XFERDATA_VAL nBits
              (u32 iData) TMS_FOOTER_XFERDATA_NBITS TMS_FOOTER_XFERDATA_VAL
              readFlag) in *.
  set (w1 := expecting 8 (queued d w)) in *.
  assert (O1 : output (ses w1)
               = (match output (ses w) with
                  | [] => [PACKET_BYTE; 0; 0]
                  | _ => output (ses w)
                  end) ++ d) by reflexivity.
  assert (L1 : (29 <= length (output (ses w1)))%nat).
  { rewrite O1, length_app. subst d. unfold send_data.
    rewrite !length_app, !le_bytes_length. cbn [length]. lia. }
  assert (N1 : output (ses w1) <> [])
    by (intros E; rewrite E in L1; cbn [length] in L1; lia).
  pose proof (flush_output_tx w1 N1) as T.
  destruct (Z.gtb_spec 4 (bytes_to_write (ses w1))) as [G|G];
    [unfold bytes_to_write in G; lia|].
  unfold neofoxx_recv, bind at 1 in H.
  destruct (neofoxx_flush_output w1) as [[] w2| | |]; try discriminate H.
  cbn [world_of] in T. unfold bind, gets, modify, ret in H.
  inversion H; subst w'. cbn [port]. rewrite T, O1. reflexivity.
Qed.

(** A transfer with the read flag set returns the next eight bytes of the
    device as one word. *)
Lemma xferData_reply (nBits iData readFlag immediate : Z) (w : world) :
  u32 readFlag <> 0 ->
  0 <= bytes_to_read (ses w) ->
  bytes_to_read (ses w) + 8 <= Z.of_nat (length (stream w)) ->
  exists w',
    neofoxx_xferData nBits iData readFlag immediate w
    = Ret (le_word (firstn 8 (stream w))) w'
    /\ sent (Z.to_nat (bytes_to_read (ses w) + 8)) w w'
    /\ output (ses w') = []
    /\ current_pos_input (ses w') = 8.
Proof.
  intros Hf Hr Hs. unfold neofoxx_xferData.
  destruct (send_read TMS_HEADER_XFERDATA_NBITS TMS_HEADER_XFERDATA_VAL nBits
              (u32 iData) TMS_FOOTER_XFERDATA_NBITS TMS_FOOTER_XFERDATA_VAL
              readFlag w Hf) as (w1 & E1 & O1 & K1).
  rewrite (bind_Ret _ _ _ _ _ E1).
  destruct (Z.eqb_spec (u32 readFlag) 0); [congruence|].
  assert (R1 : bytes_to_read (ses w1) = bytes_to_read (ses w) + 8)
    by (now destruct K1).
  assert (S1 : stream w1 = stream w)
    by (unfold stream; destruct K1 as [_ _ _ _ _ _ _ _ _ Hrx _]; now rewrite Hrx).
  destruct (flush_output_reply w1 O1) as (w2 & E2 & S2 & O2 & C2 & I2);
    [lia | rewrite R1, S1; lia |].
  unfold neofoxx_recv. rewrite (bind_Ret _ _ _ _ _ E2).
  unfold bind, gets, modify, ret. rewrite C2. cbn [Z.to_nat skipn Z.add].
  rewrite R1, S1 in I2.
  assert (W : firstn 8 (input (ses w2)) = firstn 8 (stream w)).
  { replace 8%nat with (Nat.min 8 (Z.to_nat (bytes_to_read (ses w) + 8))) by lia.
    now rewrite <- !firstn_firstn, I2. }
  rewrite W. eexists. split; [reflexivity|].
  split; [|split; [exact O2 | reflexivity]].
  destruct S2, K1. unfold diags, stream in *.
  constructor; unfold diags, stream; cbn in *; try congruence.
Qed.

(** C4 (as amended): with the read flag set, [neofoxx_xferData] queues the
    transfer behind what the transmit buffer holds, flushes, so that one
    packet with the SEND of this transfer at its end goes out, and returns the
    64-bit reply word whole, as the device sent it; [nBits] goes into the
    request and plays no part in the value returned. *)
Theorem xferData_read (nBits iData readFlag immediate : Z) (w : world) :
  u32 readFlag <> 0 ->
  0 <= bytes_to_read (ses w) ->
  bytes_to_read (ses w) + 8 <= Z.of_nat (length (stream w)) ->
  exists w',
    neofoxx_xferData nBits iData readFlag immediate w
    = Ret (le_word (firstn 8 (stream w))) w'
    /\ 0 <= le_word (firstn 8 (stream w)) < 2 ^ 64
    /\ sent (Z.to_nat (bytes_to_read (ses w) + 8)) w w'
    /\ output (ses w') = []
    /\ current_pos_input (ses w') = 8
    /\ tx (port w')
       = tx (port w)
         ++ [finish_packet
               ((match output (ses w) with
                 | [] => [PACKET_BYTE; 0; 0]
                 | _ => output (ses w)
                 end)
                ++ send_data TMS_HEADER_XFERDATA_NBITS TMS_HEADER_XFERDATA_VAL
                             nBits (u32 iData)
                             TMS_FOOTER_XFERDATA_NBITS TMS_FOOTER_XFERDATA_VAL
                             readFlag)].
Proof.
  intros Hf Hr Hs.
  destruct (xferData_reply nBits iData readFlag immediate w Hf Hr Hs)
    as (w' & E & S & O & C).
  exists w'. split; [exact E|].
  split; [|split; [exact S | split; [exact O | split; [exact C|]]]].
  - pose proof (le_word_range (firstn 8 (stream w))) as [Hge Hlt].
    split; [exact Hge|].
    eapply Z.lt_le_trans; [exact Hlt|].
    rewrite length_firstn. change (2 ^ 64) with (256 ^ 8).
    apply Z.pow_le_mono_r; lia.
  - exact (xferData_written nBits iData readFlag immediate _ w w' Hf E).
Qed.

Lemma xferData_read_witness :
  exists w',
    neofoxx_xferData 32 0 1 1 (target (idle_session FAMILY_MZ INTERFACE_JTAG 0)
                                      (reply_words [0x4a1e053]))
    = Ret (le_word (firstn 8 (stream (target (idle_session FAMILY_MZ INTERFACE_JTAG 0)
                                             (reply_words [0x4a1e053]))))) w'
    /\ 0 <= le_word (firstn 8 (stream (target (idle_session FAMILY_MZ INTERFACE_JTAG 0)
                                              (reply_words [0x4a1e053])))) < 2 ^ 64
    /\ sent (Z.to_nat (0 + 8)) (target (idle_session FAMILY_MZ INTERFACE_JTAG 0)
                                       (reply_words [0x4a1e053])) w'
    /\ output (ses w') = []
    /\ current_pos_input (ses w') = 8
    /\ tx (port w')
       = [] ++ [finish_packet ([PACKET_BYTE; 0; 0] ++ send_data 3 1 32 0 2 1 1)].
Proof.
  apply (xferData_read 32 0 1 1
           (target (idle_session FAMILY_MZ INTERFACE_JTAG 0) (reply_words [0x4a1e053]))).
  - vm_compute. discriminate.
  - vm_compute. discriminate.
  - vm_compute. discriminate.
Defined.

(** C4 (as stated) fails: an 8-bit transfer returns a reply word with bits
    above position 7 set when the device sends one. *)
Lemma xferData_returns_bits_above_nBits :
  exists w',
    neofoxx_xferData 8 0 1 1 (target (idle_session FAMILY_MZ INTERFACE_JTAG 0)
                                     (reply_words [0xfedcba9876543210]))
    = Ret 0xfedcba9876543210 w'
    /\ Z.testbit 0xfedcba9876543210 9 = true.
Proof.
  eexists. split; vm_compute; reflexivity.
Qed.

(** * The status check of the bootstrap *)

Lemma serial_execution_unfold {K : pic32_h} (w : world) :
  serial_execution_mode (ses w) = 0 ->
  serial_execution w = bind read_mchp_status enter_serial_execution (flagged w).
Proof.
  intros H. unfold serial_execution, bind at 1, gets at 1. rewrite H. reflexivity.
Qed.

(** Once the flag is set a call returns at once and changes nothing. *)
Lemma serial_execution_sticky {K : pic32_h} (w : world) :
  serial_execution_mode (ses w) <> 0 -> serial_execution w = Ret tt w.
Proof.
  intros H. unfold serial_execution, bind, gets.
  destruct (Z.eqb_spec (serial_execution_mode (ses w)) 0); [congruence|reflexivity].
Qed.

(** C1 (as amended): [serial_execution] exits with the erase-first line
    exactly when the status word has the CPS bit clear, and goes on to the
    entry loop exactly when it has the bit set. *)
Theorem serial_execution_cps_check {K : pic32_h} (w w1 : world) (status : Z) :
  serial_execution_mode (ses w) = 0 ->
  read_mchp_status (flagged w) = Ret status w1 ->
  (Z.land status MCHP_STATUS_CPS = 0 ->
   serial_execution w
   = Exit (mkWorld (ses w1) (port w1) (stderr w1 ++ [ErrCpsSet (u32 status)])))
  /\ (Z.land status MCHP_STATUS_CPS <> 0 ->
      serial_execution w
      = (r <- entry_loop 20 ;;
         (if snd r =? 0 then fprintf_stderr ErrCouldntEnter else ret tt) ;;
         mdelay 10) w1).
Proof.
  intros Hsem Hst. rewrite serial_execution_unfold by assumption.
  rewrite (bind_Ret _ _ _ _ _ Hst). unfold enter_serial_execution.
  split; intros Hc.
  - rewrite Hc. reflexivity.
  - destruct (Z.eqb_spec (Z.land status MCHP_STATUS_CPS) 0); [congruence|].
    reflexivity.
Qed.

Lemma serial_execution_cps_check_witness :
  (exists w', @serial_execution pic32_values w_cps_clear = Exit w'
              /\ last (stderr w') MsgWorkaround = ErrCpsSet 0x08)
  /\ (exists w', @serial_execution pic32_values w_cps_set = Ret tt w'
                 /\ stderr w' = []).
Proof.
  split.
  - destruct (@serial_execution_cps_check pic32_values w_cps_clear
                (world_of (@read_mchp_status pic32_values (flagged w_cps_clear))) 0x08)
      as [H _]; [reflexivity | vm_compute; reflexivity |].
    eexists. split; [apply H; reflexivity | vm_compute; reflexivity].
  - destruct (@serial_execution_cps_check pic32_values w_cps_set
                (world_of (@read_mchp_status pic32_values (flagged w_cps_set))) 0x88)
      as [_ H]; [reflexivity | vm_compute; reflexivity |].
    eexists. split; [rewrite H by (vm_compute; discriminate); vm_compute; reflexivity
                    | reflexivity].
Defined.

(** C1 (as stated) fails: a status word with the CPS bit set does not end
    the call, which enters serial execution and returns with nothing printed;
    and a status word with the CPS bit clear does not let it go on, it ends
    the program with the erase-first line. *)
Lemma serial_execution_passes_with_cps_set :
  (Z.land 0x88 (@MCHP_STATUS_CPS pic32_values) <> 0
   /\ (exists w1, @read_mchp_status pic32_values (flagged w_cps_set) = Ret 0x88 w1)
   /\ exists w', @serial_execution pic32_values w_cps_set = Ret tt w'
                 /\ stderr w' = [])
  /\ (Z.land 0x08 (@MCHP_STATUS_CPS pic32_values) = 0
      /\ (exists w1, @read_mchp_status pic32_values (flagged w_cps_clear)
                      = Ret 0x08 w1)
      /\ exists w', @serial_execution pic32_values w_cps_clear = Exit w'
                    /\ stderr w' = [ErrCpsSet 0x08]).
Proof.
  split.
  - split; [vm_compute; discriminate|].
    split; eexists; [vm_compute; reflexivity|].
    split; vm_compute; reflexivity.
  - split; [reflexivity|].
    split; eexists; [vm_compute; reflexivity|].
    split; vm_compute; reflexivity.
Qed.

(** * The PE client *)

(** The table-driven checksum is CRC-16/CCITT with the initial value the
    caller passes. *)
Lemma calculate_crc_check_value :
  calculate_crc 0xffff [0x31; 0x32; 0x33; 0x34; 0x35; 0x36; 0x37; 0x38; 0x39] 9
  = 0x29b1.
Proof. vm_compute. reflexivity. Qed.

(** C2 (what the code does): with the PE resident, [neofoxx_program_word]
    on an MM part prints that the operation is not available and then makes
    the WORD_PROGRAM exchange with the PE, as on any other part; and
    [neofoxx_program_quad_word] on a part that is neither MK nor MZ prints
    that the operation is not available and then makes the QUAD_WORD_PGRM
    exchange. *)
Theorem program_word_unsupported_goes_on {K : pic32_h} (fuel : nat)
    (addr word word0 word1 word2 word3 : Z) (w : world) :
  use_executive (ses w) <> 0 ->
  (family_name_short (ses w) = FAMILY_MM ->
   neofoxx_program_word fuel addr word w
   = word_program_request fuel addr word
       (logged MsgWorkaround (logged ErrWordNotOnMM w)))
  /\ (family_name_short (ses w) <> FAMILY_MK ->
      family_name_short (ses w) <> FAMILY_MZ ->
      neofoxx_program_quad_word fuel addr word0 word1 word2 word3 w
      = quad_word_program_request fuel addr word0 word1 word2 word3
          (logged MsgWorkaround (logged ErrQuadOnlyMKMZ w))).
Proof.
  intros Hue. split.
  - intros Hf. unfold neofoxx_program_word. rewrite bind_gets, Hf.
    cbn [family_eqb]. rewrite bind_fprintf, bind_gets. cbn [logged ses].
    destruct (Z.eqb_spec (use_executive (ses w)) 0); [congruence|].
    rewrite bind_ret_l. unfold old_way. rewrite bind_assoc, bind_gets, bind_ret_l.
    rewrite orb_true_r. cbn [Z.eqb negb]. now rewrite bind_fprintf.
  - intros Hk Hz. unfold neofoxx_program_quad_word. rewrite bind_gets.
    assert (Hf : negb (family_eqb FAMILY_MK (family_name_short (ses w)))
                 && negb (family_eqb FAMILY_MZ (family_name_short (ses w))) = true)
      by (destruct (family_name_short (ses w)); cbn; congruence).
    rewrite Hf, bind_fprintf, bind_gets. cbn [logged ses].
    destruct (Z.eqb_spec (use_executive (ses w)) 0); [congruence|].
    rewrite bind_ret_l. unfold old_way. rewrite bind_assoc, bind_gets, bind_ret_l.
    rewrite orb_true_r. cbn [Z.eqb negb]. now rewrite bind_fprintf.
Qed.

Lemma program_word_unsupported_goes_on_witness :
  (exists w',
     @neofoxx_program_word pic32_values 4 0x1d000000 0xdeadbeef w_mm_pe = Ret tt w'
     /\ In ErrWordNotOnMM (stderr w')
     /\ In (fastdata_packet 0x30002) (tx (port w'))
     /\ In (fastdata_packet 0xdeadbeef) (tx (port w')))
  /\ (exists w',
        @neofoxx_program_quad_word pic32_values 4 0x1d000000 1 2 3 4 w_mx1_pe
        = Ret tt w'
        /\ In ErrQuadOnlyMKMZ (stderr w')
        /\ In (fastdata_packet 0xd0000) (tx (port w'))).
Proof.
  split.
  - eexists. split.
    + rewrite (proj1 (@program_word_unsupported_goes_on pic32_values 4 0x1d000000
                        0xdeadbeef 1 2 3 4 w_mm_pe ltac:(vm_compute; discriminate)))
        by reflexivity.
      vm_compute. reflexivity.
    + split; [vm_compute; tauto|]. split; vm_compute; tauto.
  - eexists. split.
    + rewrite (proj2 (@program_word_unsupported_goes_on pic32_values 4 0x1d000000
                        0xdeadbeef 1 2 3 4 w_mx1_pe ltac:(vm_compute; discriminate)))
        by discriminate.
      vm_compute. reflexivity.
    + split; vm_compute; tauto.
Defined.

Lemma verify_data_unfold {K : pic32_h} (fuel : nat) (addr nwords : Z)
    (data : list Z) (w : world) :
  use_executive (ses w) <> 0 ->
  neofoxx_verify_data fuel addr nwords data w
  = (response <- get_crc_request fuel addr nwords ;;
     (if negb (response =? u32 (Z.shiftl PE_GET_CRC 16))
      then fprintf_stderr (ErrVerifyFailed nwords addr response) ;; exit_
      else ret tt) ;;
     compare_crc fuel addr nwords data) (logged MsgWorkaround w).
Proof.
  intros H. unfold neofoxx_verify_data, bind at 1, gets at 1.
  destruct (Z.eqb_spec (use_executive (ses w)) 0); [congruence|].
  unfold bind at 1, ret at 1, bind at 1, old_way, bind at 1, gets at 1, ret at 1.
  rewrite orb_true_r. reflexivity.
Qed.

(** C3 (as amended): [neofoxx_verify_data] exits whenever the first answer
    of the PE is not the GET_CRC opcode in the high 16 bits over 16 zero bits,
    which takes in every answer whose high 16 bits are not the opcode; when the
    first answer is that word and the checksum the PE reports differs from the
    one computed over the [nwords * 4] bytes of [data], it logs the mismatch
    and returns. *)
Theorem verify_data_outcomes {K : pic32_h} (fuel : nat) (addr nwords : Z)
    (data : list Z) (w w1 : world) (response : Z) :
  use_executive (ses w) <> 0 ->
  get_crc_request fuel addr nwords (logged MsgWorkaround w) = Ret response w1 ->
  (response <> u32 (Z.shiftl PE_GET_CRC 16) ->
   neofoxx_verify_data fuel addr nwords data w
   = Exit (logged (ErrVerifyFailed nwords addr response) w1))
  /\ (0 <= PE_GET_CRC < 65536 ->
      Z.shiftr response 16 <> PE_GET_CRC ->
      response <> u32 (Z.shiftl PE_GET_CRC 16))
  /\ (response = u32 (Z.shiftl PE_GET_CRC 16) ->
      forall (r : Z) (w2 : world),
        get_pe_response fuel w1 = Ret r w2 ->
        Z.land r 0xffff
        <> calculate_crc 0xffff (bytes_of_words data) (u32 (nwords * 4)) ->
        neofoxx_verify_data fuel addr nwords data w
        = Ret tt (logged (ErrChecksumFailed addr (Z.land r 0xffff)
                            (calculate_crc 0xffff (bytes_of_words data)
                                           (u32 (nwords * 4)))) w2)).
Proof.
  intros Hue Hreq. rewrite verify_data_unfold by assumption.
  rewrite (bind_Ret _ _ _ _ _ Hreq).
  split; [|split].
  - intros Hne. unfold bind.
    destruct (Z.eqb_spec response (u32 (Z.shiftl PE_GET_CRC 16))); [congruence|].
    reflexivity.
  - intros Hop Hhi Heq. apply Hhi. rewrite Heq. unfold u32.
    rewrite Z.shiftl_mul_pow2, Z.mod_small, Z.shiftr_div_pow2, Z.div_mul; lia.
  - intros Heq r w2 Hr Hcrc. unfold bind at 1.
    rewrite <- Heq, Z.eqb_refl. cbn [negb]. unfold ret at 1, compare_crc.
    rewrite (bind_Ret _ _ _ _ _ Hr).
    destruct (Z.eqb_spec (Z.land r 0xffff)
                (calculate_crc 0xffff (bytes_of_words data) (u32 (nwords * 4))));
      [congruence | reflexivity].
Qed.

Lemma verify_data_outcomes_witness :
  (exists w',
     @neofoxx_verify_data pic32_values 4 0x1d000000 1 [0xdeadbeef]
       (w_verify 0x90000 0x1234) = Exit w')
  /\ (exists w',
        @neofoxx_verify_data pic32_values 4 0x1d000000 1 [0xdeadbeef]
          (w_verify 0x80000 0x1234) = Ret tt w'
        /\ last (stderr w') MsgWorkaround
           = ErrChecksumFailed 0x1d000000 0x1234
               (calculate_crc 0xffff (bytes_of_words [0xdeadbeef]) 4)).
Proof.
  split.
  - destruct (@verify_data_outcomes pic32_values 4 0x1d000000 1 [0xdeadbeef]
                (w_verify 0x90000 0x1234)
                (world_of (@get_crc_request pic32_values 4 0x1d000000 1
                             (logged MsgWorkaround (w_verify 0x90000 0x1234))))
                0x90000) as [H _];
      [vm_compute; discriminate | vm_compute; reflexivity |].
    eexists. apply H. vm_compute. discriminate.
  - destruct (@verify_data_outcomes pic32_values 4 0x1d000000 1 [0xdeadbeef]
                (w_verify 0x80000 0x1234)
                (world_of (@get_crc_request pic32_values 4 0x1d000000 1
                             (logged MsgWorkaround (w_verify 0x80000 0x1234))))
                0x80000) as [_ [_ H]];
      [vm_compute; discriminate | vm_compute; reflexivity |].
    eexists. split.
    + apply (H eq_refl 0x1234); [vm_compute; reflexivity | vm_compute; discriminate].
    + vm_compute. reflexivity.
Defined.

(** C3 (as stated) fails: an answer that echoes the GET_CRC opcode in its
    high 16 bits and carries a non-zero low half makes the call exit, whatever
    the checksums. *)
Lemma verify_data_exits_on_echo_with_status :
  Z.shiftr 0x80001 16 = @PE_GET_CRC pic32_values
  /\ exists w',
       @neofoxx_verify_data pic32_values 4 0x1d000000 1 [0xdeadbeef]
         (w_verify 0x80001 0x1234) = Exit w'
       /\ last (stderr w') MsgWorkaround = ErrVerifyFailed 1 0x1d000000 0x80001.
Proof.
  split; [reflexivity|].
  eexists. split; vm_compute; reflexivity.
Qed.

Lemma bind_Ret_inv {A B : Type} (m : M A) (k : A -> M B) (w w' : world) (b : B) :
  bind m k w = Ret b w' ->
  exists a w1, m w = Ret a w1 /\ k a w1 = Ret b w'.
Proof.
  unfold bind. destruct (m w) as [a w1| | |]; try discriminate. eauto.
Qed.

Lemma get_pe_words_length {K : pic32_h} (fuel n : nat) :
  forall w ws w', get_pe_words fuel n w = Ret ws w' -> length ws = n.
Proof.
  induction n as [|n IH]; intros w ws w' H; cbn [get_pe_words] in H.
  - inversion H. reflexivity.
  - apply bind_Ret_inv in H. destruct H as (x & w1 & _ & H).
    apply bind_Ret_inv in H. destruct H as (xs & w2 & Hxs & H).
    inversion H. cbn [length]. f_equal. eapply IH. eassumption.
Qed.

Lemma read_burst_length {K : pic32_h} (fuel : nat) (addr : Z) (w : world)
    (ws : list Z) (w' : world) :
  read_burst fuel addr w = Ret ws w' -> length ws = 32%nat.
Proof.
  unfold read_burst. intros H.
  do 5 (apply bind_Ret_inv in H; destruct H as (? & ? & _ & H)).
  eapply get_pe_words_length. eassumption.
Qed.

Lemma read_bursts_length {K : pic32_h} (fuel k : nat) :
  forall addr w ws w',
    read_bursts fuel k addr w = Ret ws w' -> length ws = (32 * k)%nat.
Proof.
  induction k as [|k IH]; intros addr w ws w' H; cbn [read_bursts] in H.
  - inversion H. reflexivity.
  - apply bind_Ret_inv in H. destruct H as (b & w1 & Hb & H).
    apply bind_Ret_inv in H. destruct H as (r & w2 & Hr & H).
    inversion H. rewrite length_app, (read_burst_length _ _ _ _ _ Hb), (IH _ _ _ _ Hr).
    lia.
Qed.

Lemma read_each_length {K : pic32_h} (addrs : list Z) :
  forall w ws w', read_each addrs w = Ret ws w' -> length ws = length addrs.
Proof.
  induction addrs as [|a addrs IH]; intros w ws w' H; cbn [read_each] in H.
  - inversion H. reflexivity.
  - apply bind_Ret_inv in H. destruct H as (x & w1 & _ & H).
    apply bind_Ret_inv in H. destruct H as (xs & w2 & Hxs & H).
    inversion H. cbn [length]. f_equal. eapply IH. eassumption.
Qed.

(** The loop over [words_read] is the [k]-fold burst as long as
    [words_read] does not wrap. *)
Lemma read_words_pe_bursts {K : pic32_h} (fuel : nat) (nwords : Z) :
  nwords <= 4294967264 ->
  forall (k turns : nat) (words_read addr : Z) (w : world),
    0 <= words_read <= nwords + 31 ->
    k = Z.to_nat ((nwords - words_read + 31) / 32) ->
    (k <= turns)%nat ->
    read_words_pe turns fuel words_read nwords addr w = read_bursts fuel k addr w.
Proof.
  intros Hmax. induction k as [|k IH]; intros turns words_read addr w Hwr Hk Hturns.
  - assert (nwords <= words_read).
    { assert ((nwords - words_read + 31) / 32 <= 0) by lia.
      destruct (Z.le_gt_cases nwords words_read); [assumption|].
      assert (1 <= (nwords - words_read + 31) / 32)
        by (apply Z.div_le_lower_bound; lia).
      lia. }
    destruct turns; cbn [read_words_pe read_bursts];
      destruct (Z.ltb_spec words_read nwords); solve [lia | reflexivity].
  - assert (Hlt : words_read < nwords).
    { destruct (Z.lt_ge_cases words_read nwords); [assumption|].
      assert ((nwords - words_read + 31) / 32 < 1)
        by (apply Z.div_lt_upper_bound; lia).
      lia. }
    destruct turns as [|turns]; [lia|].
    cbn [read_words_pe read_bursts].
    destruct (Z.ltb_spec words_read nwords); [|lia].
    unfold bind. destruct (read_burst fuel addr w) as [b w1| | |]; try reflexivity.
    assert (Hu : u32 (words_read + 32) = words_read + 32)
      by (unfold u32; apply Z.mod_small; lia).
    rewrite Hu, (IH turns (words_read + 32) (u32 (addr + 32 * 4)) w1); try lia.
    + reflexivity.
    + replace (nwords - (words_read + 32) + 31)
        with (nwords - words_read + 31 + (-1) * 32) by lia.
      rewrite Z.div_add by lia. lia.
Qed.

Lemma read_words_slow_each {K : pic32_h} (n : nat) :
  forall (addr : Z) (w : world),
    0 <= addr < 4294967296 ->
    read_words_slow n addr w = read_each (word_addrs addr n) w.
Proof.
  unfold word_addrs.
  induction n as [|n IH]; intros addr w Ha; [reflexivity|].
  cbn [read_words_slow seq map read_each].
  replace (u32 (addr + 4 * Z.of_nat 0)) with addr
    by (unfold u32; rewrite Z.mod_small; lia).
  unfold bind. destruct (neofoxx_read_word addr w) as [x w1| | |]; try reflexivity.
  rewrite IH by (unfold u32; apply Z.mod_pos_bound; lia).
  rewrite <- seq_shift, map_map.
  erewrite map_ext; [reflexivity|].
  intros i. cbn beta. unfold u32.
  rewrite Zplus_mod_idemp_l. f_equal. lia.
Qed.

Lemma read_data_unfold {K : pic32_h} (fuel : nat) (addr nwords : Z) (w : world) :
  neofoxx_read_data fuel addr nwords w
  = (if use_executive (ses w) =? 0
     then read_words_slow (Z.to_nat nwords) addr
     else read_words_pe fuel fuel 0 nwords addr) (logged MsgWorkaround w).
Proof.
  unfold neofoxx_read_data, bind at 1, old_way, bind at 1, gets at 1, ret at 1.
  rewrite orb_true_r. reflexivity.
Qed.

(** C10 (as amended): with the PE resident and [nwords] between 1 and
    2^32 - 32, so that the 32-bit [words_read] does not wrap,
    [neofoxx_read_data] is ceil(nwords / 32) READ bursts at consecutive
    blocks and, when it returns, has stored 32 * ceil(nwords / 32) words,
    which is more than [nwords] unless 32 divides [nwords].  Without the PE
    and for every [nwords] between 1 and 2^32 - 1 it is one
    [neofoxx_read_word] at each of the addresses [addr + 4 * i] in 32-bit
    arithmetic and, when it returns, has stored [nwords] words. *)
Theorem read_data_words {K : pic32_h} (fuel : nat) (addr nwords : Z) (w : world) :
  0 <= addr < 4294967296 ->
  (use_executive (ses w) <> 0 ->
   0 < nwords <= 4294967264 ->
   (bursts_needed nwords <= fuel)%nat ->
   neofoxx_read_data fuel addr nwords w
   = read_bursts fuel (bursts_needed nwords) addr (logged MsgWorkaround w)
   /\ (forall ws w',
         neofoxx_read_data fuel addr nwords w = Ret ws w' ->
         Z.of_nat (length ws) = 32 * ((nwords + 31) / 32))
   /\ (nwords mod 32 <> 0 -> nwords < 32 * ((nwords + 31) / 32)))
  /\ (use_executive (ses w) = 0 ->
      0 < nwords < 4294967296 ->
      neofoxx_read_data fuel addr nwords w
      = read_each (word_addrs addr (Z.to_nat nwords)) (logged MsgWorkaround w)
      /\ (forall ws w',
            neofoxx_read_data fuel addr nwords w = Ret ws w' ->
            Z.of_nat (length ws) = nwords)).
Proof.
  intros Ha. split.
  - intros Hue Hn Hfuel.
    assert (E : neofoxx_read_data fuel addr nwords w
                = read_bursts fuel (bursts_needed nwords) addr (logged MsgWorkaround w)).
    { rewrite read_data_unfold.
      destruct (Z.eqb_spec (use_executive (ses w)) 0); [congruence|].
      apply read_words_pe_bursts; try lia.
      unfold bursts_needed. f_equal. f_equal. lia. }
    split; [exact E|]. split.
    + intros ws w' H. rewrite E in H. apply read_bursts_length in H.
      rewrite H. unfold bursts_needed. rewrite Nat2Z.inj_mul, Z2Nat.id; [lia|].
      apply Z.div_pos; lia.
    + intros Hm.
      pose proof (Z.div_mod nwords 32 ltac:(lia)).
      pose proof (Z.mod_pos_bound nwords 32 ltac:(lia)).
      assert (nwords / 32 + 1 <= (nwords + 31) / 32)
        by (apply Z.div_le_lower_bound; lia).
      lia.
  - intros Hue Hn.
    assert (E : neofoxx_read_data fuel addr nwords w
                = read_each (word_addrs addr (Z.to_nat nwords)) (logged MsgWorkaround w)).
    { rewrite read_data_unfold, Hue. cbn [Z.eqb].
      now apply read_words_slow_each. }
    split; [exact E|].
    intros ws w' H. rewrite E in H. apply read_each_length in H.
    rewrite H. unfold word_addrs. rewrite length_map, length_seq. lia.
Qed.

Lemma read_data_words_witness :
  (@neofoxx_read_data pic32_values 4 0x1d000000 33 w_two_bursts
   = @read_bursts pic32_values 4 (bursts_needed 33) 0x1d000000
       (logged MsgWorkaround w_two_bursts)
   /\ (forall ws w',
         @neofoxx_read_data pic32_values 4 0x1d000000 33 w_two_bursts = Ret ws w' ->
         Z.of_nat (length ws) = 32 * ((33 + 31) / 32))
   /\ (33 mod 32 <> 0 -> 33 < 32 * ((33 + 31) / 32)))
  /\ (exists ws w',
        @neofoxx_read_data pic32_values 4 0x1d000000 33 w_two_bursts = Ret ws w'
        /\ ws = repeat 0x11111111 32%nat ++ repeat 0x22222222 32%nat)
  /\ (@neofoxx_read_data pic32_values 0 0x1d000000 2 w_no_pe
      = @read_each pic32_values (word_addrs 0x1d000000 (Z.to_nat 2))
          (logged MsgWorkaround w_no_pe)
      /\ (forall ws w',
            @neofoxx_read_data pic32_values 0 0x1d000000 2 w_no_pe = Ret ws w' ->
            Z.of_nat (length ws) = 2))
  /\ (exists ws w',
        @neofoxx_read_data pic32_values 0 0x1d000000 2 w_no_pe = Ret ws w'
        /\ ws = [0xaa; 0xaa]).
Proof.
  split; [|split; [|split]].
  - apply (proj1 (@read_data_words pic32_values 4 0x1d000000 33 w_two_bursts
                    ltac:(lia))).
    + vm_compute. discriminate.
    + lia.
    + vm_compute. repeat constructor.
  - eexists. eexists. split; vm_compute; reflexivity.
  - apply (proj2 (@read_data_words pic32_values 0 0x1d000000 2 w_no_pe
                    ltac:(lia))).
    + reflexivity.
    + lia.
  - eexists. eexists. split; vm_compute; reflexivity.
Defined.

(** Past 2^32 - 32 words the test [words_read < nwords] never fails. *)
Lemma read_words_pe_wraps {K : pic32_h} (fuel : nat) :
  forall (turns : nat) (words_read addr : Z) (w : world) (ws : list Z) (w' : world),
    0 <= words_read < 4294967296 ->
    words_read mod 32 = 0 ->
    read_words_pe turns fuel words_read 4294967295 addr w <> Ret ws w'.
Proof.
  induction turns as [|turns IH]; intros words_read addr w ws w' Hwr Hm;
    cbn [read_words_pe];
    pose proof (Z.div_mod words_read 32 ltac:(lia));
    (destruct (Z.ltb_spec words_read 4294967295); [|lia]).
  - discriminate.
  - intros Hret. apply bind_Ret_inv in Hret. destruct Hret as (b & w1 & _ & Hret).
    apply bind_Ret_inv in Hret. destruct Hret as (r & w2 & Hret & _).
    revert Hret. apply IH.
    + unfold u32. apply Z.mod_pos_bound. lia.
    + unfold u32. rewrite Z.mod_mod_divide by (exists 134217728; reflexivity).
      replace (words_read + 32) with (words_read + 1 * 32) by lia.
      now rewrite Z.mod_add by lia.
Qed.

(** C10 (as stated) fails: for [nwords = 2^32 - 1] the call would have to
    end after 2^27 bursts, and it ends for no target and no amount of steps,
    since [words_read] wraps from 2^32 - 32 to 0. *)
Lemma read_data_wraps :
  ~ exists (K : pic32_h) (fuel : nat) (addr : Z) (w : world)
           (ws : list Z) (w' : world),
      use_executive (ses w) <> 0
      /\ neofoxx_read_data fuel addr 4294967295 w = Ret ws w'.
Proof.
  intros (K & fuel & addr & w & ws & w' & Hue & H).
  rewrite read_data_unfold in H.
  destruct (Z.eqb_spec (use_executive (ses w)) 0); [congruence|].
  revert H. apply read_words_pe_wraps; [lia | reflexivity].
Qed.

(** * The bound of the wait for ProbEn *)

Lemma nof_ret {A : Type} (a : A) : never_out_of_fuel (ret a).
Proof. intros w w'. discriminate. Qed.

Lemma nof_bind {A B : Type} (m : M A) (k : A -> M B) :
  never_out_of_fuel m ->
  (forall a, never_out_of_fuel (k a)) ->
  never_out_of_fuel (bind m k).
Proof.
  intros Hm Hk w w'. unfold bind. destruct (m w) as [a w1|w1|w1|w1] eqn:E;
    try discriminate.
  - apply Hk.
  - now apply Hm in E.
Qed.

Lemma nof_gets {A : Type} (f : neofoxx_adapter_t -> A) : never_out_of_fuel (gets f).
Proof. intros w w'. discriminate. Qed.

Lemma nof_modify (f : neofoxx_adapter_t -> neofoxx_adapter_t) :
  never_out_of_fuel (modify f).
Proof. intros w w'. discriminate. Qed.

Lemma nof_fprintf (d : diag) : never_out_of_fuel (fprintf_stderr d).
Proof. intros w w'. discriminate. Qed.

Lemma nof_exit {A : Type} : never_out_of_fuel (@exit_ A).
Proof. intros w w'. discriminate. Qed.

Lemma nof_if {A : Type} (c : bool) (m1 m2 : M A) :
  never_out_of_fuel m1 -> never_out_of_fuel m2 ->
  never_out_of_fuel (if c then m1 else m2).
Proof. now destruct c. Qed.

Lemma nof_add_to_packet (data : list Z) : never_out_of_fuel (add_to_packet data).
Proof. intros w w'. rewrite add_to_packet_eq. discriminate. Qed.

Lemma nof_flush_output : never_out_of_fuel neofoxx_flush_output.
Proof.
  unfold neofoxx_flush_output.
  apply nof_bind; [apply nof_gets|]. intros n.
  apply nof_if; [apply nof_ret|].
  apply nof_bind.
  { intros w w'. destruct (bulk_write_eq w) as (s & e & E & _). rewrite E.
    discriminate. }
  intros _. apply nof_bind; [apply nof_modify|]. intros _.
  apply nof_bind; [apply nof_gets|]. intros r.
  apply nof_if; [apply nof_ret|].
  apply nof_bind.
  { intros w w'. unfold get_reply. destruct (read_loop _ _ _) as [[got script]|];
      discriminate. }
  intros _. apply nof_bind; [apply nof_modify|]. intros _. apply nof_modify.
Qed.

Lemma nof_send (pn p tn t en e read_flag : Z) :
  never_out_of_fuel (neofoxx_send pn p tn t en e read_flag).
Proof.
  unfold neofoxx_send. apply nof_bind; [apply nof_add_to_packet|]. intros _.
  apply nof_if; [apply nof_ret | apply nof_modify].
Qed.

Lemma nof_xferData (nBits iData readFlag immediate : Z) :
  never_out_of_fuel (neofoxx_xferData nBits iData readFlag immediate).
Proof.
  unfold neofoxx_xferData. apply nof_bind; [apply nof_send|]. intros _.
  apply nof_if.
  - apply nof_bind; [|intros _; apply nof_ret].
    apply nof_if; [apply nof_ret | apply nof_flush_output].
  - unfold neofoxx_recv. apply nof_bind; [apply nof_flush_output|]. intros _.
    apply nof_bind; [apply nof_gets|]. intros pos.
    apply nof_bind; [apply nof_gets|]. intros inp.
    apply nof_bind; [apply nof_modify|]. intros _. apply nof_ret.
Qed.

(** The wait of [neofoxx_xferInstruction_PC_slow] ends by itself: the
    forty further turns the model gives it from [maxCounter = 0] are never
    used up, since the 41st failure exits. *)
Lemma wait_proben_bounded {K : pic32_h} (left : nat) :
  forall maxCounter : Z,
    40 <= maxCounter + Z.of_nat left ->
    never_out_of_fuel (wait_proben left maxCounter).
Proof.
  induction left as [|left IH]; intros maxCounter Hb; cbn [wait_proben];
    (apply nof_bind; [apply nof_xferData|]); intros ctl;
    (apply nof_if; [|apply nof_ret]);
    (apply nof_bind; [apply nof_fprintf|]); intros _;
    destruct (Z.gtb_spec (maxCounter + 1) 40).
  - apply nof_bind; [apply nof_fprintf | intros _; apply nof_exit].
  - lia.
  - apply nof_bind; [apply nof_fprintf | intros _; apply nof_exit].
  - apply nof_bind; [apply nof_ret|]. intros _. apply IH. lia.
Qed.

(** * Termination of the bootstrap against a target that never shows ProbEn *)

Lemma writes_then {A B : Type} (m : M A) (a : A) (k : A -> M B) (w : world)
    (P : outcome B -> Prop) :
  writes m a w ->
  bytes_to_read (ses w) <= 0 ->
  (forall w', kept w w' -> P (k a w')) ->
  P (bind m k w).
Proof.
  intros Hm Hr Hk. destruct (Hm Hr) as (w' & E & Kp).
  rewrite (bind_Ret _ _ _ _ _ E). now apply Hk.
Qed.

Lemma writes_sendCommand {K : pic32_h} (command immediate : Z) (w : world) :
  is_mtap_command command || is_etap_command command = true ->
  writes (neofoxx_sendCommand command immediate) tt w.
Proof.
  intros Hc. unfold neofoxx_sendCommand.
  assert (Hv : negb (is_mtap_command command) && negb (is_etap_command command) = false)
    by (destruct (is_mtap_command command), (is_etap_command command);
        cbn in *; congruence).
  rewrite Hv.
  eapply writes_bind; [apply writes_ret|]. intros w1 _.
  eapply writes_bind; [|intros w2 _; apply writes_if_flush].
  destruct (negb (is_mtap_command command)); [now apply writes_send|].
  destruct (negb (is_etap_command command)); [now apply writes_send|].
  apply writes_ret.
Qed.

Lemma writes_xferData (nBits iData readFlag immediate : Z) (w : world) :
  u32 readFlag = 0 ->
  writes (neofoxx_xferData nBits iData readFlag immediate) 0 w.
Proof.
  intros H. unfold neofoxx_xferData. rewrite H. cbn [Z.eqb].
  eapply writes_bind; [now apply writes_send|]. intros w1 _.
  eapply writes_bind; [apply writes_if_flush|]. intros w2 _.
  apply writes_ret.
Qed.

Lemma failed_entries_diags (w : world) :
  failed_entries w = length (filter is_failed_entry (diags w)).
Proof.
  unfold failed_entries, diags. induction (stderr w) as [|d l IH]; [reflexivity|].
  cbn [filter]. destruct d; cbn [noise negb is_failed_entry filter length];
    congruence.
Qed.

Lemma failed_entries_logged (d : diag) (w : world) :
  failed_entries (logged d w)
  = (failed_entries w + if is_failed_entry d then 1 else 0)%nat.
Proof.
  unfold failed_entries, logged. cbn [stderr]. rewrite filter_app, length_app.
  cbn [filter]. now destruct (is_failed_entry d).
Qed.

Lemma kept_attempted (w w' : world) :
  bytes_to_read (ses w) = 0 -> kept w w' -> attempted 0 0 w w'.
Proof.
  intros H0 Kp. pose proof (kept_sent _ _ H0 Kp) as [].
  constructor; auto. rewrite !failed_entries_diags, Nat.add_0_r. congruence.
Qed.

Lemma sent_attempted (n : nat) (w w' : world) : sent n w w' -> attempted n 0 w w'.
Proof.
  intros []. constructor; auto.
  rewrite !failed_entries_diags, Nat.add_0_r. congruence.
Qed.

Lemma attempted_trans (n m k l : nat) (w1 w2 w3 : world) :
  attempted n k w1 w2 -> attempted m l w2 w3 -> attempted (n + m) (k + l) w1 w3.
Proof.
  intros [] []. constructor; try congruence.
  - rewrite att_stream1, att_stream0, skipn_skipn. f_equal. lia.
  - lia.
Qed.

(** The inner loop reads the control register [counterPre] times and
    gives up. *)
Lemma poll_control_never {K : pic32_h} (counterPre : nat) :
  forall w : world,
    bytes_to_read (ses w) = 0 ->
    never_proben (S counterPre) (stream w) = true ->
    exists status w',
      poll_control (S counterPre) w = Ret status w'
      /\ Z.land status CONTROL_PROBEN = 0
      /\ sent (8 * S counterPre) w w'.
Proof.
  induction counterPre as [|c IH]; intros w Hr Hn;
    cbn [never_proben] in Hn;
    apply andb_prop in Hn; destruct Hn as [Hn Hrest];
    apply andb_prop in Hn; destruct Hn as [Hlen Hland];
    apply Nat.leb_le in Hlen; apply Z.eqb_eq in Hland;
    destruct (xferData_reply 32 CONTROL_POLL 1 1 w) as (w1 & E1 & S1 & _);
    try (rewrite Hr; lia); try discriminate;
    rewrite Hr in S1; change (Z.to_nat (0 + 8)) with 8%nat in S1;
    cbn [poll_control]; rewrite (bind_Ret _ _ _ _ _ E1), Hland; cbn [Z.eqb].
  - exists (le_word (firstn 8 (stream w))), w1. auto.
  - destruct (IH w1) as (status & w2 & E2 & L2 & S2).
    + now destruct S1.
    + destruct S1. now rewrite sent_stream0.
    + exists status, w2. split; [exact E2|]. split; [exact L2|].
      replace (8 * S (S c))%nat with (8 + 8 * S c)%nat by lia.
      eapply sent_trans; eassumption.
Qed.

Ltac known_command :=
  unfold is_mtap_command, is_etap_command;
  rewrite Z.eqb_refl, ?orb_true_r, ?orb_true_l; reflexivity.

Ltac prove_writes :=
  repeat first
    [ apply writes_ret
    | apply writes_gets
    | apply writes_mdelay
    | apply writes_flush_output
    | apply writes_setPins
    | apply writes_setMode_TAP_RESET
    | apply writes_sendCommand; known_command
    | apply writes_xferData; reflexivity
    | match goal with
      | |- writes (if ?c then _ else _) _ _ => destruct c
      end
    | eapply writes_bind; [|intros ? ?] ].

(** One step of a proof along a chain of calls that only write: the call
    at the head returns, and the session it leaves is related to the one the
    chain started from. *)
Ltac wthen :=
  match goal with
  | Hr : bytes_to_read (ses ?w) <= 0, Kp : kept ?w0 ?w |- _ =>
      eapply writes_then;
      [ prove_writes
      | exact Hr
      | let w' := fresh "w" in
        let Kp' := fresh "Kp" in
        let Hr' := fresh "Hr" in
        intros w' Kp';
        assert (Hr' : bytes_to_read (ses w') <= 0)
          by (rewrite (kept_bytes_to_read _ _ Kp'); exact Hr);
        apply (kept_trans _ _ _ Kp) in Kp'; clear Hr Kp ]
  end.

Lemma attempted_logged (d : diag) (w : world) :
  bytes_to_read (ses w) = 0 ->
  attempted 0 (if is_failed_entry d then 1 else 0) w (logged d w).
Proof.
  intros H. constructor; auto. apply failed_entries_logged.
Qed.

(** The calls of one entry attempt up to the poll of the control register
    only write. *)
Lemma entry_attempt_setup {K : pic32_h} (w : world) (P : outcome Z -> Prop) :
  bytes_to_read (ses w) <= 0 ->
  (forall w1,
      kept w w1 ->
      P ((status <- poll_control 11 ;;
          (if Z.land status CONTROL_PROBEN =? 0 then entry_failed status else ret tt) ;;
          ret status) w1)) ->
  P (entry_attempt w).
Proof.
  intros Hr Hk. pose proof (kept_refl w) as Kp. unfold entry_attempt.
  do 14 wthen. now apply Hk.
Qed.

Lemma writes_recover (w : world) :
  jtag_or_default (interface (ses w)) = true ->
  writes (neofoxx_setPins (-1) PIN_MCLR PIN_DIR_OUTPUT PIN_VAL_LOW 1 ;;
          neofoxx_flush_output ;;
          mdelay 5 ;;
          neofoxx_setMode SET_MODE_ICSP_SYNC 1 ;;
          mdelay 5 ;;
          neofoxx_setPins (-1) PIN_MCLR PIN_DIR_OUTPUT PIN_VAL_HIGH 1 ;;
          neofoxx_flush_output ;;
          mdelay 5) tt w.
Proof.
  intros J.
  eapply writes_bind; [apply writes_setPins|]. intros w1 K1.
  eapply writes_bind; [apply writes_flush_output|]. intros w2 K2.
  eapply writes_bind; [apply writes_mdelay|]. intros w3 K3.
  eapply writes_bind.
  - apply writes_setMode_ICSP_SYNC.
    now rewrite (kept_interface _ _ K3), (kept_interface _ _ K2),
      (kept_interface _ _ K1).
  - intros w4 K4.
    eapply writes_bind; [apply writes_mdelay|]. intros w5 K5.
    eapply writes_bind; [apply writes_setPins|]. intros w6 K6.
    eapply writes_bind; [apply writes_flush_output|]. intros w7 K7.
    apply writes_mdelay.
Qed.

(** What the recovery branch ends in. *)
Lemma entry_failed_outcome {K : pic32_h} (status : Z) (w : world) :
  bytes_to_read (ses w) = 0 ->
  if no_recovery w
  then exists w', entry_failed status w = Exit w'
                  /\ failed_entries w' = S (failed_entries w)
  else exists w', entry_failed status w = Ret tt w' /\ attempted 0 1 w w'.
Proof.
  intros Hr. unfold entry_failed, no_recovery.
  rewrite bind_fprintf, bind_gets. cbn [logged ses interface].
  pose proof (attempted_logged (ErrFailedSerialExecution (u32 status)) w Hr) as A1.
  cbn [is_failed_entry] in A1.
  destruct (jtag_or_default (interface (ses w))) eqn:J; cbn [andb].
  - rewrite bind_gets. cbn [logged ses family_name_short].
    destruct (is_mx1_or_mx3 (family_name_short (ses w))) eqn:F; cbn [negb].
    + rewrite bind_assoc, bind_fprintf.
      set (w1 := logged MsgRecoverAutomatically
                   (logged (ErrFailedSerialExecution (u32 status)) w)).
      assert (A2 : attempted 0 0 (logged (ErrFailedSerialExecution (u32 status)) w) w1)
        by (apply (attempted_logged MsgRecoverAutomatically); exact Hr).
      destruct (writes_recover w1 J) as (w2 & E2 & K2); [cbn; lia|].
      rewrite (bind_Ret _ _ _ _ _ E2). exists w2. split; [reflexivity|].
      apply (attempted_trans 0 0 1 0 w _ w2 A1).
      apply (attempted_trans 0 0 0 0 _ w1 w2 A2).
      apply kept_attempted; [exact Hr | exact K2].
    + exists (logged ErrOnlyPowerCycle
                (logged (ErrFailedSerialExecution (u32 status)) w)).
      split; [reflexivity|].
      rewrite !failed_entries_logged. cbn [is_failed_entry]. lia.
  - exists (logged (ErrFailedSerialExecution (u32 status)) w).
    split; [reflexivity|]. exact A1.
Qed.

(** One entry attempt against a target that does not show ProbEn in the
    next eleven reads of the control register. *)
Lemma entry_attempt_never {K : pic32_h} (w : world) :
  bytes_to_read (ses w) = 0 ->
  never_proben 11 (stream w) = true ->
  if no_recovery w
  then exists w', entry_attempt w = Exit w'
                  /\ failed_entries w' = S (failed_entries w)
  else exists status w',
      entry_attempt w = Ret status w'
      /\ Z.land status CONTROL_PROBEN = 0
      /\ attempted 88 1 w w'.
Proof.
  intros Hr Hn.
  apply entry_attempt_setup
    with (P := fun o =>
                 if no_recovery w
                 then exists w', o = Exit w'
                                 /\ failed_entries w' = S (failed_entries w)
                 else exists status w',
                     o = Ret status w'
                     /\ Z.land status CONTROL_PROBEN = 0
                     /\ attempted 88 1 w w'); [lia|].
  intros w1 K1.
  destruct (poll_control_never 10 w1) as (status & w2 & E2 & L2 & S2).
  { now rewrite (kept_bytes_to_read _ _ K1). }
  { unfold stream. now rewrite (kept_rx _ _ K1). }
  rewrite (bind_Ret _ _ _ _ _ E2), L2. cbn [Z.eqb].
  assert (A2 : attempted 88 0 w w2).
  { apply (attempted_trans 0 (8 * 11) 0 0 w w1 w2);
      [apply kept_attempted; eassumption | apply sent_attempted; exact S2]. }
  pose proof (entry_failed_outcome status w2 (att_bytes_to_read _ _ _ _ A2)) as F.
  assert (N : no_recovery w2 = no_recovery w)
    by (unfold no_recovery;
        now rewrite (att_interface _ _ _ _ A2), (att_family _ _ _ _ A2)).
  rewrite N in F. destruct (no_recovery w).
  - destruct F as (w3 & E3 & F3). exists w3. unfold bind. rewrite E3.
    split; [reflexivity|]. rewrite F3. f_equal.
    rewrite (att_failed _ _ _ _ A2). lia.
  - destruct F as (w3 & E3 & A3). exists status, w3. unfold bind. rewrite E3.
    split; [reflexivity|]. split; [exact L2|].
    exact (attempted_trans 88 0 0 1 w w2 w3 A2 A3).
Qed.

Lemma never_proben_add {K : pic32_h} (a b : nat) :
  forall s : list Z,
    never_proben (a + b) s = true ->
    never_proben a s = true /\ never_proben b (skipn (8 * a) s) = true.
Proof.
  induction a as [|a IH]; intros s H.
  - now rewrite Nat.mul_0_r.
  - cbn [Nat.add never_proben] in *.
    apply andb_prop in H. destruct H as [H1 H2].
    destruct (IH _ H2) as [Ha Hb]. rewrite H1, Ha. split; [reflexivity|].
    rewrite skipn_skipn in Hb.
    now replace (8 * S a)%nat with (8 * a + 8)%nat by lia.
Qed.

(** The outer loop against a target that never shows ProbEn: on a session
    without recovery the first failed attempt ends the process, on any other
    the loop makes [counter] attempts and leaves [counter] at 0. *)
Lemma entry_loop_never {K : pic32_h} (c : nat) :
  forall w : world,
    bytes_to_read (ses w) = 0 ->
    never_proben (11 * S c) (stream w) = true ->
    if no_recovery w
    then exists w', entry_loop (S c) w = Exit w'
                    /\ failed_entries w' = S (failed_entries w)
    else exists status w',
        entry_loop (S c) w = Ret (status, 0) w'
        /\ attempted (88 * S c) (S c) w w'.
Proof.
  induction c as [|c IH]; intros w Hr Hn.
  - pose proof (entry_attempt_never w Hr Hn) as A.
    destruct (no_recovery w).
    + destruct A as (w' & E & F). exists w'. cbn [entry_loop]. unfold bind.
      now rewrite E.
    + destruct A as (status & w' & E & L & A). exists status, w'.
      cbn [entry_loop]. rewrite (bind_Ret _ _ _ _ _ E), L. auto.
  - replace (11 * S (S c))%nat with (11 + 11 * S c)%nat in Hn by lia.
    apply never_proben_add in Hn. destruct Hn as [Hn1 Hn2].
    pose proof (entry_attempt_never w Hr Hn1) as A.
    destruct (no_recovery w) eqn:N.
    + destruct A as (w' & E & F). exists w'. cbn [entry_loop]. unfold bind.
      now rewrite E.
    + destruct A as (status & w1 & E & L & A).
      specialize (IH w1 (att_bytes_to_read _ _ _ _ A)).
      rewrite (att_stream _ _ _ _ A) in IH. specialize (IH Hn2).
      assert (N1 : no_recovery w1 = false)
        by (unfold no_recovery in *;
            now rewrite (att_interface _ _ _ _ A), (att_family _ _ _ _ A)).
      rewrite N1 in IH. destruct IH as (status' & w2 & E2 & A2).
      exists status', w2.
      split.
      * change (entry_loop (S (S c)) w)
          with (bind entry_attempt
                  (fun status =>
                     if Z.land status CONTROL_PROBEN =? 0
                     then entry_loop (S c)
                     else ret (status, Z.of_nat (S (S c)))) w).
        now rewrite (bind_Ret _ _ _ _ _ E), L.
      * replace (88 * S (S c))%nat with (88 + 88 * S c)%nat by lia.
        change (S (S c)) with (1 + S c)%nat.
        eapply attempted_trans; eassumption.
Qed.

(** The status read that opens the bootstrap takes one word. *)
Lemma read_mchp_status_reply {K : pic32_h} (w : world) :
  bytes_to_read (ses w) = 0 ->
  (8 <= length (stream w))%nat ->
  exists w',
    read_mchp_status w = Ret (le_word (firstn 8 (stream w))) w'
    /\ attempted 8 0 w w'.
Proof.
  intros Hr Hs.
  assert (Hr' : bytes_to_read (ses w) <= 0) by lia.
  pose proof (kept_refl w) as Kp. unfold read_mchp_status.
  match goal with |- exists w', ?t = _ /\ _ => pattern t end.
  do 3 wthen.
  match goal with H : kept w ?x |- _ => rename H into Kw; rename x into wq end.
  destruct (xferData_reply MTAP_COMMAND_DR_NBITS MCHP_STATUS 1 1 wq)
    as (w3 & E3 & S3 & _).
  - discriminate.
  - rewrite (kept_bytes_to_read _ _ Kw). lia.
  - rewrite (kept_bytes_to_read _ _ Kw), Hr. unfold stream.
    rewrite (kept_rx _ _ Kw). fold (stream w). lia.
  - rewrite (kept_bytes_to_read _ _ Kw), Hr in S3.
    exists w3. split.
    + rewrite E3. unfold stream. now rewrite (kept_rx _ _ Kw).
    + apply (attempted_trans 0 8 0 0 w wq w3);
        [now apply kept_attempted | now apply sent_attempted].
Qed.

(** The bootstrap against a target that answers the status read and then
    never shows ProbEn in the control register. *)
Lemma serial_execution_never {K : pic32_h} (w : world) :
  serial_execution_mode (ses w) = 0 ->
  bytes_to_read (ses w) = 0 ->
  (8 <= length (stream w))%nat ->
  never_proben 220 (skipn 8 (stream w)) = true ->
  if (Z.land (le_word (firstn 8 (stream w))) MCHP_STATUS_CPS =? 0) || no_recovery w
  then exists w',
      serial_execution w = Exit w'
      /\ (failed_entries w' <= failed_entries w + 1)%nat
  else exists w',
      serial_execution w = Ret tt w'
      /\ failed_entries w' = (failed_entries w + 20)%nat
      /\ last (stderr w') MsgWorkaround = ErrCouldntEnter
      /\ serial_execution_mode (ses w') = 1.
Proof.
  intros Hsem Hr Hs Hn. rewrite serial_execution_unfold by assumption.
  destruct (read_mchp_status_reply (flagged w) Hr Hs) as (w1 & E1 & A1).
  rewrite (bind_Ret _ _ _ _ _ E1). unfold enter_serial_execution.
  change (stream (flagged w)) with (stream w) in *.
  set (status := le_word (firstn 8 (stream w))).
  assert (F1 : failed_entries w1 = failed_entries w)
    by (rewrite (att_failed _ _ _ _ A1);
        change (failed_entries (flagged w)) with (failed_entries w); lia).
  assert (N1 : no_recovery w1 = no_recovery w)
    by (unfold no_recovery;
        now rewrite (att_interface _ _ _ _ A1), (att_family _ _ _ _ A1)).
  destruct (Z.land status MCHP_STATUS_CPS =? 0); cbn [orb].
  - exists (logged (ErrCpsSet (u32 status)) w1). split; [reflexivity|].
    rewrite failed_entries_logged, F1. cbn. lia.
  - rewrite bind_ret_l.
    pose proof (entry_loop_never 19 w1 (att_bytes_to_read _ _ _ _ A1)) as L.
    rewrite (att_stream _ _ _ _ A1), N1 in L. specialize (L Hn).
    destruct (no_recovery w).
    + destruct L as (w2 & E2 & F2). exists w2. unfold bind. rewrite E2.
      split; [reflexivity|]. rewrite F2, F1. lia.
    + destruct L as (st & w2 & E2 & A2). exists (logged ErrCouldntEnter w2).
      rewrite (bind_Ret _ _ _ _ _ E2). split; [reflexivity|]. split; [|split].
      * rewrite failed_entries_logged, (att_failed _ _ _ _ A2), F1. cbn. lia.
      * apply last_last.
      * cbn [logged ses].
        now rewrite (att_serial_execution_mode _ _ _ _ A2),
          (att_serial_execution_mode _ _ _ _ A1).
Qed.

(** C9: against a target that answers the status read and then never shows
    ProbEn in the control register, [serial_execution] ends: either the
    process exits, with at most one entry attempt reported as failed, or the
    call returns after exactly twenty attempts, the last line it prints
    being that it could not enter. *)
Theorem serial_execution_gives_up {K : pic32_h} (w : world) :
  serial_execution_mode (ses w) = 0 ->
  bytes_to_read (ses w) = 0 ->
  (8 <= length (stream w))%nat ->
  never_proben 220 (skipn 8 (stream w)) = true ->
  exists w',
    (serial_execution w = Exit w'
     /\ (failed_entries w' <= failed_entries w + 1)%nat)
    \/ (serial_execution w = Ret tt w'
        /\ failed_entries w' = (failed_entries w + 20)%nat
        /\ last (stderr w') MsgWorkaround = ErrCouldntEnter).
Proof.
  intros Hsem Hr Hs Hn.
  pose proof (serial_execution_never w Hsem Hr Hs Hn) as H.
  destruct (_ || _).
  - destruct H as (w' & E & F). exists w'. left. auto.
  - destruct H as (w' & E & F & L & _). exists w'. right. auto.
Qed.

Lemma serial_execution_gives_up_witness :
  exists w',
    (@serial_execution pic32_values w_never_proben = Exit w'
     /\ (failed_entries w' <= failed_entries w_never_proben + 1)%nat)
    \/ (@serial_execution pic32_values w_never_proben = Ret tt w'
        /\ failed_entries w' = (failed_entries w_never_proben + 20)%nat
        /\ last (stderr w') MsgWorkaround = ErrCouldntEnter).
Proof.
  apply (@serial_execution_gives_up pic32_values w_never_proben).
  - reflexivity.
  - reflexivity.
  - vm_compute. repeat constructor.
  - vm_compute. reflexivity.
Defined.

(** * The serial-execution flag *)

(** C8 (what the code does): on a session that has a recovery path or
    drives ICSP, with a target that reports the CPS bit and then never shows
    ProbEn, the call reports twenty failed attempts and that it could not
    enter, and then returns with the flag set, so that the next call is the
    no-op of a session that has entered. *)
Theorem serial_execution_flag_after_failure {K : pic32_h} (w : world) :
  serial_execution_mode (ses w) = 0 ->
  bytes_to_read (ses w) = 0 ->
  (8 <= length (stream w))%nat ->
  Z.land (le_word (firstn 8 (stream w))) MCHP_STATUS_CPS <> 0 ->
  no_recovery w = false ->
  never_proben 220 (skipn 8 (stream w)) = true ->
  exists w',
    serial_execution w = Ret tt w'
    /\ failed_entries w' = (failed_entries w + 20)%nat
    /\ last (stderr w') MsgWorkaround = ErrCouldntEnter
    /\ serial_execution_mode (ses w') = 1
    /\ serial_execution w' = Ret tt w'.
Proof.
  intros Hsem Hr Hs Hc Hrec Hn.
  pose proof (serial_execution_never w Hsem Hr Hs Hn) as H.
  rewrite Hrec in H.
  destruct (Z.eqb_spec (Z.land (le_word (firstn 8 (stream w))) MCHP_STATUS_CPS) 0);
    [congruence|].
  destruct H as (w' & E & F & L & M). exists w'.
  repeat (split; [assumption|]).
  apply serial_execution_sticky. rewrite M. discriminate.
Qed.

Lemma serial_execution_flag_after_failure_witness :
  exists w',
    @serial_execution pic32_values w_never_proben = Ret tt w'
    /\ failed_entries w' = (failed_entries w_never_proben + 20)%nat
    /\ last (stderr w') MsgWorkaround = ErrCouldntEnter
    /\ serial_execution_mode (ses w') = 1
    /\ @serial_execution pic32_values w' = Ret tt w'.
Proof.
  apply (@serial_execution_flag_after_failure pic32_values w_never_proben).
  - reflexivity.
  - reflexivity.
  - vm_compute. repeat constructor.
  - vm_compute. discriminate.
  - reflexivity.
  - vm_compute. reflexivity.
Defined.

(** * What the further calls put on the wire *)

Lemma wire_trans (n m : nat) (ps qs : list (list Z)) (ds es : list diag)
    (w1 w2 w3 : world) :
  wire n ps ds w1 w2 -> wire m qs es w2 w3 ->
  wire (n + m) (ps ++ qs) (ds ++ es) w1 w3.
Proof.
  intros [] []. constructor; try congruence.
  - rewrite wire_stream1, wire_stream0, skipn_skipn. f_equal. lia.
  - rewrite wire_tx1, wire_tx0. now rewrite app_assoc.
  - rewrite wire_diags1, wire_diags0. now rewrite app_assoc.
Qed.

Lemma wire_refl (w : world) : idle w -> wire 0 [] [] w w.
Proof. intros H. constructor; auto; now rewrite app_nil_r. Qed.

(** A flush of a queued payload with no reply pending writes one packet. *)
Lemma flush_wire_write (w : world) (payload : list Z) :
  output (ses w) = PACKET_BYTE :: 0 :: 0 :: payload ->
  payload <> [] ->
  bytes_to_read (ses w) = 0 ->
  exists w', neofoxx_flush_output w = Ret tt w'
             /\ wire 0 [packet_of payload] [] w w'.
Proof.
  intros Ho Hp Hr.
  destruct (flush_output_write_only w) as (w' & E & Kp & O); [lia|].
  exists w'. split; [exact E|].
  pose proof (flush_output_tx w) as T. rewrite E in T. cbn [world_of] in T.
  destruct Kp. constructor; auto; try (split; congruence).
  - unfold stream. now rewrite kept_rx0.
  - rewrite T by congruence. unfold bytes_to_write. rewrite Ho.
    destruct payload as [|b payload]; [congruence|].
    destruct (Z.gtb_spec 4 (Z.of_nat (length (PACKET_BYTE :: 0 :: 0 :: b :: payload))));
      [cbn [length] in *; lia | reflexivity].
  - now rewrite app_nil_r.
Qed.

(** A flush of a queued payload with a reply pending writes one packet and
    takes the reply, which it leaves at the start of the receive buffer. *)
Lemma flush_wire_read (w : world) (payload : list Z) :
  output (ses w) = PACKET_BYTE :: 0 :: 0 :: payload ->
  payload <> [] ->
  0 < bytes_to_read (ses w) <= Z.of_nat (length (stream w)) ->
  exists w', neofoxx_flush_output w = Ret tt w'
             /\ wire (Z.to_nat (bytes_to_read (ses w))) [packet_of payload] [] w w'
             /\ current_pos_input (ses w') = 0
             /\ firstn (Z.to_nat (bytes_to_read (ses w))) (input (ses w'))
                = firstn (Z.to_nat (bytes_to_read (ses w))) (stream w).
Proof.
  intros Ho Hp [Hr Hs].
  destruct (flush_output_reply w) as (w' & E & S & O & C & I);
    [congruence | lia | lia |].
  exists w'. split; [exact E|].
  pose proof (flush_output_tx w) as T. rewrite E in T. cbn [world_of] in T.
  split; [|auto].
  destruct S. constructor; auto; try (split; congruence).
  - rewrite T by congruence. unfold bytes_to_write. rewrite Ho.
    destruct payload as [|b payload]; [congruence|].
    destruct (Z.gtb_spec 4 (Z.of_nat (length (PACKET_BYTE :: 0 :: 0 :: b :: payload))));
      [cbn [length] in *; lia | reflexivity].
  - now rewrite app_nil_r.
Qed.

Lemma wire_from_queued (n : nat) (ps : list (list Z)) (ds : list diag)
    (data : list Z) (w w' : world) :
  wire n ps ds (queued data w) w' -> wire n ps ds w w'.
Proof. intros []. now constructor. Qed.

Lemma wire_from_expecting (n : nat) (ps : list (list Z)) (ds : list diag)
    (k : Z) (w w' : world) :
  wire n ps ds (expecting k w) w' -> wire n ps ds w w'.
Proof. intros []. now constructor. Qed.

Lemma queued_idle_output (data : list Z) (w : world) :
  idle w -> output (ses (queued data w)) = PACKET_BYTE :: 0 :: 0 :: data.
Proof. intros [Ho _]. unfold queued. cbn. now rewrite Ho. Qed.

Lemma wires_ret {A : Type} (a : A) (w : world) : wires (ret a) a 0 [] [] w.
Proof. intros H. exists w. split; [reflexivity | now apply wire_refl]. Qed.

Lemma wires_bind {A B : Type} (m : M A) (k : A -> M B) (a : A) (b : B)
    (n n' : nat) (ps ps' : list (list Z)) (ds ds' : list diag) (w : world) :
  wires m a n ps ds w ->
  (forall w', wire n ps ds w w' -> wires (k a) b n' ps' ds' w') ->
  wires (bind m k) b (n + n') (ps ++ ps') (ds ++ ds') w.
Proof.
  intros Hm Hk Hi. destruct (Hm Hi) as (w1 & E1 & W1).
  destruct (Hk w1 W1 (wire_idle _ _ _ _ _ W1)) as (w2 & E2 & W2).
  exists w2. split; [now rewrite (bind_Ret _ _ _ _ _ E1)|].
  eapply wire_trans; eassumption.
Qed.



Lemma send_data_nonempty (pn p tn t en e rf : Z) : send_data pn p tn t en e rf <> [].
Proof. discriminate. Qed.

(** One SEND without read flag, flushed. *)
Lemma wires_send_flush (pn p tn t en e rf immediate : Z) (w : world) :
  u32 rf = 0 -> immediate <> 0 ->
  wires (neofoxx_send pn p tn t en e rf ;;
         if immediate =? 0 then ret tt else neofoxx_flush_output)
        tt 0 [packet_of (send_data pn p tn t en e rf)] [] w.
Proof.
  intros Hf Hi Hw. rewrite (bind_Ret _ _ _ _ _ (send_queued pn p tn t en e rf w)).
  rewrite Hf. cbn [Z.eqb].
  destruct (Z.eqb_spec immediate 0); [congruence|].
  destruct (flush_wire_write (queued (send_data pn p tn t en e rf) w)
              (send_data pn p tn t en e rf)) as (w' & E & W).
  - now apply queued_idle_output.
  - apply send_data_nonempty.
  - apply Hw.
  - exists w'. split; [exact E|]. eapply wire_from_queued. exact W.
Qed.

Lemma wires_setMode_TAP_RESET (immediate : Z) (w : world) :
  immediate <> 0 ->
  wires (neofoxx_setMode SET_MODE_TAP_RESET immediate) tt 0 [tap_reset_packet] [] w.
Proof.
  intros Hi. unfold neofoxx_setMode, tap_reset_packet. intros Hw.
  rewrite bind_gets. cbn [SET_MODE_TAP_RESET Z.eqb].
  now apply wires_send_flush.
Qed.

Lemma wires_sendCommand_etap {K : pic32_h} (command immediate : Z) (w : world) :
  is_mtap_command command = false ->
  is_etap_command command = true ->
  immediate <> 0 ->
  wires (neofoxx_sendCommand command immediate) tt 0
        [command_packet MTAP_COMMAND_NBITS command] [] w.
Proof.
  intros Hm He Hi Hw. unfold neofoxx_sendCommand. rewrite Hm, He.
  cbn [negb andb]. rewrite bind_ret_l.
  now apply wires_send_flush.
Qed.

Lemma wires_sendCommand_mtap {K : pic32_h} (command immediate : Z) (w : world) :
  is_mtap_command command = true ->
  is_etap_command command = false ->
  immediate <> 0 ->
  wires (neofoxx_sendCommand command immediate) tt 0
        [command_packet ETAP_COMMAND_NBITS command] [] w.
Proof.
  intros Hm He Hi Hw. unfold neofoxx_sendCommand. rewrite Hm, He.
  cbn [negb andb]. rewrite bind_ret_l.
  now apply wires_send_flush.
Qed.

Lemma wires_xferData_write (nBits iData readFlag immediate : Z) (w : world) :
  u32 readFlag = 0 -> immediate <> 0 ->
  wires (neofoxx_xferData nBits iData readFlag immediate) 0 0
        [data_packet nBits iData readFlag] [] w.
Proof.
  intros Hf Hi Hw. unfold neofoxx_xferData, data_packet.
  rewrite (bind_Ret _ _ _ _ _ (send_queued _ _ _ _ _ _ _ w)), Hf. cbn [Z.eqb].
  destruct (Z.eqb_spec immediate 0); [congruence|].
  set (d := send_data _ _ _ _ _ _ _).
  destruct (flush_wire_write (queued d w) d) as (w' & E & W);
    [now apply queued_idle_output | apply send_data_nonempty | apply Hw |].
  exists w'. rewrite (bind_Ret _ _ _ _ _ E). split; [reflexivity|].
  eapply wire_from_queued. exact W.
Qed.

(** One SEND with the read flag, followed by [neofoxx_recv]. *)
Lemma wires_send_recv (pn p tn t en e rf : Z) (w : world) :
  u32 rf <> 0 ->
  (8 <= length (stream w))%nat ->
  wires (neofoxx_send pn p tn t en e rf ;; neofoxx_recv)
        (le_word (firstn 8 (stream w))) 8
        [packet_of (send_data pn p tn t en e rf)] [] w.
Proof.
  intros Hf Hs Hw. rewrite (bind_Ret _ _ _ _ _ (send_queued _ _ _ _ _ _ _ w)).
  destruct (Z.eqb_spec (u32 rf) 0); [congruence|].
  set (d := send_data pn p tn t en e rf).
  set (w1 := expecting 8 (queued d w)).
  assert (R1 : bytes_to_read (ses w1) = 8)
    by (destruct Hw as [_ Hr]; cbn; rewrite Hr; reflexivity).
  destruct (flush_wire_read w1 d) as (w2 & E2 & W2 & C2 & I2).
  - subst w1. cbn [expecting ses set_bytes_to_read output].
    now apply queued_idle_output.
  - apply send_data_nonempty.
  - rewrite R1. change (stream w1) with (stream w). lia.
  - rewrite R1 in *. change (Z.to_nat 8) with 8%nat in *.
    change (stream w1) with (stream w) in I2.
    unfold neofoxx_recv. rewrite (bind_Ret _ _ _ _ _ E2).
    rewrite bind_gets, bind_gets, C2. cbn [Z.to_nat skipn]. rewrite I2.
    eexists. split; [reflexivity|].
    apply wire_from_queued with (data := d).
    apply wire_from_expecting with (k := 8). fold w1.
    destruct W2 as [? ? ? ? ? [Ho Hr] ? ? ?].
    constructor; auto. split; auto.
Qed.

Lemma wires_xferData_read (nBits iData readFlag immediate : Z) (w : world) :
  u32 readFlag <> 0 ->
  (8 <= length (stream w))%nat ->
  wires (neofoxx_xferData nBits iData readFlag immediate)
        (le_word (firstn 8 (stream w))) 8
        [data_packet nBits iData readFlag] [] w.
Proof.
  intros Hf Hs Hw. unfold neofoxx_xferData, data_packet.
  pose proof (wires_send_recv TMS_HEADER_XFERDATA_NBITS TMS_HEADER_XFERDATA_VAL
                nBits (u32 iData) TMS_FOOTER_XFERDATA_NBITS
                TMS_FOOTER_XFERDATA_VAL readFlag w Hf Hs Hw) as (w' & E & W).
  exists w'. split; [|exact W].
  unfold bind in *. destruct (neofoxx_send _ _ _ _ _ _ _ w); try discriminate.
  destruct (Z.eqb_spec (u32 readFlag) 0); [congruence | exact E].
Qed.

Lemma wires_fprintf (d : diag) (w : world) :
  noise d = false -> wires (fprintf_stderr d) tt 0 [] [d] w.
Proof.
  intros Hn [Ho Hr]. exists (logged d w). split; [reflexivity|].
  constructor; auto; try (split; assumption); try now rewrite app_nil_r.
  unfold diags, logged. cbn [stderr]. rewrite filter_app. cbn [filter].
  now rewrite Hn.
Qed.

(** ** Replies of 64-bit words *)

Lemma le_word_le_bytes (n : nat) (v : Z) :
  le_word (le_bytes n v) = v mod 256 ^ Z.of_nat n.
Proof.
  revert v. induction n as [|n IH]; intros v.
  - cbn. now rewrite Z.mod_1_r.
  - cbn [le_bytes le_word]. rewrite IH, Nat2Z.inj_succ, Z.pow_succ_r by lia.
    rewrite Z.mod_mod by lia.
    rewrite (Z.rem_mul_r v 256 (256 ^ Z.of_nat n)) by lia. reflexivity.
Qed.

Lemma words_bytes_cons (r : Z) (ws : list Z) :
  words_bytes (r :: ws) = le_bytes 8 r ++ words_bytes ws.
Proof. reflexivity. Qed.

Lemma words_bytes_app (ws ws' : list Z) :
  words_bytes (ws ++ ws') = words_bytes ws ++ words_bytes ws'.
Proof. apply flat_map_app. Qed.

Lemma words_bytes_length (ws : list Z) :
  length (words_bytes ws) = (8 * length ws)%nat.
Proof.
  induction ws as [|r ws IH]; [reflexivity|].
  rewrite words_bytes_cons, length_app, le_bytes_length, IH. cbn [length]. lia.
Qed.

Lemma skipn_words_bytes (ws : list Z) (rest : list Z) :
  skipn (8 * length ws) (words_bytes ws ++ rest) = rest.
Proof.
  rewrite <- words_bytes_length, skipn_app, skipn_all, Nat.sub_diag. reflexivity.
Qed.

Lemma first_word (r : Z) (l : list Z) :
  le_word (firstn 8 (le_bytes 8 r ++ l)) = r mod 2 ^ 64.
Proof.
  rewrite firstn_app, le_bytes_length, Nat.sub_diag, firstn_O, app_nil_r.
  rewrite firstn_all2 by (rewrite le_bytes_length; lia).
  apply le_word_le_bytes.
Qed.

Lemma u32_mod64 (r : Z) : u32 (r mod 2 ^ 64) = u32 r.
Proof.
  unfold u32. apply Z.mod_mod_divide. exists (2 ^ 32). reflexivity.
Qed.

(** ** Composition of exchanges *)

Lemma wires_talks {A : Type} (m : M A) (a : A) (ps : list (list Z))
    (ds : list diag) (w : world) :
  wires m a 0 ps ds w -> talks m a [] ps ds w.
Proof. intros H Hi rest _. exact (H Hi). Qed.

Lemma talks_bind {A B : Type} (m : M A) (k : A -> M B) (a : A) (b : B)
    (ws ws' WS : list Z) (ps ps' PS : list (list Z)) (ds ds' DS : list diag)
    (w : world) :
  talks m a ws ps ds w ->
  (forall w', wire (8 * length ws) ps ds w w' -> talks (k a) b ws' ps' ds' w') ->
  WS = ws ++ ws' -> PS = ps ++ ps' -> DS = ds ++ ds' ->
  talks (bind m k) b WS PS DS w.
Proof.
  intros Hm Hk -> -> -> Hi rest Hs.
  rewrite words_bytes_app, <- app_assoc in Hs.
  destruct (Hm Hi _ Hs) as (w1 & E1 & W1).
  assert (S1 : stream w1 = words_bytes ws' ++ rest)
    by (rewrite (wire_stream _ _ _ _ _ W1), Hs; apply skipn_words_bytes).
  destruct (Hk w1 W1 (wire_idle _ _ _ _ _ W1) _ S1) as (w2 & E2 & W2).
  exists w2. split; [now rewrite (bind_Ret _ _ _ _ _ E1)|].
  replace (8 * length (ws ++ ws'))%nat with (8 * length ws + 8 * length ws')%nat
    by (rewrite length_app; lia).
  eapply wire_trans; eassumption.
Qed.

Lemma talks_ret {A : Type} (a : A) (w : world) : talks (ret a) a [] [] [] w.
Proof. apply wires_talks, wires_ret. Qed.

Lemma talks_gets {A B : Type} (f : neofoxx_adapter_t -> A) (k : A -> M B)
    (b : B) (ws : list Z) (ps : list (list Z)) (ds : list diag) (w : world) :
  talks (k (f (ses w))) b ws ps ds w -> talks (bind (gets f) k) b ws ps ds w.
Proof. intros H Hi rest Hs. rewrite bind_gets. exact (H Hi rest Hs). Qed.

Lemma quits_gets {A B : Type} (f : neofoxx_adapter_t -> A) (k : A -> M B)
    (ws : list Z) (ps : list (list Z)) (ds : list diag) (w : world) :
  quits (k (f (ses w))) ws ps ds w -> quits (bind (gets f) k) ws ps ds w.
Proof. intros H Hi rest Hs. rewrite bind_gets. exact (H Hi rest Hs). Qed.

Lemma quits_bind_l {A B : Type} (m : M A) (k : A -> M B) (ws : list Z)
    (ps : list (list Z)) (ds : list diag) (w : world) :
  quits m ws ps ds w -> quits (bind m k) ws ps ds w.
Proof.
  intros Hm Hi rest Hs. destruct (Hm Hi rest Hs) as (w' & E & H).
  exists w'. split; [|exact H]. unfold bind. now rewrite E.
Qed.

Lemma quits_bind {A B : Type} (m : M A) (k : A -> M B) (a : A)
    (ws ws' WS : list Z) (ps ps' PS : list (list Z)) (ds ds' DS : list diag)
    (w : world) :
  talks m a ws ps ds w ->
  (forall w', wire (8 * length ws) ps ds w w' -> quits (k a) ws' ps' ds' w') ->
  WS = ws ++ ws' -> PS = ps ++ ps' -> DS = ds ++ ds' ->
  quits (bind m k) WS PS DS w.
Proof.
  intros Hm Hk -> -> -> Hi rest Hs.
  rewrite words_bytes_app, <- app_assoc in Hs.
  destruct (Hm Hi _ Hs) as (w1 & E1 & W1).
  assert (S1 : stream w1 = words_bytes ws' ++ rest)
    by (rewrite (wire_stream _ _ _ _ _ W1), Hs; apply skipn_words_bytes).
  destruct (Hk w1 W1 (wire_idle _ _ _ _ _ W1) _ S1) as (w2 & E2 & T2 & D2 & R2).
  exists w2. split; [now rewrite (bind_Ret _ _ _ _ _ E1)|].
  rewrite T2, D2, (wire_tx _ _ _ _ _ W1), (wire_diags _ _ _ _ _ W1).
  now rewrite !app_assoc.
Qed.

Lemma quits_fprintf_exit {A : Type} (d : diag) (w : world) :
  noise d = false ->
  quits (fprintf_stderr d ;; @exit_ A) [] [] [d] w.
Proof.
  intros Hn Hi rest Hs. exists (logged d w). split; [reflexivity|].
  split; [now rewrite app_nil_r|]. split; [|exact Hs].
  unfold diags, logged. cbn [stderr]. rewrite filter_app. cbn [filter].
  now rewrite Hn.
Qed.

Lemma talks_fprintf (d : diag) (w : world) :
  noise d = false -> talks (fprintf_stderr d) tt [] [] [d] w.
Proof. intros H. now apply wires_talks, wires_fprintf. Qed.

Lemma talks_mdelay (ms : Z) (w : world) : talks (mdelay ms) tt [] [] [] w.
Proof. apply talks_ret. Qed.

Lemma talks_flush_idle (w : world) : talks neofoxx_flush_output tt [] [] [] w.
Proof.
  intros Hi rest Hs. exists w. split; [|now apply wire_refl].
  apply flush_output_empty. apply Hi.
Qed.

Lemma talks_xferData_read (nBits iData readFlag immediate r : Z) (w : world) :
  u32 readFlag <> 0 ->
  talks (neofoxx_xferData nBits iData readFlag immediate) (r mod 2 ^ 64) [r]
        [data_packet nBits iData readFlag] [] w.
Proof.
  intros Hf Hi rest Hs. cbn [words_bytes flat_map] in Hs.
  rewrite app_nil_r in Hs.
  destruct (wires_xferData_read nBits iData readFlag immediate w Hf) as (w' & E & W).
  - rewrite Hs, length_app, le_bytes_length. lia.
  - exact Hi.
  - exists w'. rewrite Hs, first_word in E. split; [exact E | exact W].
Qed.

Lemma pic32_values_disjoint : @tables_disjoint pic32_values.
Proof.
  intros c. unfold is_mtap_command, is_etap_command.
  cbn [MTAP_COMMAND TAP_SW_MTAP TAP_SW_ETAP MTAP_IDCODE ETAP_ADDRESS ETAP_DATA
       ETAP_CONTROL ETAP_EJTAGBOOT ETAP_FASTDATA ETAP_NORMALBOOT pic32_values].
  destruct (Z.eqb_spec 7 c), (Z.eqb_spec 4 c), (Z.eqb_spec 5 c),
    (Z.eqb_spec 1 c); subst; try discriminate; try reflexivity;
    cbn [orb andb];
    destruct (Z.eqb_spec 8 c), (Z.eqb_spec 9 c), (Z.eqb_spec 10 c),
      (Z.eqb_spec 12 c), (Z.eqb_spec 14 c), (Z.eqb_spec 13 c);
    reflexivity.
Qed.

Lemma talks_setMode_reset (w : world) :
  talks (neofoxx_setMode SET_MODE_TAP_RESET 1) tt [] [tap_reset_packet] [] w.
Proof. apply wires_talks, wires_setMode_TAP_RESET. discriminate. Qed.


Lemma talks_xferData_write (nBits iData : Z) (w : world) :
  talks (neofoxx_xferData nBits iData 0 1) 0 [] [data_packet nBits iData 0] [] w.
Proof. apply wires_talks, wires_xferData_write; [reflexivity | discriminate]. Qed.

Section Commands.
Context {K : pic32_h}.
Hypothesis disjoint : tables_disjoint.

Lemma talks_command_etap (command : Z) (w : world) :
  is_etap_command command = true ->
  talks (neofoxx_sendCommand command 1) tt []
        [command_packet MTAP_COMMAND_NBITS command] [] w.
Proof.
  intros He. apply wires_talks, wires_sendCommand_etap;
    [| exact He | discriminate].
  specialize (disjoint command). rewrite He, andb_true_r in disjoint.
  exact disjoint.
Qed.


End Commands.

(** One FASTDATA transfer: the word goes out shifted above the PrACC bit,
    one reply word is taken, and it is handed back when [readFlag] is set. *)
Lemma talks_xferFastData (word readFlag r : Z) (w : world) :
  talks (neofoxx_xferFastData_PC_slow word readFlag)
        (if readFlag =? 0 then 0 else r mod 2 ^ 64) [r]
        [fastdata_packet word]
        (if Z.land (r mod 2 ^ 64) 0x01 =? 0 then [WarnPrACCNotSet] else []) w.
Proof.
  intros Hi rest Hs. cbn [words_bytes flat_map] in Hs. rewrite app_nil_r in Hs.
  unfold neofoxx_xferFastData_PC_slow, fastdata_packet.
  destruct (wires_send_recv TMS_HEADER_XFERDATAFAST_NBITS
              TMS_HEADER_XFERDATAFAST_VAL 33 (Z.shiftl (u32 word) 1)
              TMS_FOOTER_XFERDATAFAST_NBITS TMS_FOOTER_XFERDATAFAST_VAL 1 w)
    as (w1 & E1 & W1);
    [discriminate | rewrite Hs, length_app, le_bytes_length; lia | exact Hi |].
  rewrite Hs, first_word in E1.
  apply bind_Ret_inv in E1. destruct E1 as (u & w0 & Es & Er).
  rewrite (bind_Ret _ _ _ _ _ Es), (bind_Ret _ _ _ _ _ Er).
  destruct (Z.land (r mod 2 ^ 64) 1 =? 0).
  - rewrite bind_fprintf.
    exists (logged WarnPrACCNotSet w1). split; [now destruct (readFlag =? 0)|].
    destruct (wires_fprintf WarnPrACCNotSet w1 eq_refl (wire_idle _ _ _ _ _ W1))
      as (w2 & E2 & W2).
    inversion E2; subst w2.
    exact (wire_trans 8 0 _ [] [] _ w w1 _ W1 W2).
  - rewrite bind_ret_l. exists w1. split; [now destruct (readFlag =? 0)|].
    exact W1.
Qed.

(** One step along a chain of calls: the call at the head is settled by
    [lem], and the chain goes on in the session it leaves. *)
Ltac tstep lem :=
  eapply talks_bind; [ lem | | reflexivity | reflexivity | reflexivity ];
  [ intros ?w ?W; cbn beta ].

Ltac qstep lem :=
  eapply quits_bind; [ lem | | reflexivity | reflexivity | reflexivity ];
  [ intros ?w ?W; cbn beta ].




Lemma is_etap_ETAP_CONTROL {K : pic32_h} : is_etap_command ETAP_CONTROL = true.
Proof. known_command. Qed.

Lemma is_etap_ETAP_DATA {K : pic32_h} : is_etap_command ETAP_DATA = true.
Proof. known_command. Qed.

Lemma is_etap_ETAP_FASTDATA {K : pic32_h} : is_etap_command ETAP_FASTDATA = true.
Proof. known_command. Qed.

(** * The further calls *)



(** X2: neofoxx_get_idcode: from an idle session whose device answers the read
    with the 64-bit word [r], the call returns the low 32 bits of [r],
    after a TAP reset and one 32-bit transfer of zeroes with the read flag,
    each in a packet of its own. *)
Theorem get_idcode_reply (r : Z) (rest : list Z) (w : world) :
  idle w -> stream w = le_bytes 8 r ++ rest ->
  exists w', neofoxx_get_idcode w = Ret (u32 r) w'
             /\ wire 8 [tap_reset_packet; data_packet 32 0 1] [] w w'
             /\ stream w' = rest.
Proof.
  intros Hi Hs.
  assert (T : talks neofoxx_get_idcode (u32 r) [r]
                [tap_reset_packet; data_packet 32 0 1] [] w).
  { unfold neofoxx_get_idcode.
    tstep ltac:(apply talks_setMode_reset).
    tstep ltac:(apply talks_xferData_read; discriminate).
    rewrite u32_mod64. apply talks_ret. }
  destruct (T Hi rest) as (w' & E & W);
    [cbn [words_bytes flat_map]; now rewrite app_nil_r|].
  exists w'. split; [exact E|]. split; [exact W|].
  rewrite (wire_stream _ _ _ _ _ W), Hs.
  apply (skipn_words_bytes [r] rest).
Qed.

Lemma get_idcode_reply_witness :
  exists w', neofoxx_get_idcode
               (target (idle_session FAMILY_MZ INTERFACE_JTAG 0)
                       (reply_words [0xffffffff14a1e053]))
             = Ret 0x14a1e053 w'
             /\ wire 8 [tap_reset_packet; data_packet 32 0 1] []
                     (target (idle_session FAMILY_MZ INTERFACE_JTAG 0)
                             (reply_words [0xffffffff14a1e053])) w'
             /\ stream w' = [].
Proof.
  apply (get_idcode_reply 0xffffffff14a1e053 []).
  - split; reflexivity.
  - reflexivity.
Defined.

Lemma queued_queued (d1 d2 : list Z) (w : world) :
  queued d2 (queued d1 w) = queued (d1 ++ d2) w.
Proof.
  unfold queued. cbn [ses port stderr set_output output].
  destruct (output (ses w)) as [|b o]; cbn [app]; rewrite ?app_assoc;
    reflexivity.
Qed.

(** X3: add_to_packet: queueing [d1] and then [d2] leaves every session as
    queueing [d1 ++ d2] at once does; the packet is opened once, by the
    first call on an empty transmit buffer. *)
Theorem add_to_packet_app (d1 d2 : list Z) (w : world) :
  (add_to_packet d1 ;; add_to_packet d2) w = add_to_packet (d1 ++ d2) w.
Proof.
  rewrite (bind_Ret _ _ _ _ _ (add_to_packet_queued d1 w)).
  now rewrite !add_to_packet_queued, queued_queued.
Qed.

Lemma wires_flush_queued (data : list Z) (w : world) :
  data <> [] -> idle w ->
  exists w', neofoxx_flush_output (queued data w) = Ret tt w'
             /\ wire 0 [packet_of data] [] w w'.
Proof.
  intros Hd Hw.
  destruct (flush_wire_write (queued data w) data) as (w' & E & W);
    [now apply queued_idle_output | exact Hd | apply Hw |].
  exists w'. split; [exact E | eapply wire_from_queued; exact W].
Qed.

(** X4: neofoxx_sendCommand, for every command word and from every idle
    session: a word of neither table ends the program, after one line and
    with nothing queued or written; a word that is not in the MTAP table
    goes out in one packet with the width MTAP_COMMAND_NBITS, a word of the
    MTAP table alone with the width ETAP_COMMAND_NBITS; a word of both
    tables is not sent at all. *)
Theorem sendCommand_cases {K : pic32_h} (command : Z) (w : world) :
  idle w ->
  match is_mtap_command command, is_etap_command command with
  | false, false =>
      neofoxx_sendCommand command 1 w = Exit (logged (ErrInvalidCommand command) w)
  | false, true =>
      exists w', neofoxx_sendCommand command 1 w = Ret tt w'
                 /\ wire 0 [command_packet MTAP_COMMAND_NBITS command] [] w w'
  | true, false =>
      exists w', neofoxx_sendCommand command 1 w = Ret tt w'
                 /\ wire 0 [command_packet ETAP_COMMAND_NBITS command] [] w w'
  | true, true =>
      neofoxx_sendCommand command 1 w = Ret tt w
  end.
Proof.
  intros Hi.
  destruct (is_mtap_command command) eqn:Hm, (is_etap_command command) eqn:He.
  - unfold neofoxx_sendCommand. rewrite Hm, He. cbn [negb andb].
    rewrite !bind_ret_l. cbn [Z.eqb]. apply flush_output_empty, Hi.
  - now apply wires_sendCommand_mtap.
  - now apply wires_sendCommand_etap.
  - unfold neofoxx_sendCommand. rewrite Hm, He. reflexivity.
Qed.

Lemma sendCommand_cases_witness :
  @neofoxx_sendCommand pic32_values 0x1f 1
     (target (idle_session FAMILY_MZ INTERFACE_JTAG 0) [])
  = Exit (logged (ErrInvalidCommand 0x1f)
            (target (idle_session FAMILY_MZ INTERFACE_JTAG 0) [])).
Proof.
  apply (@sendCommand_cases pic32_values 0x1f
           (target (idle_session FAMILY_MZ INTERFACE_JTAG 0) [])).
  split; reflexivity.
Defined.

Lemma send_write_queued (pn p tn t en e : Z) (w : world) :
  neofoxx_send pn p tn t en e 0 w = Ret tt (queued (send_data pn p tn t en e 0) w).
Proof. now rewrite send_queued. Qed.

(** X5: neofoxx_setMode, for every mode word and from every idle session: a
    TAP reset and an exit are one packet each; the ICSP key is accepted on a
    JTAG or default interface only, and goes out as one packet of four SENDs
    whose TMS bytes are 0xB2, 0xC2, 0x12, 0x0A (the bytes of MCHP, each
    with its bits reversed); every other mode, and the ICSP key on an ICSP interface, ends
    the program after one line, with nothing queued or written. *)
Theorem setMode_cases (mode : Z) (w : world) :
  idle w ->
  if SET_MODE_TAP_RESET =? mode then
    exists w', neofoxx_setMode mode 1 w = Ret tt w'
               /\ wire 0 [tap_reset_packet] [] w w'
  else if SET_MODE_EXIT =? mode then
    exists w', neofoxx_setMode mode 1 w = Ret tt w'
               /\ wire 0 [packet_of (send_data 5 0x1F 0 0 0 0 0)] [] w w'
  else if (SET_MODE_ICSP_SYNC =? mode) && jtag_or_default (interface (ses w)) then
    exists w', neofoxx_setMode mode 1 w = Ret tt w'
               /\ wire 0 [key_packet 0xB2 0xC2 0x12 0x0A] [] w w'
  else neofoxx_setMode mode 1 w = Exit (logged ErrInvalidMode w).
Proof.
  intros Hi. unfold neofoxx_setMode. rewrite bind_gets.
  destruct (SET_MODE_TAP_RESET =? mode).
  { apply (wires_send_flush _ _ _ _ _ _ 0 1); [reflexivity | discriminate | exact Hi]. }
  destruct (SET_MODE_EXIT =? mode).
  { apply (wires_send_flush _ _ _ _ _ _ 0 1); [reflexivity | discriminate | exact Hi]. }
  destruct ((SET_MODE_ICSP_SYNC =? mode) && jtag_or_default (interface (ses w))).
  - change (neofoxx_bitReversal 0x4D434850) with 0x0A12C2B2.
    cbv zeta.
    change (Z.land 0x0A12C2B2 255) with 0xB2.
    change (Z.land (Z.shiftr 0x0A12C2B2 8) 255) with 0xC2.
    change (Z.land (Z.shiftr 0x0A12C2B2 16) 255) with 0x12.
    change (Z.land (Z.shiftr 0x0A12C2B2 24) 255) with 0x0A.
    rewrite bind_assoc.
    rewrite (bind_Ret _ _ _ _ _ (send_write_queued _ _ _ _ _ _ w)).
    rewrite bind_assoc.
    rewrite (bind_Ret _ _ _ _ _ (send_write_queued _ _ _ _ _ _ _)).
    rewrite bind_assoc.
    rewrite (bind_Ret _ _ _ _ _ (send_write_queued _ _ _ _ _ _ _)).
    rewrite (bind_Ret _ _ _ _ _ (send_write_queued _ _ _ _ _ _ _)).
    rewrite !queued_queued. cbn [Z.eqb].
    apply wires_flush_queued; [discriminate | exact Hi].
  - reflexivity.
Qed.

Lemma setMode_cases_witness :
  neofoxx_setMode SET_MODE_ICSP_SYNC 1
     (target (idle_session FAMILY_MZ INTERFACE_ICSP 0) [])
  = Exit (logged ErrInvalidMode (target (idle_session FAMILY_MZ INTERFACE_ICSP 0) [])).
Proof.
  apply (setMode_cases SET_MODE_ICSP_SYNC
           (target (idle_session FAMILY_MZ INTERFACE_ICSP 0) [])).
  split; reflexivity.
Defined.

(** ** neofoxx_bitReversal *)

Lemma land_bit_zero (x c : Z) :
  0 <= c -> (Z.land x (Z.shiftl 1 c) =? 0) = negb (Z.testbit x c).
Proof.
  intros Hc. rewrite Z.shiftl_1_l.
  destruct (Z.testbit x c) eqn:E; cbn [negb].
  - apply Z.eqb_neq. intros H.
    assert (F : Z.testbit (Z.land x (2 ^ c)) c = true)
      by (rewrite Z.land_spec, E, Z.pow2_bits_true by exact Hc; reflexivity).
    rewrite H, Z.bits_0 in F. discriminate.
  - apply Z.eqb_eq, Z.bits_inj'. intros n Hn.
    rewrite Z.land_spec, Z.bits_0, Z.pow2_bits_eqb by exact Hc.
    destruct (Z.eqb_spec c n); [subst; now rewrite E | apply andb_false_r].
Qed.

Lemma bitReversal_from_bits (n : nat) (x out j : Z) :
  (n <= 32)%nat -> 0 <= j ->
  Z.testbit (bitReversal_from n x out) j
  = Z.testbit out j
    || ((31 - j <? Z.of_nat n) && (0 <=? 31 - j) && Z.testbit x (31 - j)).
Proof.
  intros Hn Hj. induction n as [|n IH].
  - cbn [bitReversal_from]. change (Z.of_nat 0) with 0.
    destruct (Z.ltb_spec (31 - j) 0), (Z.leb_spec 0 (31 - j)); try lia;
      cbn [andb]; now rewrite orb_false_r.
  - cbn [bitReversal_from]. rewrite land_bit_zero by lia.
    assert (IH' := IH ltac:(lia)). clear IH.
    destruct (Z.eq_dec j (31 - Z.of_nat n)) as [->|Hne].
    + replace (31 - (31 - Z.of_nat n)) with (Z.of_nat n) in * by lia.
      rewrite Z.ltb_irrefl in IH'. cbn [andb] in IH'. rewrite orb_false_r in IH'.
      replace (Z.of_nat n <? Z.of_nat (S n)) with true
        by (symmetry; apply Z.ltb_lt; lia).
      replace (0 <=? Z.of_nat n) with true by (symmetry; apply Z.leb_le; lia).
      cbn [andb].
      destruct (Z.testbit x (Z.of_nat n)); cbn [negb].
      * rewrite Z.lor_spec, Z.shiftl_1_l, Z.pow2_bits_true by lia.
        now rewrite !orb_true_r.
      * now rewrite IH', orb_false_r.
    + replace (31 - j <? Z.of_nat (S n)) with (31 - j <? Z.of_nat n)
        by (destruct (Z.ltb_spec (31 - j) (Z.of_nat n)),
              (Z.ltb_spec (31 - j) (Z.of_nat (S n))); lia || reflexivity).
      destruct (Z.testbit x (Z.of_nat n)); cbn [negb]; [|exact IH'].
      rewrite Z.lor_spec, IH', Z.shiftl_1_l, Z.pow2_bits_false by lia.
      now rewrite orb_false_r.
Qed.

Lemma bitReversal_bits (x j : Z) :
  0 <= j ->
  Z.testbit (neofoxx_bitReversal x) j = (j <? 32) && Z.testbit x (31 - j).
Proof.
  intros Hj. unfold neofoxx_bitReversal.
  rewrite bitReversal_from_bits by lia. rewrite Z.bits_0. cbn [orb].
  change (Z.of_nat 32) with 32.
  destruct (Z.ltb_spec j 32).
  - replace (31 - j <? 32) with true by (symmetry; apply Z.ltb_lt; lia).
    replace (0 <=? 31 - j) with true by (symmetry; apply Z.leb_le; lia).
    reflexivity.
  - replace (0 <=? 31 - j) with false by (symmetry; apply Z.leb_gt; lia).
    now rewrite andb_false_r.
Qed.

Lemma bits_below (x n : Z) :
  0 <= n -> (forall j, n <= j -> Z.testbit x j = false) -> 0 <= x < 2 ^ n.
Proof.
  intros Hn H. replace x with (x mod 2 ^ n).
  - apply Z.mod_pos_bound. now apply Z.pow_pos_nonneg.
  - apply Z.bits_inj'. intros j Hj. rewrite Z.testbit_mod_pow2 by exact Hn.
    destruct (Z.ltb_spec j n); [reflexivity | symmetry; now apply H].
Qed.

(** X6: neofoxx_bitReversal: on a 32-bit word the result is a 32-bit word whose
    bit [i] is bit [31 - i] of the argument, and reversing twice gives the
    argument back. *)
Theorem bitReversal_mirror (x : Z) :
  0 <= x < 2 ^ 32 ->
  0 <= neofoxx_bitReversal x < 2 ^ 32
  /\ (forall i, 0 <= i < 32 ->
        Z.testbit (neofoxx_bitReversal x) i = Z.testbit x (31 - i))
  /\ neofoxx_bitReversal (neofoxx_bitReversal x) = x.
Proof.
  intros Hx. split; [|split].
  - apply bits_below; [lia|]. intros j Hj. rewrite bitReversal_bits by lia.
    replace (j <? 32) with false by (symmetry; apply Z.ltb_ge; lia).
    reflexivity.
  - intros i Hi. rewrite bitReversal_bits by lia.
    replace (i <? 32) with true by (symmetry; apply Z.ltb_lt; lia).
    reflexivity.
  - apply Z.bits_inj'. intros j Hj. rewrite bitReversal_bits by exact Hj.
    destruct (Z.ltb_spec j 32).
    + rewrite bitReversal_bits by lia.
      replace (31 - j <? 32) with true by (symmetry; apply Z.ltb_lt; lia).
      cbn [andb]. f_equal. lia.
    + cbn [andb]. symmetry.
      rewrite <- (Z.mod_small x (2 ^ 32)) by exact Hx.
      apply Z.mod_pow2_bits_high. lia.
Qed.

Lemma bitReversal_mirror_witness :
  0 <= neofoxx_bitReversal 0x4D434850 < 2 ^ 32
  /\ (forall i, 0 <= i < 32 ->
        Z.testbit (neofoxx_bitReversal 0x4D434850) i
        = Z.testbit 0x4D434850 (31 - i))
  /\ neofoxx_bitReversal (neofoxx_bitReversal 0x4D434850) = 0x4D434850.
Proof. apply (bitReversal_mirror 0x4D434850). lia. Defined.

(** ** calculate_crc *)

(** Two words with the same low 16 bits. *)
Lemma low16_bits (a b : Z) :
  (forall i, 0 <= i < 16 -> Z.testbit a i = Z.testbit b i) <->
  Z.land a 0xffff = Z.land b 0xffff.
Proof.
  change 0xffff with (Z.ones 16). rewrite !Z.land_ones by lia. split.
  - intros H. apply Z.bits_inj'. intros i Hi.
    rewrite !Z.testbit_mod_pow2 by lia.
    destruct (Z.ltb_spec i 16); [cbn [andb]; apply H; lia | reflexivity].
  - intros H i Hi.
    rewrite <- (Z.mod_pow2_bits_low a 16 i), <- (Z.mod_pow2_bits_low b 16 i) by lia.
    now rewrite H.
Qed.

(** One half of a turn of the loop: the table entry chosen by the top
    nibble of the 16-bit checksum and a nibble of the byte, over the
    checksum moved up by four bits. *)
Lemma crc_half_low16 (c c' n : Z) :
  Z.land c 0xffff = Z.land c' 0xffff ->
  Z.land (u32 (Z.lxor (nth (Z.to_nat (Z.land (Z.lxor (Z.shiftr c 12) n) 0x0F))
                           crc_table 0) (Z.shiftl c 4))) 0xffff
  = Z.land (u32 (Z.lxor (nth (Z.to_nat (Z.land (Z.lxor (Z.shiftr c' 12) n) 0x0F))
                             crc_table 0) (Z.shiftl c' 4))) 0xffff.
Proof.
  intros H0. pose proof (proj2 (low16_bits c c') H0) as H. clear H0.
  assert (I : Z.land (Z.lxor (Z.shiftr c 12) n) 0x0F
              = Z.land (Z.lxor (Z.shiftr c' 12) n) 0x0F).
  { change 0x0F with (Z.ones 4). rewrite !Z.land_ones by lia.
    apply Z.bits_inj'. intros i Hi. rewrite !Z.testbit_mod_pow2 by lia.
    destruct (Z.ltb_spec i 4); [cbn [andb] | reflexivity].
    rewrite !Z.lxor_spec, !Z.shiftr_spec by lia. f_equal. apply H. lia. }
  rewrite I. apply low16_bits. intros i Hi. unfold u32.
  change 4294967296 with (2 ^ 32).
  rewrite !Z.mod_pow2_bits_low by lia.
  rewrite !Z.lxor_spec, !Z.shiftl_spec by lia. f_equal.
  destruct (Z.ltb_spec (i - 4) 0).
  - now rewrite !Z.testbit_neg_r by lia.
  - apply H. lia.
Qed.

Lemma crc_step_low16 (c c' byte : Z) :
  Z.land c 0xffff = Z.land c' 0xffff ->
  Z.land (crc_step c byte) 0xffff = Z.land (crc_step c' byte) 0xffff.
Proof.
  intros H. unfold crc_step. cbv zeta.
  apply crc_half_low16. now apply crc_half_low16.
Qed.

Lemma crc_fold_low16 (data : list Z) (c c' : Z) :
  Z.land c 0xffff = Z.land c' 0xffff ->
  Z.land (fold_left crc_step data c) 0xffff
  = Z.land (fold_left crc_step data c') 0xffff.
Proof.
  revert c c'. induction data as [|b data IH]; intros c c' H; [exact H|].
  cbn [fold_left]. apply IH. now apply crc_step_low16.
Qed.

Lemma land_ffff_idem (c : Z) : Z.land (Z.land c 0xffff) 0xffff = Z.land c 0xffff.
Proof. rewrite <- Z.land_assoc. reflexivity. Qed.

(** X7: calculate_crc: the checksum of a buffer can be taken piece by piece,
    the result over the first piece being the start value for the second;
    only the low 16 bits of a start value count, and the result is a 16-bit
    word. *)
Theorem calculate_crc_chunks (crc : Z) (a b : list Z) :
  calculate_crc crc (a ++ b) (Z.of_nat (length a + length b))
  = calculate_crc (calculate_crc crc a (Z.of_nat (length a))) b
                  (Z.of_nat (length b))
  /\ calculate_crc crc a (Z.of_nat (length a))
     = calculate_crc (Z.land crc 0xffff) a (Z.of_nat (length a))
  /\ 0 <= calculate_crc crc a (Z.of_nat (length a)) < 65536.
Proof.
  unfold calculate_crc. rewrite !Nat2Z.id, <- length_app, !firstn_all.
  split; [|split].
  - rewrite fold_left_app. apply crc_fold_low16. now rewrite land_ffff_idem.
  - apply crc_fold_low16. now rewrite land_ffff_idem.
  - change 0xffff with (Z.ones 16). rewrite Z.land_ones by lia.
    apply Z.mod_pos_bound. lia.
Qed.

(** ** neofoxx_xferInstruction_PC_slow *)

Section Instructions.
Context {K : pic32_h}.
Hypothesis disjoint : tables_disjoint.

Lemma talks_wait_proben (bad : list Z) (good : Z) :
  Forall proben_clear bad ->
  Z.land (u32 good) CONTROL_PROBEN <> 0 ->
  forall (left : nat) (maxCounter : Z) (w : world),
  (length bad <= left)%nat ->
  maxCounter + Z.of_nat (length bad) <= 40 ->
  talks (wait_proben left maxCounter) tt (bad ++ [good])
        (repeat poll_packet (S (length bad))) (ctl_lines bad) w.
Proof.
  intros Hb Hg. induction Hb as [|c bad Hc Hb IH]; intros left mc w Hl Hm.
  - cbn [app length repeat ctl_lines map].
    destruct left; cbn [wait_proben];
      (tstep ltac:(apply talks_xferData_read; discriminate);
       cbv zeta; rewrite u32_mod64;
       apply Z.eqb_neq in Hg; rewrite Hg; apply talks_ret).
  - cbn [length] in Hl, Hm. destruct left as [|left]; [lia|].
    cbn [app length repeat ctl_lines map wait_proben].
    tstep ltac:(apply talks_xferData_read; discriminate).
    cbv zeta. rewrite u32_mod64. unfold proben_clear in Hc. rewrite Hc.
    cbn [Z.eqb].
    tstep ltac:(apply talks_fprintf; reflexivity).
    replace (mc + 1 >? 40) with false
      by (rewrite Z.gtb_ltb; symmetry; apply Z.ltb_ge; lia).
    tstep ltac:(apply talks_mdelay).
    apply IH; lia.
Qed.

Lemma quits_wait_proben (bad : list Z) :
  Forall proben_clear bad ->
  forall (left : nat) (maxCounter : Z) (w : world),
  (length bad <= S left)%nat ->
  maxCounter <= 40 ->
  maxCounter + Z.of_nat (length bad) = 41 ->
  quits (wait_proben left maxCounter) bad
        (repeat poll_packet (length bad))
        (ctl_lines bad ++ [ErrProcessorNotReady]) w.
Proof.
  intros Hb. induction Hb as [|c bad Hc Hb IH]; intros left mc w Hl Hc40 Hm.
  - cbn [length] in Hm. lia.
  - cbn [length] in Hl, Hm. unfold proben_clear in Hc.
    cbn [app length repeat ctl_lines map].
    destruct bad as [|c' bad].
    + cbn [length] in Hm. assert (mc = 40) by lia. subst mc.
      cbn [app length repeat ctl_lines map].
      destruct left; cbn [wait_proben];
        (qstep ltac:(apply talks_xferData_read; discriminate);
         cbv zeta; rewrite u32_mod64, Hc; cbn [Z.eqb];
         qstep ltac:(apply talks_fprintf; reflexivity);
         change (40 + 1 >? 40) with true; cbv iota;
         apply quits_fprintf_exit; reflexivity).
    + destruct left as [|left]; [cbn [length] in Hl; lia|].
      cbn [wait_proben].
      qstep ltac:(apply talks_xferData_read; discriminate).
      cbv zeta. rewrite u32_mod64, Hc. cbn [Z.eqb].
      qstep ltac:(apply talks_fprintf; reflexivity).
      replace (mc + 1 >? 40) with false
        by (rewrite Z.gtb_ltb; symmetry; apply Z.ltb_ge; cbn [length] in Hm; lia).
      qstep ltac:(apply talks_mdelay).
      apply IH; cbn [length] in *; lia.
Qed.

Lemma talks_xferInstruction (instruction : Z) (bad : list Z) (good : Z)
    (w : world) :
  Forall proben_clear bad ->
  Z.land (u32 good) CONTROL_PROBEN <> 0 ->
  (length bad <= 40)%nat ->
  talks (neofoxx_xferInstruction_PC_slow instruction) tt (bad ++ [good])
        (instruction_packets instruction (S (length bad))) (ctl_lines bad) w.
Proof.
  intros Hb Hg Hl. unfold neofoxx_xferInstruction_PC_slow, instruction_packets.
  eapply talks_bind;
    [ apply (talks_command_etap disjoint), is_etap_ETAP_CONTROL
    | intros w1 _ | reflexivity | reflexivity | reflexivity ].
  eapply talks_bind;
    [ apply (talks_wait_proben bad good Hb Hg 40 0); lia
    | intros w2 _ | symmetry; apply app_nil_r | reflexivity
    | symmetry; apply app_nil_r ].
  tstep ltac:(apply (talks_command_etap disjoint), is_etap_ETAP_DATA).
  tstep ltac:(apply talks_xferData_write).
  tstep ltac:(apply (talks_command_etap disjoint), is_etap_ETAP_CONTROL).
  tstep ltac:(apply talks_xferData_write).
  apply talks_ret.
Qed.

Lemma quits_xferInstruction (instruction : Z) (bad : list Z) (w : world) :
  Forall proben_clear bad ->
  length bad = 41%nat ->
  quits (neofoxx_xferInstruction_PC_slow instruction) bad
        (command_packet MTAP_COMMAND_NBITS ETAP_CONTROL :: repeat poll_packet 41)
        (ctl_lines bad ++ [ErrProcessorNotReady]) w.
Proof.
  intros Hb Hl. unfold neofoxx_xferInstruction_PC_slow.
  eapply quits_bind;
    [ apply (talks_command_etap disjoint), is_etap_ETAP_CONTROL
    | intros w1 _ | reflexivity | reflexivity | reflexivity ].
  apply quits_bind_l. rewrite <- Hl.
  apply quits_wait_proben; [exact Hb | lia | lia | lia].
Qed.

End Instructions.

Lemma talks_run {A : Type} (m : M A) (a : A) (ws : list Z)
    (ps : list (list Z)) (ds : list diag) (rest : list Z) (w : world) :
  talks m a ws ps ds w -> idle w -> stream w = words_bytes ws ++ rest ->
  exists w', m w = Ret a w'
             /\ wire (8 * length ws) ps ds w w' /\ stream w' = rest.
Proof.
  intros T Hi Hs. destruct (T Hi rest Hs) as (w' & E & W).
  exists w'. split; [exact E|]. split; [exact W|].
  rewrite (wire_stream _ _ _ _ _ W), Hs. apply skipn_words_bytes.
Qed.

(** X8: neofoxx_xferInstruction_PC_slow: when the control register shows ProbEn
    after at most 40 reads without it, the call returns; it has printed one
    line for each read without ProbEn, and has written the selection of the
    control register, one read for each reply, and then the instruction
    through the data register and the order to go on. *)
Theorem xferInstruction_transcript {K : pic32_h} (instruction : Z)
    (bad : list Z) (good : Z) (rest : list Z) (w : world) :
  tables_disjoint -> idle w ->
  Forall proben_clear bad ->
  Z.land (u32 good) CONTROL_PROBEN <> 0 ->
  (length bad <= 40)%nat ->
  stream w = words_bytes (bad ++ [good]) ++ rest ->
  exists w', neofoxx_xferInstruction_PC_slow instruction w = Ret tt w'
             /\ wire (8 * length (bad ++ [good]))
                     (instruction_packets instruction (S (length bad)))
                     (ctl_lines bad) w w'
             /\ stream w' = rest.
Proof.
  intros Hd Hi Hb Hg Hl Hs.
  exact (talks_run _ _ _ _ _ _ _
           (talks_xferInstruction Hd instruction bad good w Hb Hg Hl) Hi Hs).
Qed.

Lemma xferInstruction_transcript_witness :
  exists w', @neofoxx_xferInstruction_PC_slow pic32_values 0x3c13ff20
               (target (idle_session FAMILY_MZ INTERFACE_JTAG 0)
                       (reply_words [0x4000; 0xc000]))
             = Ret tt w'
             /\ wire 16 (@instruction_packets pic32_values 0x3c13ff20 2)
                     [ErrCtlWas 0x4000]
                     (target (idle_session FAMILY_MZ INTERFACE_JTAG 0)
                             (reply_words [0x4000; 0xc000])) w'
             /\ stream w' = [].
Proof.
  apply (@xferInstruction_transcript pic32_values 0x3c13ff20 [0x4000] 0xc000 []).
  - exact pic32_values_disjoint.
  - split; reflexivity.
  - repeat constructor.
  - discriminate.
  - cbn [length]. lia.
  - reflexivity.
Defined.

(** X9: neofoxx_xferInstruction_PC_slow: when 41 reads of the control register
    in a row come back without ProbEn, the call ends the program; it has
    printed a line for each of the 41 reads and then that the processor is
    not ready, and the instruction has not been written. *)
Theorem xferInstruction_gives_up {K : pic32_h} (instruction : Z)
    (bad : list Z) (rest : list Z) (w : world) :
  tables_disjoint -> idle w ->
  Forall proben_clear bad ->
  length bad = 41%nat ->
  stream w = words_bytes bad ++ rest ->
  exists w', neofoxx_xferInstruction_PC_slow instruction w = Exit w'
             /\ tx (port w')
                = tx (port w)
                  ++ command_packet MTAP_COMMAND_NBITS ETAP_CONTROL
                     :: repeat poll_packet 41
             /\ diags w' = diags w ++ ctl_lines bad ++ [ErrProcessorNotReady]
             /\ stream w' = rest.
Proof.
  intros Hd Hi Hb Hl Hs.
  exact (quits_xferInstruction Hd instruction bad w Hb Hl Hi rest Hs).
Qed.

Lemma xferInstruction_gives_up_witness :
  exists w', @neofoxx_xferInstruction_PC_slow pic32_values 0x3c13ff20
               (target (idle_session FAMILY_MZ INTERFACE_JTAG 0)
                       (reply_words (repeat 0x4000 41%nat)))
             = Exit w'
             /\ tx (port w')
                = [] ++ command_packet 5 0x0a :: repeat (@poll_packet pic32_values) 41
             /\ diags w' = [] ++ ctl_lines (repeat 0x4000 41%nat)
                             ++ [ErrProcessorNotReady]
             /\ stream w' = [].
Proof.
  apply (@xferInstruction_gives_up pic32_values 0x3c13ff20
           (repeat 0x4000 41%nat) []).
  - exact pic32_values_disjoint.
  - split; reflexivity.
  - apply Forall_forall. intros c Hc. apply repeat_spec in Hc. now subst.
  - reflexivity.
  - reflexivity.
Defined.

(** ** get_pe_response *)

Section Responses.
Context {K : pic32_h}.
Hypothesis disjoint : tables_disjoint.

Lemma talks_wait_pracc (bad : list Z) (good : Z) :
  Forall pracc_clear bad ->
  Z.land (u32 good) CONTROL_PRACC <> 0 ->
  forall (fuel : nat) (w : world),
  (length bad <= fuel)%nat ->
  talks (wait_pracc fuel) tt (bad ++ [good])
        (repeat poll_packet (S (length bad))) [] w.
Proof.
  intros Hb Hg. induction Hb as [|c bad Hc Hb IH]; intros fuel w Hl.
  - cbn [app length repeat].
    destruct fuel; cbn [wait_pracc];
      (tstep ltac:(apply talks_xferData_read; discriminate);
       rewrite u32_mod64; apply Z.eqb_neq in Hg; rewrite Hg; apply talks_ret).
  - cbn [length] in Hl. destruct fuel as [|fuel]; [lia|].
    cbn [app length repeat wait_pracc].
    tstep ltac:(apply talks_xferData_read; discriminate).
    rewrite u32_mod64. unfold pracc_clear in Hc. rewrite Hc. cbn [Z.eqb].
    apply IH. lia.
Qed.

Lemma talks_get_pe_response (bad : list Z) (good response : Z) (fuel : nat)
    (w : world) :
  Forall pracc_clear bad ->
  Z.land (u32 good) CONTROL_PRACC <> 0 ->
  (length bad <= fuel)%nat ->
  talks (get_pe_response fuel) (u32 response) (bad ++ [good; response])
        (response_packets (S (length bad))) [] w.
Proof.
  intros Hb Hg Hl. unfold get_pe_response, response_packets.
  eapply talks_bind;
    [ apply (talks_command_etap disjoint), is_etap_ETAP_CONTROL
    | intros w1 _ | reflexivity | reflexivity | reflexivity ].
  eapply talks_bind with (ws := bad ++ [good]) (ws' := [response]);
    [ apply (talks_wait_pracc bad good Hb Hg fuel); exact Hl
    | intros w2 _ | now rewrite <- app_assoc | reflexivity | reflexivity ].
  tstep ltac:(apply (talks_command_etap disjoint), is_etap_ETAP_DATA).
  tstep ltac:(apply talks_xferData_read; discriminate).
  tstep ltac:(apply (talks_command_etap disjoint), is_etap_ETAP_CONTROL).
  tstep ltac:(apply talks_xferData_write).
  rewrite u32_mod64. apply talks_ret.
Qed.

End Responses.



(** ** neofoxx_erase_chip *)

Ltac tstep_as lem w W :=
  eapply talks_bind; [ lem | | reflexivity | reflexivity | reflexivity ];
  [ intros w W; cbn beta ].


Section Erase.
Context {K : pic32_h} {K' : pic32_h_more}.
Hypothesis disjoint : tables_disjoint.



End Erase.



(** ** neofoxx_enter_icsp *)





(** ** neofoxx_read_word on a session in serial execution *)

Lemma pracc_bit (r : Z) : Z.land (r mod 2 ^ 64) 1 = Z.land r 1.
Proof.
  change 1 with (Z.ones 1). rewrite !Z.land_ones by lia.
  apply Z.mod_mod_divide. exists (2 ^ 63). reflexivity.
Qed.

Lemma fastdata_word (r : Z) :
  u32 (Z.shiftr (r mod 2 ^ 64) 1) = u32 (Z.shiftr r 1).
Proof.
  unfold u32. change 4294967296 with (2 ^ 32).
  apply Z.bits_inj'. intros i Hi. rewrite !Z.testbit_mod_pow2 by lia.
  destruct (Z.ltb_spec i 32); [cbn [andb] | reflexivity].
  rewrite !Z.shiftr_spec, Z.testbit_mod_pow2 by lia.
  replace (i + 1 <? 64) with true by (symmetry; apply Z.ltb_lt; lia).
  reflexivity.
Qed.

Lemma talks_old_way_workaround (w : world) : talks (old_way 1) true [] [] [] w.
Proof.
  intros Hi rest Hs. exists w. split; [|now apply wire_refl].
  unfold old_way. rewrite bind_gets. cbn [Z.eqb negb].
  now rewrite orb_true_r.
Qed.

Section ReadWord.
Context {K : pic32_h}.
Hypothesis disjoint : tables_disjoint.

Lemma talks_serial_execution_entered (w : world) :
  serial_execution_mode (ses w) <> 0 -> talks serial_execution tt [] [] [] w.
Proof.
  intros H Hi rest Hs. exists w.
  split; [now apply serial_execution_sticky | now apply wire_refl].
Qed.

Lemma talks_instruction_ready (instruction c : Z) (w : world) :
  proben_set c ->
  talks (neofoxx_xferInstruction_PC_slow instruction) tt [c]
        (instruction_packets instruction 1) [] w.
Proof.
  intros Hc.
  apply (talks_xferInstruction disjoint instruction [] c w);
    [constructor | exact Hc | cbn [length]; lia].
Qed.

Lemma talks_instructions (ins ctls : list Z) (w : world) (k : M Z) (b : Z)
    (ws : list Z) (ps : list (list Z)) (ds : list diag) :
  Forall proben_set ctls ->
  length ctls = length ins ->
  (forall w', talks k b ws ps ds w') ->
  talks (fold_right (fun i m => neofoxx_xferInstruction_PC_slow i ;; m) k ins)
        b (ctls ++ ws)
        (flat_map (fun i => instruction_packets i 1) ins ++ ps) ds w.
Proof.
  intros Hc. revert ins w.
  induction Hc as [|c ctls Hc Hcs IH]; intros [|i ins] w Hl Hk;
    try discriminate Hl.
  - apply Hk.
  - cbn [fold_right flat_map app].
    eapply talks_bind;
      [ apply talks_instruction_ready; exact Hc
      | intros w1 _; apply IH; [now injection Hl | exact Hk]
      | reflexivity | now rewrite <- app_assoc | reflexivity ].
Qed.

Lemma talks_read_tail (r : Z) (w : world) :
  talks (neofoxx_sendCommand ETAP_FASTDATA 1 ;;
         temp <- neofoxx_xferFastData_PC_slow 0 1 ;;
         ret (u32 (Z.shiftr temp 1)))
        (u32 (Z.shiftr r 1)) [r]
        [command_packet MTAP_COMMAND_NBITS ETAP_FASTDATA; fastdata_packet 0]
        (if Z.land r 1 =? 0 then [WarnPrACCNotSet] else []) w.
Proof.
  tstep ltac:(apply (talks_command_etap disjoint), is_etap_ETAP_FASTDATA).
  eapply talks_bind;
    [ apply (talks_xferFastData 0 1 r)
    | intros w1 _; cbn [Z.eqb]; rewrite fastdata_word; apply talks_ret
    | reflexivity | reflexivity | rewrite pracc_bit; symmetry; apply app_nil_r ].
Qed.

Lemma talks_read_word_once (addr : Z) (ctls : list Z) (r : Z) (w : world) :
  Forall proben_set ctls ->
  length ctls = length (read_instructions (family_name_short (ses w)) addr) ->
  talks (read_word_once addr) (u32 (Z.shiftr r 1)) (ctls ++ [r])
        (flat_map (fun i => instruction_packets i 1)
                  (read_instructions (family_name_short (ses w)) addr)
         ++ [command_packet MTAP_COMMAND_NBITS ETAP_FASTDATA; fastdata_packet 0])
        (if Z.land r 1 =? 0 then [WarnPrACCNotSet] else []) w.
Proof.
  intros Hc Hl. unfold read_word_once. cbv zeta. apply talks_gets.
  unfold read_instructions in *. cbv zeta in *.
  destruct (family_eqb FAMILY_MX1 (family_name_short (ses w))
            || family_eqb FAMILY_MX3 (family_name_short (ses w))
            || family_eqb FAMILY_MK (family_name_short (ses w))
            || family_eqb FAMILY_MZ (family_name_short (ses w))).
  - apply (talks_instructions
             [0x3c13ff20; Z.lor 0x3c080000 (Z.land (Z.shiftr addr 16) 0xFFFF);
              Z.lor 0x35080000 (Z.land addr 0xFFFF); 0x8d090000; 0xae690000; 0]
             ctls w _ _ [r] _ _ Hc Hl).
    intros w'. apply talks_read_tail.
  - apply (talks_instructions
             [0xFF2041B3;
              u32 (Z.lor 0x000041A8 (Z.shiftl (Z.land (Z.shiftr addr 16) 0xFFFF) 16));
              u32 (Z.lor 0x00005108 (Z.shiftl (Z.land addr 0xFFFF) 16));
              0x0000FD28; 0x0000F933; 0x0c000c00; 0x0c000c00]
             ctls w _ _ [r] _ _ Hc Hl).
    intros w'. apply talks_read_tail.
Qed.

Lemma talks_read_word (addr : Z) (ctls : list Z) (r : Z) (w : world) :
  serial_execution_mode (ses w) <> 0 ->
  Forall proben_set ctls ->
  length ctls = length (read_instructions (family_name_short (ses w)) addr) ->
  talks (neofoxx_read_word addr) (u32 (Z.shiftr r 1)) (ctls ++ [r])
        (flat_map (fun i => instruction_packets i 1)
                  (read_instructions (family_name_short (ses w)) addr)
         ++ [command_packet MTAP_COMMAND_NBITS ETAP_FASTDATA; fastdata_packet 0])
        (MsgWorkaround :: if Z.land r 1 =? 0 then [WarnPrACCNotSet] else []) w.
Proof.
  intros Hs Hc Hl. unfold neofoxx_read_word. cbv zeta. apply talks_gets.
  apply Z.eqb_neq in Hs. rewrite Hs. apply Z.eqb_neq in Hs.
  tstep_as ltac:(apply talks_serial_execution_entered; exact Hs) w1 W1.
  tstep_as ltac:(apply talks_old_way_workaround) w2 W2.
  cbn [Z.eqb negb].
  tstep_as ltac:(apply talks_fprintf; reflexivity) w3 W3.
  cbn [read_word_loop].
  assert (F : family_name_short (ses w3) = family_name_short (ses w))
    by (rewrite (wire_family _ _ _ _ _ W3), (wire_family _ _ _ _ _ W2);
        apply (wire_family _ _ _ _ _ W1)).
  eapply talks_bind;
    [ apply (talks_read_word_once addr ctls r w3 Hc); now rewrite F
    | intros w4 _; apply talks_ret
    | symmetry; apply app_nil_r
    | rewrite F; symmetry; apply app_nil_r
    | symmetry; apply app_nil_r ].
Qed.

End ReadWord.

(** X13: neofoxx_read_word on a session that has entered serial execution, with
    a processor that shows ProbEn at each read of the control register: the
    call does not enter serial execution again, has the processor run the
    six instructions (seven on a microMIPS family) that move the word at
    [addr] to the FASTDATA register, each in the six packets of
    [neofoxx_xferInstruction_PC_slow], reads FASTDATA once and returns bits
    32 to 1 of the reply.  It prints the workaround line, and the PrACC
    warning when bit 0 of the reply is clear. *)
Theorem read_word_serial {K : pic32_h} (addr : Z) (ctls : list Z) (r : Z)
    (rest : list Z) (w : world) :
  tables_disjoint -> idle w ->
  serial_execution_mode (ses w) <> 0 ->
  Forall proben_set ctls ->
  length ctls = length (read_instructions (family_name_short (ses w)) addr) ->
  stream w = words_bytes (ctls ++ [r]) ++ rest ->
  exists w', neofoxx_read_word addr w = Ret (u32 (Z.shiftr r 1)) w'
             /\ wire (8 * length (ctls ++ [r]))
                  (flat_map (fun i => instruction_packets i 1)
                            (read_instructions (family_name_short (ses w)) addr)
                   ++ [command_packet MTAP_COMMAND_NBITS ETAP_FASTDATA;
                       fastdata_packet 0])
                  (MsgWorkaround
                   :: if Z.land r 1 =? 0 then [WarnPrACCNotSet] else []) w w'
             /\ stream w' = rest.
Proof.
  intros Hd Hi Hm Hc Hl Hs.
  exact (talks_run _ _ _ _ _ _ _
           (talks_read_word Hd addr ctls r w Hm Hc Hl) Hi Hs).
Qed.

Lemma read_word_serial_witness :
  exists w', @neofoxx_read_word pic32_values 0x1fc00000
               (target (serial_session FAMILY_MZ INTERFACE_ICSP 0)
                       (reply_words (repeat 0xc000 6%nat ++ [0x155])))
             = Ret 0xaa w'
             /\ wire 56
                  (flat_map (fun i => @instruction_packets pic32_values i 1)
                            (read_instructions FAMILY_MZ 0x1fc00000)
                   ++ [command_packet 5 0x0e; fastdata_packet 0])
                  [MsgWorkaround]
                  (target (serial_session FAMILY_MZ INTERFACE_ICSP 0)
                          (reply_words (repeat 0xc000 6%nat ++ [0x155]))) w'
             /\ stream w' = [].
Proof.
  apply (@read_word_serial pic32_values 0x1fc00000 (repeat 0xc000 6%nat) 0x155 []).
  - exact pic32_values_disjoint.
  - split; reflexivity.
  - discriminate.
  - repeat constructor; discriminate.
  - reflexivity.
  - reflexivity.
Defined.

(** ** neofoxx_program_row, old way *)

Lemma talks_xferFastData_ack (word readFlag a : Z) (w : world) :
  pracc_ack a ->
  talks (neofoxx_xferFastData_PC_slow word readFlag)
        (if readFlag =? 0 then 0 else a mod 2 ^ 64) [a]
        [fastdata_packet word] [] w.
Proof.
  intros Ha. pose proof (talks_xferFastData word readFlag a w) as T.
  rewrite pracc_bit in T. apply Z.eqb_neq in Ha. now rewrite Ha in T.
Qed.

Lemma talks_row_words_slow (n : nat) :
  forall (i : Z) (data acks : list Z) (w : world),
  (n <= length data)%nat -> length acks = n -> Forall pracc_ack acks ->
  talks (row_words_slow n i data) tt acks
        (map fastdata_packet (firstn n data)) [] w.
Proof.
  induction n as [|n IH]; intros i data acks w Hd Hl Ha.
  - destruct acks; [apply talks_ret | discriminate].
  - destruct data as [|d data]; [cbn [length] in Hd; lia|].
    destruct acks as [|a acks]; [discriminate|].
    inversion Ha as [|? ? Ha1 Ha2]; subst.
    cbn [row_words_slow firstn map hd tl].
    eapply talks_bind with (ws := []) (ps := []) (ds := []);
      [ destruct (Z.land i 7 =? 0); [apply talks_flush_idle | apply talks_ret]
      | intros w1 _ | reflexivity | reflexivity | reflexivity ].
    tstep ltac:(apply (talks_xferFastData_ack d 0 a); exact Ha1).
    apply IH; [cbn [length] in Hd; lia | now injection Hl | exact Ha2].
Qed.

Lemma talks_old_way_old (w : world) :
  way (ses w) = WAY_OLD -> talks (old_way 0) true [] [] [] w.
Proof.
  intros Hw Hi rest Hs. exists w. split; [|now apply wire_refl].
  unfold old_way. rewrite bind_gets, Hw. reflexivity.
Qed.

Section ProgramRow.
Context {K : pic32_h} {K' : pic32_h_more}.
Hypothesis disjoint : tables_disjoint.

Lemma talks_program_row_old (fuel : nat) (addr : Z) (data : list Z)
    (words_per_row : Z) (acks bad : list Z) (good response : Z) (w : world) :
  use_executive (ses w) <> 0 ->
  way (ses w) = WAY_OLD ->
  (Z.to_nat (u32 words_per_row) <= length data)%nat ->
  length acks = Z.to_nat (u32 words_per_row) ->
  forall a0 a1 : Z,
  pracc_ack a0 -> pracc_ack a1 -> Forall pracc_ack acks ->
  Forall pracc_clear bad ->
  Z.land (u32 good) CONTROL_PRACC <> 0 ->
  (length bad <= fuel)%nat ->
  talks (program_row_exchange fuel addr data words_per_row) (u32 response)
        (a0 :: a1 :: acks ++ bad ++ [good; response])
        (command_packet MTAP_COMMAND_NBITS ETAP_FASTDATA
         :: map fastdata_packet (row_request addr data words_per_row)
         ++ response_packets (S (length bad))) [] w.
Proof.
  intros Hue Hway Hd Hl a0 a1 H0 H1 Ha Hb Hg Hf.
  unfold program_row_exchange, row_request. cbv zeta. apply talks_gets.
  apply Z.eqb_neq in Hue. rewrite Hue.
  tstep_as ltac:(apply talks_ret) w1 W1.
  tstep_as ltac:(apply talks_old_way_old;
                 rewrite (wire_way _ _ _ _ _ W1); exact Hway) w2 W2.
  cbn [Z.eqb negb].
  tstep ltac:(apply talks_ret).
  tstep ltac:(apply (talks_command_etap disjoint), is_etap_ETAP_FASTDATA).
  cbn [map].
  tstep ltac:(apply (talks_xferFastData_ack _ 0 a0); exact H0).
  tstep ltac:(apply (talks_xferFastData_ack _ 0 a1); exact H1).
  eapply talks_bind;
    [ apply (talks_row_words_slow _ 0 data acks); [exact Hd | exact Hl | exact Ha]
    | intros wl _ | reflexivity | reflexivity | reflexivity ].
  tstep ltac:(apply talks_flush_idle).
  apply (talks_get_pe_response disjoint); assumption.
Qed.

End ProgramRow.

(** X14: neofoxx_program_row on the old way, up to the answer of the PE: with
    the PE resident, the call selects FASTDATA and sends, each in a packet
    of its own and each answered by one reply word, the opcode over the
    count, the address and then the first [words_per_row] words of the
    buffer in order; the flushes inside the loop write nothing.  It then
    waits for the answer as [get_pe_response] does and yields its low 32
    bits. *)
Theorem program_row_old_way {K : pic32_h} {K' : pic32_h_more} (fuel : nat)
    (addr : Z) (data : list Z) (words_per_row : Z) (a0 a1 : Z)
    (acks bad : list Z) (good response : Z) (rest : list Z) (w : world) :
  tables_disjoint -> idle w ->
  use_executive (ses w) <> 0 ->
  way (ses w) = WAY_OLD ->
  (Z.to_nat (u32 words_per_row) <= length data)%nat ->
  length acks = Z.to_nat (u32 words_per_row) ->
  Forall pracc_ack (a0 :: a1 :: acks) ->
  Forall pracc_clear bad ->
  Z.land (u32 good) CONTROL_PRACC <> 0 ->
  (length bad <= fuel)%nat ->
  stream w = words_bytes (a0 :: a1 :: acks ++ bad ++ [good; response]) ++ rest ->
  exists w', program_row_exchange fuel addr data words_per_row w
             = Ret (u32 response) w'
             /\ wire (8 * length (a0 :: a1 :: acks ++ bad ++ [good; response]))
                  (command_packet MTAP_COMMAND_NBITS ETAP_FASTDATA
                   :: map fastdata_packet (row_request addr data words_per_row)
                   ++ response_packets (S (length bad))) [] w w'
             /\ stream w' = rest.
Proof.
  intros Hd Hi Hue Hway Hn Hl Ha Hb Hg Hf Hs.
  inversion Ha as [|? ? H0 Ha']; subst.
  inversion Ha' as [|? ? H1 Ha'']; subst.
  exact (talks_run _ _ _ _ _ _ _
           (talks_program_row_old Hd fuel addr data words_per_row acks bad good
              response w Hue Hway Hn Hl a0 a1 H0 H1 Ha'' Hb Hg Hf) Hi Hs).
Qed.

Lemma program_row_old_way_witness :
  exists w', @program_row_exchange pic32_values pic32_more_values 0
               0x1d000000 [0x11; 0x22; 0x33] 3
               (target (idle_session FAMILY_MZ INTERFACE_JTAG 1)
                       (reply_words [1; 1; 1; 1; 1; 0x40000; 0]))
             = Ret 0 w'
             /\ wire 56
                  (command_packet 5 0x0e
                   :: map fastdata_packet [3; 0x1d000000; 0x11; 0x22; 0x33]
                   ++ @response_packets pic32_values 1) []
                  (target (idle_session FAMILY_MZ INTERFACE_JTAG 1)
                          (reply_words [1; 1; 1; 1; 1; 0x40000; 0])) w'
             /\ stream w' = [].
Proof.
  apply (@program_row_old_way pic32_values pic32_more_values 0 0x1d000000
           [0x11; 0x22; 0x33] 3 1 1 [1; 1; 1] [] 0x40000 0 []).
  - exact pic32_values_disjoint.
  - split; reflexivity.
  - discriminate.
  - reflexivity.
  - cbn. lia.
  - reflexivity.
  - repeat constructor; discriminate.
  - constructor.
  - discriminate.
  - cbn [length]. lia.
  - reflexivity.
Defined.

(** ** neofoxx_program_row, new way *)

Lemma MCU_fast_queued (word : Z) (w : world) :
  neofoxx_xferFastData_MCU_fast word 0 w = Ret tt (queued (fastdata_payload word) w).
Proof.
  unfold neofoxx_xferFastData_MCU_fast, fastdata_payload.
  now rewrite send_write_queued.
Qed.

Lemma MCU_fast_pending (word : Z) (pend : list Z) (w : world) :
  neofoxx_xferFastData_MCU_fast word 0 (pending pend w)
  = Ret tt (pending (pend ++ [word]) w).
Proof.
  rewrite MCU_fast_queued. f_equal. unfold pending.
  destruct pend as [|p pend]; cbn [app].
  - cbn [flat_map]. now rewrite app_nil_r.
  - rewrite queued_queued. f_equal.
    change (p :: pend ++ [word]) with ((p :: pend) ++ [word]).
    rewrite flat_map_app. cbn [flat_map]. now rewrite app_nil_r.
Qed.

Lemma flush_pending (pend : list Z) (w : world) :
  idle w ->
  exists w', neofoxx_flush_output (pending pend w) = Ret tt w'
             /\ wire 0 (match pend with [] => [] | _ => [batch_packet pend] end)
                     [] w w'.
Proof.
  intros Hi. destruct pend as [|p pend].
  - exists w. split; [apply flush_output_empty, Hi | now apply wire_refl].
  - apply wires_flush_queued; [discriminate | exact Hi].
Qed.

Lemma row_words_fast_run (n : nat) :
  forall (i : Z) (pend data : list Z) (w : world),
  idle w ->
  0 <= i ->
  (length pend <= 4)%nat ->
  Z.land i 3 = Z.of_nat (length pend) mod 4 ->
  (n <= length data)%nat ->
  exists w', (row_words_fast n i data ;; neofoxx_flush_output) (pending pend w)
             = Ret tt w'
             /\ wire 0 (map batch_packet (four_by_four (pend ++ firstn n data)))
                     [] w w'.
Proof.
  induction n as [|n IH]; intros i pend data w Hi Hi0 Hp Hm Hd.
  - cbn [row_words_fast firstn]. rewrite bind_ret_l, app_nil_r.
    destruct (flush_pending pend w Hi) as (w' & E & W).
    exists w'. split; [exact E|].
    destruct pend as [|a [|b [|c [|d [|e pend]]]]]; try exact W.
    cbn [length] in Hp. lia.
  - destruct data as [|d data]; [cbn [length] in Hd; lia|].
    cbn [row_words_fast firstn hd tl]. rewrite !bind_assoc.
    assert (Hnext : Z.land (i + 1) 3 = (Z.land i 3 + 1) mod 4).
    { change 3 with (Z.ones 2). rewrite !Z.land_ones by lia.
      change (2 ^ 2) with 4. rewrite Zplus_mod_idemp_l. reflexivity. }
    destruct (Z.eqb_spec (Z.land i 3) 0) as [Hz|Hz].
    + destruct (flush_pending pend w Hi) as (w1 & E1 & W1).
      rewrite (bind_Ret _ _ _ _ _ E1).
      pose proof (MCU_fast_pending d [] w1) as Em.
      change (pending [] w1) with w1 in Em. cbn [app] in Em.
      rewrite bind_assoc, (bind_Ret _ _ _ _ _ Em).
      destruct (IH (i + 1) [d] data w1) as (w' & E & W);
        [ apply (wire_idle _ _ _ _ _ W1) | lia | cbn [length]; lia
        | rewrite Hnext, Hz; reflexivity | cbn [length] in Hd; lia |].
      exists w'. split; [exact E|].
      assert (Hlen : length pend = 0%nat \/ length pend = 4%nat)
        by (rewrite Hz in Hm; Z.div_mod_to_equations; lia).
      destruct pend as [|a [|b [|c [|e [|f pend]]]]];
        cbn [length] in Hlen; try lia.
      * exact (wire_trans 0 0 _ _ _ _ _ _ _ W1 W).
      * exact (wire_trans 0 0 _ _ _ _ _ _ _ W1 W).
    + rewrite bind_ret_l.
      rewrite bind_assoc, (bind_Ret _ _ _ _ _ (MCU_fast_pending d pend w)).
      assert (Hlen : (0 < length pend < 4)%nat) by (rewrite Hm in Hz; Z.div_mod_to_equations; lia).
      destruct (IH (i + 1) (pend ++ [d]) data w) as (w' & E & W);
        [ exact Hi | lia | rewrite length_app; cbn [length]; lia
        | | cbn [length] in Hd; lia |].
      * rewrite Hnext, Hm, length_app. cbn [length].
        rewrite Nat2Z.inj_add, Zplus_mod_idemp_l. reflexivity.
      * exists w'. split; [exact E|]. now rewrite <- app_assoc in W.
Qed.

Lemma talks_assoc2 {B : Type} (m1 m2 : M unit) (k : unit -> M B) (b : B)
    (ws : list Z) (ps : list (list Z)) (ds : list diag) (w : world) :
  talks ((m1 ;; m2) ;; k tt) b ws ps ds w ->
  talks (m1 ;; m2 ;; k tt) b ws ps ds w.
Proof.
  intros H Hi rest Hs. destruct (H Hi rest Hs) as (w' & E & W).
  exists w'. split; [|exact W]. rewrite <- E. unfold bind.
  destruct (m1 w) as [[] w1| | |]; reflexivity.
Qed.

Lemma talks_assoc3 {B : Type} (m1 m2 m3 : M unit) (k : unit -> M B) (b : B)
    (ws : list Z) (ps : list (list Z)) (ds : list diag) (w : world) :
  talks ((m1 ;; m2 ;; m3) ;; k tt) b ws ps ds w ->
  talks (m1 ;; m2 ;; m3 ;; k tt) b ws ps ds w.
Proof.
  intros H Hi rest Hs. destruct (H Hi rest Hs) as (w' & E & W).
  exists w'. split; [|exact W]. rewrite <- E. unfold bind.
  destruct (m1 w) as [[] w1| | |]; [|reflexivity..].
  destruct (m2 w1) as [[] w2| | |]; reflexivity.
Qed.

Lemma talks_request_fast (header addr : Z) (w : world) :
  talks (neofoxx_xferFastData_MCU_fast header 0 ;;
         neofoxx_xferFastData_MCU_fast addr 0 ;;
         neofoxx_flush_output)
        tt [] [batch_packet [header; addr]] [] w.
Proof.
  intros Hi rest Hs.
  pose proof (MCU_fast_pending header [] w) as E1.
  change (pending [] w) with w in E1. cbn [app] in E1.
  rewrite (bind_Ret _ _ _ _ _ E1).
  rewrite (bind_Ret _ _ _ _ _ (MCU_fast_pending addr [header] w)). cbn [app].
  exact (flush_pending [header; addr] w Hi).
Qed.

Lemma talks_row_words_fast (n : nat) (data : list Z) (w : world) :
  (n <= length data)%nat ->
  talks (row_words_fast n 0 data ;; neofoxx_flush_output) tt []
        (map batch_packet (four_by_four (firstn n data))) [] w.
Proof.
  intros Hd Hi rest Hs.
  exact (row_words_fast_run n 0 [] data w Hi ltac:(lia) ltac:(cbn; lia)
           eq_refl Hd).
Qed.

Lemma talks_old_way_new (w : world) :
  way (ses w) <> WAY_OLD -> talks (old_way 0) false [] [] [] w.
Proof.
  intros Hw Hi rest Hs. exists w. split; [|now apply wire_refl].
  unfold old_way. rewrite bind_gets. cbn [Z.eqb negb].
  destruct (Z.eqb_spec WAY_OLD (way (ses w))); [congruence | reflexivity].
Qed.

Section ProgramRowNew.
Context {K : pic32_h} {K' : pic32_h_more}.
Hypothesis disjoint : tables_disjoint.

Lemma talks_program_row_new (fuel : nat) (addr : Z) (data : list Z)
    (words_per_row : Z) (bad : list Z) (good response : Z) (w : world) :
  use_executive (ses w) <> 0 ->
  way (ses w) <> WAY_OLD ->
  (Z.to_nat (u32 words_per_row) <= length data)%nat ->
  Forall pracc_clear bad ->
  Z.land (u32 good) CONTROL_PRACC <> 0 ->
  (length bad <= fuel)%nat ->
  talks (program_row_exchange fuel addr data words_per_row) (u32 response)
        (bad ++ [good; response])
        (command_packet MTAP_COMMAND_NBITS ETAP_FASTDATA
         :: batch_packet [Z.lor (Z.shiftl PE_ROW_PROGRAM 16) (u32 words_per_row);
                          addr]
         :: map batch_packet
              (four_by_four (firstn (Z.to_nat (u32 words_per_row)) data))
         ++ response_packets (S (length bad)))
        [ErrWayNewNotImplemented] w.
Proof.
  intros Hue Hway Hd Hb Hg Hf.
  unfold program_row_exchange. cbv zeta. apply talks_gets.
  apply Z.eqb_neq in Hue. rewrite Hue.
  tstep_as ltac:(apply talks_ret) w1 W1.
  tstep_as ltac:(apply talks_old_way_new;
                 rewrite (wire_way _ _ _ _ _ W1); exact Hway) w2 W2.
  tstep ltac:(apply talks_fprintf; reflexivity).
  tstep ltac:(apply (talks_command_etap disjoint), is_etap_ETAP_FASTDATA).
  apply (talks_assoc3 _ _ _ (fun _ => _)).
  tstep ltac:(apply talks_request_fast).
  apply (talks_assoc2 _ _ (fun _ => _)).
  eapply talks_bind;
    [ apply talks_row_words_fast; exact Hd
    | intros wl _ | reflexivity | reflexivity | reflexivity ].
  apply (talks_get_pe_response disjoint); assumption.
Qed.

End ProgramRowNew.

(** X15: neofoxx_program_row on the new way, up to the answer of the PE: the
    call prints that the new way is not implemented and goes on all the
    same.  With the PE resident it selects FASTDATA, sends the opcode over
    the count and the address together in one packet, and then the first
    [words_per_row] words of the buffer in order, four to a packet (the last
    packet takes what is left); no transfer carries the read flag, so that
    no reply is taken before the answer is polled as in [get_pe_response]. *)
Theorem program_row_new_way {K : pic32_h} {K' : pic32_h_more} (fuel : nat)
    (addr : Z) (data : list Z) (words_per_row : Z)
    (bad : list Z) (good response : Z) (rest : list Z) (w : world) :
  tables_disjoint -> idle w ->
  use_executive (ses w) <> 0 ->
  way (ses w) <> WAY_OLD ->
  (Z.to_nat (u32 words_per_row) <= length data)%nat ->
  Forall pracc_clear bad ->
  Z.land (u32 good) CONTROL_PRACC <> 0 ->
  (length bad <= fuel)%nat ->
  stream w = words_bytes (bad ++ [good; response]) ++ rest ->
  exists w', program_row_exchange fuel addr data words_per_row w
             = Ret (u32 response) w'
             /\ wire (8 * length (bad ++ [good; response]))
                  (command_packet MTAP_COMMAND_NBITS ETAP_FASTDATA
                   :: batch_packet
                        [Z.lor (Z.shiftl PE_ROW_PROGRAM 16) (u32 words_per_row);
                         addr]
                   :: map batch_packet
                        (four_by_four
                           (firstn (Z.to_nat (u32 words_per_row)) data))
                   ++ response_packets (S (length bad)))
                  [ErrWayNewNotImplemented] w w'
             /\ stream w' = rest.
Proof.
  intros Hd Hi Hue Hway Hn Hb Hg Hf Hs.
  exact (talks_run _ _ _ _ _ _ _
           (talks_program_row_new Hd fuel addr data words_per_row bad good
              response w Hue Hway Hn Hb Hg Hf) Hi Hs).
Qed.

Lemma program_row_new_way_witness :
  exists w', @program_row_exchange pic32_values pic32_more_values 0
               0x1d000000 [0x11; 0x22; 0x33; 0x44; 0x55; 0x66] 6
               (target (new_way_session FAMILY_MZ INTERFACE_JTAG 1)
                       (reply_words [0x40000; 0]))
             = Ret 0 w'
             /\ wire 16
                  (command_packet 5 0x0e
                   :: batch_packet [6; 0x1d000000]
                   :: map batch_packet [[0x11; 0x22; 0x33; 0x44]; [0x55; 0x66]]
                   ++ @response_packets pic32_values 1)
                  [ErrWayNewNotImplemented]
                  (target (new_way_session FAMILY_MZ INTERFACE_JTAG 1)
                          (reply_words [0x40000; 0])) w'
             /\ stream w' = [].
Proof.
  apply (@program_row_new_way pic32_values pic32_more_values 0 0x1d000000
           [0x11; 0x22; 0x33; 0x44; 0x55; 0x66] 6 [] 0x40000 0 []).
  - exact pic32_values_disjoint.
  - split; reflexivity.
  - discriminate.
  - discriminate.
  - cbn. lia.
  - constructor.
  - discriminate.
  - cbn [length]. lia.
  - reflexivity.
Defined.

(** ** neofoxx_xferFastData_PC_slow and neofoxx_recv *)

(** X16: neofoxx_xferFastData_PC_slow: with or without [readFlag] the call
    sends the word with the read flag set and takes one 64-bit reply; it
    hands the reply back only when [readFlag] is set, and returns 0
    otherwise.  A reply with bit 0 (PrACC) clear is reported on stderr and
    changes nothing else. *)
Theorem xferFastData_reply (word readFlag r : Z) (rest : list Z) (w : world) :
  idle w -> stream w = le_bytes 8 r ++ rest ->
  exists w', neofoxx_xferFastData_PC_slow word readFlag w
             = Ret (if readFlag =? 0 then 0 else r mod 2 ^ 64) w'
             /\ wire 8 [fastdata_packet word]
                     (if Z.land r 1 =? 0 then [WarnPrACCNotSet] else []) w w'
             /\ stream w' = rest.
Proof.
  intros Hi Hs.
  pose proof (talks_xferFastData word readFlag r w) as T.
  rewrite pracc_bit in T.
  apply (talks_run _ _ _ _ _ rest _ T Hi).
  cbn [words_bytes flat_map]. now rewrite app_nil_r.
Qed.

Lemma xferFastData_reply_witness :
  exists w', neofoxx_xferFastData_PC_slow 0xdeadbeef 0
               (target (idle_session FAMILY_MZ INTERFACE_JTAG 1)
                       (reply_words [0x1234]))
             = Ret 0 w'
             /\ wire 8 [fastdata_packet 0xdeadbeef] [WarnPrACCNotSet]
                     (target (idle_session FAMILY_MZ INTERFACE_JTAG 1)
                             (reply_words [0x1234])) w'
             /\ stream w' = [].
Proof.
  apply (xferFastData_reply 0xdeadbeef 0 0x1234 []).
  - split; reflexivity.
  - reflexivity.
Defined.

Lemma MCU_fast_read_queued (word : Z) (w : world) :
  neofoxx_xferFastData_MCU_fast word 1 w
  = Ret tt (expecting 8 (queued (fastdata_read_payload word) w)).
Proof.
  unfold neofoxx_xferFastData_MCU_fast, fastdata_read_payload.
  now rewrite send_queued.
Qed.

Lemma firstn_skipn_prefix (n m : nat) (l l' : list Z) :
  firstn (n + m) l = firstn (n + m) l' ->
  firstn m (skipn n l) = firstn m (skipn n l').
Proof. intros H. now rewrite !firstn_skipn_comm, H. Qed.

Lemma firstn_le_prefix (n m : nat) (l l' : list Z) :
  (n <= m)%nat -> firstn m l = firstn m l' -> firstn n l = firstn n l'.
Proof.
  intros Hn H. replace n with (Nat.min n m) by lia.
  rewrite <- !firstn_firstn. now rewrite H.
Qed.

Lemma wire_cursor (n : nat) (ps : list (list Z)) (ds : list diag)
    (c : Z) (w w' : world) :
  wire n ps ds w w' ->
  wire n ps ds w (mkWorld (set_current_pos_input c (ses w')) (port w') (stderr w')).
Proof.
  intros [F I U S Wy [Ho Hr] St T D].
  constructor; [exact F | exact I | exact U | exact S | exact Wy
               | split; [exact Ho | exact Hr] | exact St | exact T | exact D].
Qed.

Lemma recv_at (w w1 : world) :
  neofoxx_flush_output w = Ret tt w1 ->
  neofoxx_recv w
  = Ret (le_word (firstn 8 (skipn (Z.to_nat (current_pos_input (ses w1)))
                                  (input (ses w1)))))
        (mkWorld (set_current_pos_input (current_pos_input (ses w1) + 8) (ses w1))
                 (port w1) (stderr w1)).
Proof.
  intros E. unfold neofoxx_recv. rewrite (bind_Ret _ _ _ _ _ E). reflexivity.
Qed.

(** X17: neofoxx_xferFastData_MCU_fast and neofoxx_recv: two transfers queued
    with the read flag go out together in one packet at the first
    [neofoxx_recv], which takes both replies and returns the first; the
    second [neofoxx_recv] writes and reads nothing and returns the second
    reply from the receive buffer. *)
Theorem recv_pipelined (a b ra rb : Z) (rest : list Z) (w : world) :
  idle w -> stream w = le_bytes 8 ra ++ le_bytes 8 rb ++ rest ->
  exists w', (neofoxx_xferFastData_MCU_fast a 1 ;;
              neofoxx_xferFastData_MCU_fast b 1 ;;
              r1 <- neofoxx_recv ;;
              r2 <- neofoxx_recv ;;
              ret (r1, r2)) w
             = Ret (ra mod 2 ^ 64, rb mod 2 ^ 64) w'
             /\ wire 16 [packet_of (fastdata_read_payload a
                                    ++ fastdata_read_payload b)] [] w w'
             /\ stream w' = rest
             /\ current_pos_input (ses w') = 16.
Proof.
  intros Hi Hs.
  rewrite (bind_Ret _ _ _ _ _ (MCU_fast_read_queued a w)).
  rewrite (bind_Ret _ _ _ _ _ (MCU_fast_read_queued b _)).
  set (w2 := expecting 8 (queued (fastdata_read_payload b)
                            (expecting 8 (queued (fastdata_read_payload a) w)))).
  assert (O2 : output (ses w2)
               = PACKET_BYTE :: 0 :: 0
                 :: fastdata_read_payload a ++ fastdata_read_payload b).
  { destruct Hi as [Ho _]. subst w2. unfold expecting, queued.
    cbn [ses set_bytes_to_read set_output output]. rewrite Ho.
    cbn [app]. reflexivity. }
  assert (R2 : bytes_to_read (ses w2) = 16).
  { destruct Hi as [_ Hr]. subst w2. unfold expecting, queued.
    cbn [ses set_bytes_to_read set_output bytes_to_read]. rewrite Hr.
    reflexivity. }
  assert (S2 : stream w2 = stream w) by reflexivity.
  destruct (flush_wire_read w2 (fastdata_read_payload a ++ fastdata_read_payload b))
    as (w3 & E3 & W3 & C3 & I3);
    [ exact O2 | discriminate
    | rewrite R2, S2, Hs, !length_app, !le_bytes_length; lia |].
  rewrite R2 in W3, I3. change (Z.to_nat 16) with 16%nat in W3, I3.
  rewrite S2 in I3.
  rewrite (bind_Ret _ _ _ _ _ (recv_at w2 w3 E3)), C3.
  set (w4 := mkWorld (set_current_pos_input (0 + 8) (ses w3)) (port w3) (stderr w3)).
  assert (E4 : neofoxx_flush_output w4 = Ret tt w4)
    by (apply flush_output_empty; exact (proj1 (wire_idle _ _ _ _ _ W3))).
  rewrite (bind_Ret _ _ _ _ _ (recv_at w4 w4 E4)). cbn [ret].
  change (current_pos_input (ses w4)) with 8.
  change (input (ses w4)) with (input (ses w3)).
  change (Z.to_nat 0) with 0%nat. change (Z.to_nat 8) with 8%nat.
  change (skipn 0 (input (ses w3))) with (input (ses w3)).
  assert (F1 : firstn 8 (input (ses w3)) = le_bytes 8 ra).
  { rewrite (firstn_le_prefix 8 16 _ (stream w) ltac:(lia) I3), Hs.
    rewrite firstn_app, le_bytes_length, Nat.sub_diag, firstn_O, app_nil_r.
    apply firstn_all2. rewrite le_bytes_length. lia. }
  assert (F2 : firstn 8 (skipn 8 (input (ses w3))) = le_bytes 8 rb).
  { rewrite (firstn_skipn_prefix 8 8 _ (stream w) I3), Hs.
    rewrite skipn_app, le_bytes_length, Nat.sub_diag.
    rewrite skipn_all2 by (rewrite le_bytes_length; lia).
    change (skipn 0 (le_bytes 8 rb ++ rest)) with (le_bytes 8 rb ++ rest).
    rewrite app_nil_l.
    rewrite firstn_app, le_bytes_length, Nat.sub_diag, firstn_O, app_nil_r.
    apply firstn_all2. rewrite le_bytes_length. lia. }
  rewrite F1, F2, !le_word_le_bytes.
  assert (Ww : wire 16 [packet_of (fastdata_read_payload a
                                   ++ fastdata_read_payload b)] [] w w3).
  { apply wire_from_queued with (data := fastdata_read_payload a).
    apply wire_from_expecting with (k := 8).
    apply wire_from_queued with (data := fastdata_read_payload b).
    apply wire_from_expecting with (k := 8). exact W3. }
  exists (mkWorld (set_current_pos_input (8 + 8) (ses w4)) (port w4) (stderr w4)).
  split; [reflexivity|]. split; [|split].
  - apply wire_cursor. unfold w4. apply wire_cursor. exact Ww.
  - change (stream w3 = rest). rewrite (wire_stream _ _ _ _ _ Ww), Hs.
    exact (skipn_words_bytes [ra; rb] rest).
  - reflexivity.
Qed.

Lemma recv_pipelined_witness :
  exists w', (neofoxx_xferFastData_MCU_fast 0x11 1 ;;
              neofoxx_xferFastData_MCU_fast 0x22 1 ;;
              r1 <- neofoxx_recv ;;
              r2 <- neofoxx_recv ;;
              ret (r1, r2))
               (target (idle_session FAMILY_MZ INTERFACE_JTAG 1)
                       (reply_words [0x155; 0x2ab]))
             = Ret (0x155, 0x2ab) w'
             /\ wire 16 [packet_of (fastdata_read_payload 0x11
                                    ++ fastdata_read_payload 0x22)] []
                     (target (idle_session FAMILY_MZ INTERFACE_JTAG 1)
                             (reply_words [0x155; 0x2ab])) w'
             /\ stream w' = []
             /\ current_pos_input (ses w') = 16.
Proof.
  apply (recv_pipelined 0x11 0x22 0x155 0x2ab []).
  - split; reflexivity.
  - reflexivity.
Defined.

(** ** neofoxx_program_word *)

Section ProgramWord.
Context {K : pic32_h}.
Hypothesis disjoint : tables_disjoint.

Lemma talks_word_request (fuel : nat) (addr word : Z) (a0 a1 a2 : Z)
    (bad : list Z) (good response : Z) (w : world) :
  pracc_ack a0 -> pracc_ack a1 -> pracc_ack a2 ->
  Forall pracc_clear bad ->
  Z.land (u32 good) CONTROL_PRACC <> 0 ->
  (length bad <= fuel)%nat ->
  talks (neofoxx_sendCommand ETAP_FASTDATA 1 ;;
         neofoxx_xferFastData_PC_slow (Z.lor (Z.shiftl PE_WORD_PROGRAM 16) 2) 0 ;;
         neofoxx_xferFastData_PC_slow addr 0 ;;
         neofoxx_xferFastData_PC_slow word 0 ;;
         get_pe_response fuel)
        (u32 response) (a0 :: a1 :: a2 :: bad ++ [good; response])
        (command_packet MTAP_COMMAND_NBITS ETAP_FASTDATA
         :: map fastdata_packet [Z.lor (Z.shiftl PE_WORD_PROGRAM 16) 2; addr; word]
         ++ response_packets (S (length bad))) [] w.
Proof.
  intros H0 H1 H2 Hb Hg Hf.
  tstep ltac:(apply (talks_command_etap disjoint), is_etap_ETAP_FASTDATA).
  cbn [map app].
  tstep ltac:(apply (talks_xferFastData_ack _ 0 a0); exact H0).
  tstep ltac:(apply (talks_xferFastData_ack _ 0 a1); exact H1).
  tstep ltac:(apply (talks_xferFastData_ack _ 0 a2); exact H2).
  apply (talks_get_pe_response disjoint); assumption.
Qed.

End ProgramWord.

Ltac qstep_as lem w W :=
  eapply quits_bind; [ lem | | reflexivity | reflexivity | reflexivity ];
  [ intros w W; cbn beta ].

Section ProgramWordOutcomes.
Context {K : pic32_h}.
Hypothesis disjoint : tables_disjoint.
Variables (fuel : nat) (addr word a0 a1 a2 : Z) (bad : list Z)
          (good response : Z).
Hypothesis ack0 : pracc_ack a0.
Hypothesis ack1 : pracc_ack a1.
Hypothesis ack2 : pracc_ack a2.
Hypothesis polls : Forall pracc_clear bad.
Hypothesis ready : Z.land (u32 good) CONTROL_PRACC <> 0.
Hypothesis enough : (length bad <= fuel)%nat.

Lemma talks_program_word (w : world) :
  use_executive (ses w) <> 0 ->
  u32 response = u32 (Z.shiftl PE_WORD_PROGRAM 16) ->
  talks (neofoxx_program_word fuel addr word) tt
        (a0 :: a1 :: a2 :: bad ++ [good; response])
        (command_packet MTAP_COMMAND_NBITS ETAP_FASTDATA
         :: map fastdata_packet [Z.lor (Z.shiftl PE_WORD_PROGRAM 16) 2; addr; word]
         ++ response_packets (S (length bad)))
        ((if family_eqb FAMILY_MM (family_name_short (ses w))
          then [ErrWordNotOnMM] else []) ++ [MsgWorkaround]) w.
Proof.
  intros Hue Hr. unfold neofoxx_program_word. cbv zeta. apply talks_gets.
  assert (Hrest : forall w1,
    use_executive (ses w1) = use_executive (ses w) ->
    talks (ue <- gets use_executive ;;
           (if ue =? 0 then fprintf_stderr ErrSlowWriteNotImplemented ;; exit_
            else ret tt) ;;
           old <- old_way 1 ;;
           if old then
             (if negb (1 =? 0) then fprintf_stderr MsgWorkaround else ret tt) ;;
             word_program_request fuel addr word
           else fprintf_stderr ErrWayNewNotImplemented) tt
          (a0 :: a1 :: a2 :: bad ++ [good; response])
          (command_packet MTAP_COMMAND_NBITS ETAP_FASTDATA
           :: map fastdata_packet
                [Z.lor (Z.shiftl PE_WORD_PROGRAM 16) 2; addr; word]
           ++ response_packets (S (length bad)))
          [MsgWorkaround] w1).
  { intros w1 U1. apply talks_gets. rewrite U1.
    apply Z.eqb_neq in Hue. rewrite Hue.
    tstep ltac:(apply talks_ret).
    tstep ltac:(apply talks_old_way_workaround).
    cbn [Z.eqb negb].
    tstep ltac:(apply talks_fprintf; reflexivity).
    unfold word_program_request.
    tstep ltac:(apply (talks_command_etap disjoint), is_etap_ETAP_FASTDATA).
    cbn [map app].
    tstep ltac:(apply (talks_xferFastData_ack _ 0 a0); exact ack0).
    tstep ltac:(apply (talks_xferFastData_ack _ 0 a1); exact ack1).
    tstep ltac:(apply (talks_xferFastData_ack _ 0 a2); exact ack2).
    eapply talks_bind;
      [ apply (talks_get_pe_response disjoint bad good response fuel);
        assumption
      | intros wr _ | symmetry; apply app_nil_r | symmetry; apply app_nil_r
      | reflexivity ].
    rewrite Hr, Z.eqb_refl. apply talks_ret. }
  destruct (family_eqb FAMILY_MM (family_name_short (ses w))).
  - tstep_as ltac:(apply talks_fprintf; reflexivity) w1 W1.
    apply Hrest. apply (wire_use_executive _ _ _ _ _ W1).
  - tstep_as ltac:(apply talks_ret) w1 W1.
    apply Hrest. apply (wire_use_executive _ _ _ _ _ W1).
Qed.

Lemma quits_program_word (w : world) :
  use_executive (ses w) <> 0 ->
  u32 response <> u32 (Z.shiftl PE_WORD_PROGRAM 16) ->
  quits (neofoxx_program_word fuel addr word)
        (a0 :: a1 :: a2 :: bad ++ [good; response])
        (command_packet MTAP_COMMAND_NBITS ETAP_FASTDATA
         :: map fastdata_packet [Z.lor (Z.shiftl PE_WORD_PROGRAM 16) 2; addr; word]
         ++ response_packets (S (length bad)))
        ((if family_eqb FAMILY_MM (family_name_short (ses w))
          then [ErrWordNotOnMM] else [])
         ++ [MsgWorkaround; ErrProgramWordFailed word addr (u32 response)]) w.
Proof.
  intros Hue Hr. unfold neofoxx_program_word. cbv zeta. apply quits_gets.
  assert (Hrest : forall w1,
    use_executive (ses w1) = use_executive (ses w) ->
    quits (ue <- gets use_executive ;;
           (if ue =? 0 then fprintf_stderr ErrSlowWriteNotImplemented ;; exit_
            else ret tt) ;;
           old <- old_way 1 ;;
           if old then
             (if negb (1 =? 0) then fprintf_stderr MsgWorkaround else ret tt) ;;
             word_program_request fuel addr word
           else fprintf_stderr ErrWayNewNotImplemented)
          (a0 :: a1 :: a2 :: bad ++ [good; response])
          (command_packet MTAP_COMMAND_NBITS ETAP_FASTDATA
           :: map fastdata_packet
                [Z.lor (Z.shiftl PE_WORD_PROGRAM 16) 2; addr; word]
           ++ response_packets (S (length bad)))
          [MsgWorkaround; ErrProgramWordFailed word addr (u32 response)] w1).
  { intros w1 U1. apply quits_gets. rewrite U1.
    apply Z.eqb_neq in Hue. rewrite Hue.
    qstep ltac:(apply talks_ret).
    qstep ltac:(apply talks_old_way_workaround).
    cbn [Z.eqb negb].
    qstep ltac:(apply talks_fprintf; reflexivity).
    unfold word_program_request.
    qstep ltac:(apply (talks_command_etap disjoint), is_etap_ETAP_FASTDATA).
    cbn [map app].
    qstep ltac:(apply (talks_xferFastData_ack _ 0 a0); exact ack0).
    qstep ltac:(apply (talks_xferFastData_ack _ 0 a1); exact ack1).
    qstep ltac:(apply (talks_xferFastData_ack _ 0 a2); exact ack2).
    eapply quits_bind;
      [ apply (talks_get_pe_response disjoint bad good response fuel);
        assumption
      | intros wr _ | symmetry; apply app_nil_r | symmetry; apply app_nil_r
      | reflexivity ].
    apply Z.eqb_neq in Hr. rewrite Hr. cbn [negb].
    apply quits_fprintf_exit. reflexivity. }
  destruct (family_eqb FAMILY_MM (family_name_short (ses w))).
  - qstep_as ltac:(apply talks_fprintf; reflexivity) w1 W1.
    apply Hrest. apply (wire_use_executive _ _ _ _ _ W1).
  - qstep_as ltac:(apply talks_ret) w1 W1.
    apply Hrest. apply (wire_use_executive _ _ _ _ _ W1).
Qed.

End ProgramWordOutcomes.

(** X18: neofoxx_program_word with the PE resident: the call selects FASTDATA
    and sends the opcode over the count 2, the address and the word, each
    answered by one reply word, and waits for the answer as
    [get_pe_response] does.  It returns when the low 32 bits of the answer
    are the opcode over a zero low half, and ends the program after the
    line with word, address and answer otherwise; in both cases the request
    has gone out whole. *)
Theorem program_word_outcomes {K : pic32_h} (fuel : nat) (addr word : Z)
    (a0 a1 a2 : Z) (bad : list Z) (good response : Z) (rest : list Z)
    (w : world) :
  tables_disjoint -> idle w ->
  use_executive (ses w) <> 0 ->
  Forall pracc_ack [a0; a1; a2] ->
  Forall pracc_clear bad ->
  Z.land (u32 good) CONTROL_PRACC <> 0 ->
  (length bad <= fuel)%nat ->
  stream w = words_bytes (a0 :: a1 :: a2 :: bad ++ [good; response]) ++ rest ->
  let ps := command_packet MTAP_COMMAND_NBITS ETAP_FASTDATA
            :: map fastdata_packet
                 [Z.lor (Z.shiftl PE_WORD_PROGRAM 16) 2; addr; word]
            ++ response_packets (S (length bad)) in
  let ds := (if family_eqb FAMILY_MM (family_name_short (ses w))
             then [ErrWordNotOnMM] else []) in
  if u32 response =? u32 (Z.shiftl PE_WORD_PROGRAM 16) then
    exists w', neofoxx_program_word fuel addr word w = Ret tt w'
               /\ wire (8 * length (a0 :: a1 :: a2 :: bad ++ [good; response]))
                       ps (ds ++ [MsgWorkaround]) w w'
               /\ stream w' = rest
  else
    exists w', neofoxx_program_word fuel addr word w = Exit w'
               /\ tx (port w') = tx (port w) ++ ps
               /\ diags w'
                  = diags w
                    ++ ds ++ [MsgWorkaround;
                              ErrProgramWordFailed word addr (u32 response)]
               /\ stream w' = rest.
Proof.
  intros Hd Hi Hue Ha Hb Hg Hf Hs ps ds.
  inversion Ha as [|? ? H0 Ha1]; subst.
  inversion Ha1 as [|? ? H1 Ha2]; subst.
  inversion Ha2 as [|? ? H2 _]; subst.
  destruct (Z.eqb_spec (u32 response) (u32 (Z.shiftl PE_WORD_PROGRAM 16)))
    as [Hr|Hr].
  - exact (talks_run _ _ _ _ _ _ _
             (talks_program_word Hd fuel addr word a0 a1 a2 bad good response
                H0 H1 H2 Hb Hg Hf w Hue Hr) Hi Hs).
  - exact (quits_program_word Hd fuel addr word a0 a1 a2 bad good response
             H0 H1 H2 Hb Hg Hf w Hue Hr Hi rest Hs).
Qed.

Lemma program_word_outcomes_witness :
  exists w', @neofoxx_program_word pic32_values 0 0x1d000000 0xdeadbeef
               (target (idle_session FAMILY_MZ INTERFACE_JTAG 1)
                       (reply_words [1; 1; 1; 0x40000; 0x30001]))
             = Exit w'
             /\ tx (port w')
                = [] ++ command_packet 5 0x0e
                        :: map fastdata_packet [0x30002; 0x1d000000; 0xdeadbeef]
                        ++ @response_packets pic32_values 1
             /\ diags w'
                = [] ++ [] ++ [MsgWorkaround;
                               ErrProgramWordFailed 0xdeadbeef 0x1d000000 0x30001]
             /\ stream w' = [].
Proof.
  apply (@program_word_outcomes pic32_values 0 0x1d000000 0xdeadbeef 1 1 1 []
           0x40000 0x30001 []
           (target (idle_session FAMILY_MZ INTERFACE_JTAG 1)
                   (reply_words [1; 1; 1; 0x40000; 0x30001]))).
  - exact pic32_values_disjoint.
  - split; reflexivity.
  - discriminate.
  - repeat constructor; discriminate.
  - constructor.
  - discriminate.
  - cbn [length]. lia.
  - reflexivity.
Defined.

(** ** neofoxx_read_data through the PE *)

Section ReadBurst.
Context {K : pic32_h}.
Hypothesis disjoint : tables_disjoint.

Lemma talks_get_pe_words (fuel : nat) (answers : list (Z * Z)) :
  Forall (fun p => Z.land (u32 (fst p)) CONTROL_PRACC <> 0) answers ->
  forall w,
  talks (get_pe_words fuel (length answers)) (burst_words answers)
        (burst_stream answers)
        (concat (repeat (response_packets 1) (length answers))) [] w.
Proof.
  intros Ha. induction Ha as [|[g r] answers Hg Ha IH]; intros w.
  - apply talks_ret.
  - cbn [length get_pe_words burst_words burst_stream map flat_map repeat
         concat fst snd app] in *.
    eapply talks_bind;
      [ apply (talks_get_pe_response disjoint [] g r fuel);
        [constructor | exact Hg | cbn [length]; lia]
      | intros w1 _ | reflexivity | reflexivity | reflexivity ].
    eapply talks_bind;
      [ apply IH | intros w2 _; apply talks_ret
      | symmetry; apply app_nil_r | symmetry; apply app_nil_r | reflexivity ].
Qed.

Lemma talks_read_words_pe_done (turns fuel : nat) (words_read nwords addr : Z)
    (w : world) :
  nwords <= words_read ->
  talks (read_words_pe turns fuel words_read nwords addr) [] [] [] [] w.
Proof.
  intros H. apply Z.ltb_ge in H.
  destruct turns; cbn [read_words_pe]; rewrite H; apply talks_ret.
Qed.

Variables (fuel : nat) (addr nwords a0 a1 good response : Z)
          (answers : list (Z * Z)).
Hypothesis ack0 : pracc_ack a0.
Hypothesis ack1 : pracc_ack a1.
Hypothesis ready : Z.land (u32 good) CONTROL_PRACC <> 0.
Hypothesis count : 0 < nwords <= 32.
Hypothesis turns : (0 < fuel)%nat.

Lemma talks_read_data_burst (w : world) :
  use_executive (ses w) <> 0 ->
  u32 response = u32 (Z.shiftl PE_READ 16) ->
  length answers = 32%nat ->
  Forall (fun p => Z.land (u32 (fst p)) CONTROL_PRACC <> 0) answers ->
  talks (neofoxx_read_data fuel addr nwords) (burst_words answers)
        (a0 :: a1 :: good :: response :: burst_stream answers)
        (command_packet MTAP_COMMAND_NBITS ETAP_FASTDATA
         :: fastdata_packet (Z.lor (Z.shiftl PE_READ 16) 32)
         :: fastdata_packet addr
         :: response_packets 1
         ++ concat (repeat (response_packets 1) 32))
        [MsgWorkaround] w.
Proof.
  intros Hue Hr Hl Ha. unfold neofoxx_read_data. cbv zeta.
  tstep_as ltac:(apply talks_old_way_workaround) w1 W1.
  cbn [Z.eqb negb].
  tstep_as ltac:(apply talks_fprintf; reflexivity) w2 W2.
  apply talks_gets.
  rewrite (wire_use_executive _ _ _ _ _ W2), (wire_use_executive _ _ _ _ _ W1).
  apply Z.eqb_neq in Hue. rewrite Hue.
  destruct fuel as [|fuel']; [lia|]. cbn [read_words_pe].
  replace (0 <? nwords) with true by (symmetry; apply Z.ltb_lt; lia).
  eapply talks_bind with (ws' := []) (ps' := []) (ds' := []);
    [ | intros w3 _
    | symmetry; apply app_nil_r | symmetry; apply app_nil_r
    | symmetry; apply app_nil_r ].
  2:{ eapply talks_bind;
        [ apply talks_read_words_pe_done; change (u32 (0 + 32)) with 32; lia
        | intros w4 _; rewrite app_nil_r; apply talks_ret
        | reflexivity | reflexivity | reflexivity ]. }
  unfold read_burst.
  tstep ltac:(apply (talks_command_etap disjoint), is_etap_ETAP_FASTDATA).
  tstep ltac:(apply (talks_xferFastData_ack _ 0 a0); exact ack0).
  tstep ltac:(apply (talks_xferFastData_ack _ 0 a1); exact ack1).
  eapply talks_bind with (ws := [good; response]);
    [ apply (talks_get_pe_response disjoint [] good response (S fuel'));
      [constructor | exact ready | cbn [length]; lia]
    | intros w5 _ | reflexivity | reflexivity | reflexivity ].
  rewrite Hr, Z.eqb_refl. cbn [negb].
  tstep ltac:(apply talks_ret).
  pose proof (talks_get_pe_words (S fuel') answers Ha) as Tw.
  rewrite Hl in Tw. apply Tw.
Qed.

Lemma quits_read_data_burst (w : world) :
  use_executive (ses w) <> 0 ->
  u32 response <> u32 (Z.shiftl PE_READ 16) ->
  quits (neofoxx_read_data fuel addr nwords)
        [a0; a1; good; response]
        (command_packet MTAP_COMMAND_NBITS ETAP_FASTDATA
         :: fastdata_packet (Z.lor (Z.shiftl PE_READ 16) 32)
         :: fastdata_packet addr
         :: response_packets 1)
        [MsgWorkaround; ErrBadReadResponse (u32 response)] w.
Proof.
  intros Hue Hr. unfold neofoxx_read_data. cbv zeta.
  qstep_as ltac:(apply talks_old_way_workaround) w1 W1.
  cbn [Z.eqb negb].
  qstep_as ltac:(apply talks_fprintf; reflexivity) w2 W2.
  apply quits_gets.
  rewrite (wire_use_executive _ _ _ _ _ W2), (wire_use_executive _ _ _ _ _ W1).
  apply Z.eqb_neq in Hue. rewrite Hue.
  destruct fuel as [|fuel']; [lia|]. cbn [read_words_pe].
  replace (0 <? nwords) with true by (symmetry; apply Z.ltb_lt; lia).
  apply quits_bind_l. unfold read_burst.
  qstep ltac:(apply (talks_command_etap disjoint), is_etap_ETAP_FASTDATA).
  qstep ltac:(apply (talks_xferFastData_ack _ 0 a0); exact ack0).
  qstep ltac:(apply (talks_xferFastData_ack _ 0 a1); exact ack1).
  eapply quits_bind with (ws := [good; response]);
    [ apply (talks_get_pe_response disjoint [] good response (S fuel'));
      [constructor | exact ready | cbn [length]; lia]
    | intros w5 _ | reflexivity | symmetry; apply app_nil_r | reflexivity ].
  apply Z.eqb_neq in Hr. rewrite Hr. cbn [negb].
  apply quits_bind_l. apply quits_fprintf_exit. reflexivity.
Qed.

End ReadBurst.

(** X19: neofoxx_read_data through the PE, for a block of at most 32 words: the
    call sends one READ request for 32 words at [addr].  When the low 32
    bits of the answer are the READ opcode over a zero low half, it polls
    the PE 32 times as [get_pe_response] does and returns the low 32 bits
    of the 32 words read, in the order they came, whatever [nwords] is;
    otherwise it ends the program after the line with the answer, and no
    word has been asked for. *)
Theorem read_data_burst {K : pic32_h} (fuel : nat) (addr nwords : Z)
    (a0 a1 good response : Z) (answers : list (Z * Z)) (rest : list Z)
    (w : world) :
  tables_disjoint -> idle w ->
  use_executive (ses w) <> 0 ->
  0 < nwords <= 32 ->
  (0 < fuel)%nat ->
  pracc_ack a0 -> pracc_ack a1 ->
  Z.land (u32 good) CONTROL_PRACC <> 0 ->
  length answers = 32%nat ->
  Forall (fun p => Z.land (u32 (fst p)) CONTROL_PRACC <> 0) answers ->
  let request := command_packet MTAP_COMMAND_NBITS ETAP_FASTDATA
                 :: fastdata_packet (Z.lor (Z.shiftl PE_READ 16) 32)
                 :: fastdata_packet addr
                 :: response_packets 1 in
  if u32 response =? u32 (Z.shiftl PE_READ 16) then
    stream w
    = words_bytes (a0 :: a1 :: good :: response :: burst_stream answers) ++ rest ->
    exists w', neofoxx_read_data fuel addr nwords w
               = Ret (burst_words answers) w'
               /\ wire (8 * length (a0 :: a1 :: good :: response
                                    :: burst_stream answers))
                       (request ++ concat (repeat (response_packets 1) 32))
                       [MsgWorkaround] w w'
               /\ stream w' = rest
  else
    stream w = words_bytes [a0; a1; good; response] ++ rest ->
    exists w', neofoxx_read_data fuel addr nwords w = Exit w'
               /\ tx (port w') = tx (port w) ++ request
               /\ diags w'
                  = diags w ++ [MsgWorkaround; ErrBadReadResponse (u32 response)]
               /\ stream w' = rest.
Proof.
  intros Hd Hi Hue Hn Hf H0 H1 Hg Hl Ha request.
  destruct (Z.eqb_spec (u32 response) (u32 (Z.shiftl PE_READ 16))) as [Hr|Hr];
    intros Hs.
  - exact (talks_run _ _ _ _ _ _ _
             (talks_read_data_burst Hd fuel addr nwords a0 a1 good response
                answers H0 H1 Hg Hn Hf w Hue Hr Hl Ha) Hi Hs).
  - exact (quits_read_data_burst Hd fuel addr nwords a0 a1 good response
             H0 H1 Hg Hn Hf w Hue Hr Hi rest Hs).
Qed.

Lemma read_data_burst_witness :
  exists w', @neofoxx_read_data pic32_values 1 0x1d000000 5 w_one_burst
             = Ret (burst_words (repeat (0x40000, 0x11223344) 32)) w'
             /\ wire (8 * length (1 :: 1 :: 0x40000 :: 0x10000
                                  :: burst_stream
                                       (repeat (0x40000, 0x11223344) 32)))
                     ((@command_packet (@MTAP_COMMAND_NBITS pic32_values)
                                       (@ETAP_FASTDATA pic32_values)
                       :: fastdata_packet
                            (Z.lor (Z.shiftl (@PE_READ pic32_values) 16) 32)
                       :: fastdata_packet 0x1d000000
                       :: @response_packets pic32_values 1)
                      ++ concat (repeat (@response_packets pic32_values 1) 32))
                     [MsgWorkaround] w_one_burst w'
             /\ stream w' = [].
Proof.
  assert (Hack : pracc_ack 1) by discriminate.
  assert (Hans : Forall (fun p => Z.land (u32 (fst p))
                                    (@CONTROL_PRACC pic32_values) <> 0)
                   (repeat (0x40000, 0x11223344) 32)).
  { apply Forall_forall. intros p Hp. apply repeat_spec in Hp. subst p.
    discriminate. }
  pose proof (@read_data_burst pic32_values 1 0x1d000000 5 1 1 0x40000 0x10000
                (repeat (0x40000, 0x11223344) 32) [] w_one_burst
                pic32_values_disjoint (conj eq_refl eq_refl)
                ltac:(discriminate) ltac:(lia) ltac:(lia) Hack Hack
                ltac:(discriminate) eq_refl Hans) as H.
  cbv zeta in H.
  change (u32 65536 =? u32 (Z.shiftl (@PE_READ pic32_values) 16)) with true in H.
  cbv iota in H. apply H. reflexivity.
Defined.
